(** * PayPal order and capture pipeline of [backend/index.js]

    A shallow embedding of the backend of the payment sample: the cart
    normalizer ([normalizeItems], [amountToString]), the order total
    ([calculateOrderTotal]), the order payload of [POST /api/orders], the
    capture summary ([extractCaptureSummary]), the capture recorder
    ([persistCapture]), the two route handlers and the error middleware.

    JavaScript values are the values [JSON.parse] produces (plus
    [undefined]); numbers are IEEE 754 binary64 values, computed with the
    executable specification of [SpecFloat]; strings are sequences of
    UTF-16 code units. *)

From Stdlib Require Import ZArith NArith PArith String Ascii List Bool Lia.
From Stdlib Require Import SpecFloat DecimalPos DecimalN.
Import ListNotations.

Local Open Scope Z_scope.

(** ** Strings: sequences of UTF-16 code units *)

Module Str.

Definition code_unit := N.
Definition t := list code_unit.

(** A literal of the source text (all of them are ASCII). *)
Definition lit (s : string) : t := map N_of_ascii (list_ascii_of_string s).

Fixpoint eqb (a b : t) : bool :=
  match a, b with
  | [], [] => true
  | x :: a', y :: b' => N.eqb x y && eqb a' b'
  | _, _ => false
  end.

(** [WhiteSpace] and [LineTerminator] code points of ECMAScript, the ones
    [String.prototype.trim] and [StringToNumber] strip. *)
Definition is_white_space (c : code_unit) : bool :=
  match c with
  | 9 | 10 | 11 | 12 | 13 | 32 | 160 | 5760 | 8232 | 8233 | 8239 | 8287
  | 12288 | 65279 => true
  | _ => (8192 <=? c)%N && (c <=? 8202)%N
  end%N.

Fixpoint trimStart (s : t) : t :=
  match s with
  | c :: s' => if is_white_space c then trimStart s' else s
  | [] => []
  end.

Definition trimEnd (s : t) : t := rev (trimStart (rev s)).

Definition trim (s : t) : t := trimEnd (trimStart s).

Definition is_digit (c : code_unit) : bool := (48 <=? c)%N && (c <=? 57)%N.

Definition digit_value (c : code_unit) : N := (c - 48)%N.

Fixpoint uint_codes (d : Decimal.uint) : t :=
  match d with
  | Decimal.Nil => []
  | Decimal.D0 d => 48%N :: uint_codes d
  | Decimal.D1 d => 49%N :: uint_codes d
  | Decimal.D2 d => 50%N :: uint_codes d
  | Decimal.D3 d => 51%N :: uint_codes d
  | Decimal.D4 d => 52%N :: uint_codes d
  | Decimal.D5 d => 53%N :: uint_codes d
  | Decimal.D6 d => 54%N :: uint_codes d
  | Decimal.D7 d => 55%N :: uint_codes d
  | Decimal.D8 d => 56%N :: uint_codes d
  | Decimal.D9 d => 57%N :: uint_codes d
  end.

(** The decimal digits of a natural number, most significant first, with
    no leading zero (["0"] for zero). *)
Definition of_N (n : N) : t := uint_codes (N.to_uint n).

(** A text between double quotes (code unit 34). *)
Definition quoted (s : t) : t := [34%N] ++ s ++ [34%N].

End Str.

(** ** Numbers: IEEE 754 binary64 *)

Module Num.

Definition prec : Z := 53.
Definition emax : Z := 1024.

Definition t := spec_float.

Definition nan : t := S754_nan.
Definition zero : t := S754_zero false.

Definition mul : t -> t -> t := SFmul prec emax.
Definition add : t -> t -> t := SFadd prec emax.
Definition div : t -> t -> t := SFdiv prec emax.
Definition opp : t -> t := SFopp.
Definition ltb : t -> t -> bool := SFltb.
Definition leb : t -> t -> bool := SFleb.
Definition eqb : t -> t -> bool := SFeqb.

(** The number nearest to an integer (ties to even). *)
Definition of_Z (n : Z) : t := binary_normalize prec emax n 0 false.

(** The number nearest to the ratio [a / b] (ties to even). *)
Definition of_ratio (neg : bool) (a b : positive) : t :=
  let '(q, e, l) := SFdiv_core_binary prec emax (Zpos a) 0 (Zpos b) 0 in
  binary_round_aux prec emax neg q e l.

(** The number nearest to [digits * 10 ^ exp10]: the value of a decimal
    literal ([RoundMVResult]). *)
Definition of_decimal (neg : bool) (digits : N) (exp10 : Z) : t :=
  match digits with
  | N0 => S754_zero neg
  | Npos d =>
      match exp10 with
      | Zneg k => of_ratio neg d (10 ^ k)%positive
      | _ => binary_round prec emax neg (d * Z.to_pos (10 ^ exp10))%positive 0
      end
  end.

Definition isFinite (x : t) : bool :=
  match x with
  | S754_zero _ | S754_finite _ _ _ => true
  | _ => false
  end.

(** [Number.isInteger]: finite with an integral value. *)
Definition isInteger (x : t) : bool :=
  match x with
  | S754_zero _ => true
  | S754_finite _ m e => (0 <=? e) || (Zpos m mod 2 ^ (- e) =? 0)
  | _ => false
  end.

(** Truthiness of a number: everything but [NaN], [+0] and [-0]. *)
Definition truthy (x : t) : bool :=
  match x with
  | S754_zero _ | S754_nan => false
  | _ => true
  end.

(** [floor (x + 1/2)] for a finite [x]: the integer nearest to [x], the
    larger one of two at the same distance. *)
Definition half_up (x : t) : option Z :=
  match x with
  | S754_zero _ => Some 0
  | S754_finite s m e =>
      Some (if 0 <=? e then cond_Zopp s (Zpos m) * 2 ^ e
            else Z.shiftr (2 * cond_Zopp s (Zpos m) + 2 ^ (- e)) (1 - e))
  | _ => None
  end.

(** [Math.round]: [floor (x + 1/2)] as a number, with the sign of [x]
    kept on a zero result; [NaN], the infinities and the zeros are
    returned unchanged.  (A canonical [x] with an exponent [e >= 0] is
    the integer [m * 2 ^ e] already, and [of_Z] gives it back.) *)
Definition round (x : t) : t :=
  match x, half_up x with
  | S754_finite s _ _, Some n => if n =? 0 then S754_zero s else of_Z n
  | _, _ => x
  end.

(** *** [Number::toString] (radix 10) *)

(** The exact value of a positive finite number as a fraction. *)
Definition fraction (m : positive) (e : Z) : Z * Z :=
  if 0 <=? e then (Zpos m * 2 ^ e, 1) else (Zpos m, 2 ^ (- e)).

(** The fraction [num / den] scaled by [10 ^ (- t)]. *)
Definition scale10 (q : Z * Z) (t : Z) : Z * Z :=
  let '(num, den) := q in
  if 0 <=? t then (num, den * 10 ^ t) else (num * 10 ^ (- t), den).

(** The smallest [j >= start] (within [fuel]) with [10 ^ j * num >= den]. *)
Fixpoint first_digit_shift (fuel : nat) (j : Z) (num den : Z) : Z :=
  match fuel with
  | O => j
  | S fuel' =>
      if den <=? 10 ^ j * num then j
      else first_digit_shift fuel' (j + 1) num den
  end.

(** The decimal exponent [n] with [10 ^ (n - 1) <= m * 2 ^ e < 10 ^ n]. *)
Definition decimal_exponent (m : positive) (e : Z) : Z :=
  let '(num, den) := fraction m e in
  let i := num / den in
  if 0 <? i then Z.of_nat (length (Str.of_N (Z.to_N i)))
  else 1 - first_digit_shift (Z.to_nat (- e)) 1 num den.

(** The candidates with [k] digits around the value: [Some s] is the
    [k]-digit integer [s] such that [s * 10 ^ (n0 - k)] reads back as the
    number and is nearest to it (the even one of two at the same
    distance). *)
Definition digits_candidate (m : positive) (e : Z) (n0 : Z) (k : Z)
  : option Z :=
  let x := S754_finite false m e in
  let t := n0 - k in
  let '(num, den) := scale10 (fraction m e) t in
  let lo := num / den in
  let hi := lo + 1 in
  let back s := eqb (of_decimal false (Z.to_N s) t) x in
  let dlo := num - lo * den in
  let dhi := hi * den - num in
  match back lo, back hi with
  | true, true =>
      if dlo <? dhi then Some lo
      else if dhi <? dlo then Some hi
      else if Z.even lo then Some lo else Some hi
  | true, false => Some lo
  | false, true => Some hi
  | false, false => None
  end.

(** The least number of digits [k] (from [k] on, within [fuel]) for which a
    candidate exists, with the candidate. *)
Fixpoint shortest_digits (fuel : nat) (m : positive) (e : Z) (n0 : Z) (k : Z)
  : Z * Z :=
  match fuel with
  | O =>
      let '(num, den) := scale10 (fraction m e) (n0 - k) in (num / den, k)
  | S fuel' =>
      match digits_candidate m e n0 k with
      | Some s => (s, k)
      | None => shortest_digits fuel' m e n0 (k + 1)
      end
  end.

Fixpoint strip_zeros (s : Str.t) : Str.t :=
  match s with
  | c :: s' => if N.eqb c 48 then strip_zeros s' else s
  | [] => []
  end.

(** The digits [s] (as text, [k] of them, [k] as small as possible) and
    the exponent [n] of [Number::toString], step 5.  A candidate that
    rounding up took to [10 ^ k] has one digit more than [k]: it is the
    digit 1 with the exponent one higher. *)
Definition digits_and_exponent (m : positive) (e : Z) : Str.t * Z :=
  let n0 := decimal_exponent m e in
  let '(s, k) := shortest_digits 20 m e n0 1 in
  let ds := Str.of_N (Z.to_N s) in
  (rev (strip_zeros (rev ds)), n0 + (Z.of_nat (length ds) - k)).

Definition zeros (n : Z) : Str.t := repeat 48%N (Z.to_nat n).

Definition toString (x : t) : Str.t :=
  match x with
  | S754_nan => Str.lit "NaN"
  | S754_zero _ => Str.lit "0"
  | S754_infinity s =>
      (if s then Str.lit "-" else []) ++ Str.lit "Infinity"
  | S754_finite s m e =>
      let sign := if s then Str.lit "-" else [] in
      let '(ds, n) := digits_and_exponent m e in
      let k := Z.of_nat (length ds) in
      sign ++
      if (k <=? n) && (n <=? 21) then ds ++ zeros (n - k)
      else if (0 <? n) && (n <=? 21) then
        firstn (Z.to_nat n) ds ++ Str.lit "." ++ skipn (Z.to_nat n) ds
      else if (-6 <? n) && (n <=? 0) then
        Str.lit "0." ++ zeros (- n) ++ ds
      else
        let ex :=
          Str.lit "e" ++ (if n - 1 <? 0 then Str.lit "-" else Str.lit "+")
          ++ Str.of_N (Z.to_N (Z.abs (n - 1))) in
        match ds with
        | [d] => [d] ++ ex
        | d :: ds' => [d] ++ Str.lit "." ++ ds' ++ ex
        | [] => ex
        end
  end.

(** *** [Number.prototype.toFixed] *)

(** [floor (x * 10 ^ f + 1/2)] for a finite [x >= 0]: the integer [n] for
    which [n / 10 ^ f - x] is as close to zero as possible, the larger one
    when there are two. *)
Definition scaled (f : nat) (x : t) : N :=
  match x with
  | S754_finite _ m e =>
      let p := 10 ^ Z.of_nat f in
      if 0 <=? e then Z.to_N (Zpos m * 2 ^ e * p)
      else Z.to_N (Z.shiftr (2 * (Zpos m * p) + 2 ^ (- e)) (1 - e))
  | _ => 0%N
  end.

(** [10 ^ 21], from which on [toFixed] gives up the fixed notation. *)
Definition ten21 : t := of_Z (10 ^ 21).

Definition toFixed (f : nat) (x : t) : Str.t :=
  if negb (isFinite x) then toString x
  else
    let s := if ltb x zero then Str.lit "-" else [] in
    let x := if ltb x zero then opp x else x in
    if leb ten21 x then s ++ toString x
    else
      let m := Str.of_N (scaled f x) in
      let m := if (length m <=? f)%nat
               then repeat 48%N (f + 1 - length m) ++ m else m in
      let k := length m in
      match f with
      | O => s ++ m
      | _ => s ++ firstn (k - f) m ++ Str.lit "." ++ skipn (k - f) m
      end.

(** *** [StringToNumber] *)

Fixpoint span_digits (s : Str.t) : Str.t * Str.t :=
  match s with
  | c :: s' =>
      if Str.is_digit c
      then let '(ds, r) := span_digits s' in (c :: ds, r)
      else ([], s)
  | [] => ([], [])
  end.

Definition digits_value (base : N) (digit : Str.code_unit -> N) (ds : Str.t)
  : N :=
  fold_left (fun acc c => (acc * base + digit c)%N) ds 0%N.

(** The value of a digit of a given radix, when the code unit is one. *)
Definition radix_digit (base : N) (c : Str.code_unit) : option N :=
  let v :=
    if Str.is_digit c then Some (c - 48)%N
    else if (97 <=? c)%N && (c <=? 102)%N then Some (c - 87)%N
    else if (65 <=? c)%N && (c <=? 70)%N then Some (c - 55)%N
    else None in
  match v with
  | Some d => if (d <? base)%N then Some d else None
  | None => None
  end.

Fixpoint radix_value (base : N) (acc : N) (s : Str.t) : option N :=
  match s with
  | [] => Some acc
  | c :: s' =>
      match radix_digit base c with
      | Some d => radix_value base (acc * base + d)%N s'
      | None => None
      end
  end.

(** [ExponentPart] (optional): the exponent, when the rest of the text is
    empty or a well-formed exponent part. *)
Definition exponent_part (s : Str.t) : option Z :=
  match s with
  | [] => Some 0
  | c :: s' =>
      if N.eqb c 101 || N.eqb c 69 then
        let '(neg, s'') :=
          match s' with
          | 43%N :: r => (false, r)
          | 45%N :: r => (true, r)
          | _ => (false, s')
          end in
        match span_digits s'' with
        | ((_ :: _) as ds, []) =>
            let v := Z.of_N (digits_value 10 Str.digit_value ds) in
            Some (if neg then - v else v)
        | _ => None
        end
      else None
  end.

(** [StrUnsignedDecimalLiteral] other than [Infinity]. *)
Definition unsigned_decimal (neg : bool) (s : Str.t) : t :=
  let '(ip, r) := span_digits s in
  let '(fp, r') :=
    match r with
    | 46%N :: r1 => span_digits r1
    | _ => ([], r)
    end in
  match ip, fp with
  | [], [] => nan
  | _, _ =>
      match exponent_part r' with
      | Some ex =>
          of_decimal neg (digits_value 10 Str.digit_value (ip ++ fp))
            (ex - Z.of_nat (length fp))
      | None => nan
      end
  end.

Definition str_decimal (neg : bool) (s : Str.t) : t :=
  if Str.eqb s (Str.lit "Infinity") then S754_infinity neg
  else unsigned_decimal neg s.

Definition non_decimal (base : N) (s : Str.t) : t :=
  match s with
  | [] => nan
  | _ => match radix_value base 0 s with
         | Some v => of_Z (Z.of_N v)
         | None => nan
         end
  end.

Definition ofString (s : Str.t) : t :=
  match Str.trim s with
  | [] => zero
  | 43%N :: r => str_decimal false r
  | 45%N :: r => str_decimal true r
  | 48%N :: (120%N | 88%N) :: r => non_decimal 16 r
  | 48%N :: (111%N | 79%N) :: r => non_decimal 8 r
  | 48%N :: (98%N | 66%N) :: r => non_decimal 2 r
  | r => str_decimal false r
  end.

End Num.

(** ** Values

    The values of the program: what [JSON.parse] gives for a request or
    response body, and [undefined].  An object is the list of its own
    properties, in insertion order. *)

#[warnings="-register-all"]
Inductive value : Type :=
  | VUndefined
  | VNull
  | VBool (b : bool)
  | VNum (x : Num.t)
  | VStr (s : Str.t)
  | VArr (elems : list value)
  | VObj (props : list (Str.t * value)).

Definition props := list (Str.t * value).

(** Induction on values, through the elements of arrays and the
    properties of objects. *)
Section ValueInduction.

Variable P : value -> Prop.
Hypothesis P_undefined : P VUndefined.
Hypothesis P_null : P VNull.
Hypothesis P_bool : forall b, P (VBool b).
Hypothesis P_num : forall x, P (VNum x).
Hypothesis P_str : forall s, P (VStr s).
Hypothesis P_arr : forall elems, Forall P elems -> P (VArr elems).
Hypothesis P_obj :
  forall ps, Forall (fun kv => P (snd kv)) ps -> P (VObj ps).

Fixpoint value_induction (v : value) : P v :=
  match v with
  | VUndefined => P_undefined
  | VNull => P_null
  | VBool b => P_bool b
  | VNum x => P_num x
  | VStr s => P_str s
  | VArr elems =>
      P_arr elems
        ((fix all (l : list value) : Forall P l :=
            match l with
            | [] => Forall_nil P
            | x :: l' => Forall_cons x (value_induction x) (all l')
            end) elems)
  | VObj ps =>
      P_obj ps
        ((fix all (l : list (Str.t * value))
            : Forall (fun kv => P (snd kv)) l :=
            match l with
            | [] => Forall_nil _
            | kv :: l' => Forall_cons kv (value_induction (snd kv)) (all l')
            end) ps)
  end.

End ValueInduction.

(** ** Exceptions *)

Inductive error_class := Error | TypeError | FetchError.

(** An error object: its class, its [message], and the [status] and
    [paypal] properties ([undefined] when the object has none). *)
Record error := {
  err_class : error_class;
  err_message : Str.t;
  err_status : value;
  err_paypal : value
}.

(** [new Error(message)]. *)
Definition new_Error (message : Str.t) : error :=
  {| err_class := Error; err_message := message;
     err_status := VUndefined; err_paypal := VUndefined |}.

(** A [TypeError] raised by the engine; the message texts are the ones
    V8 prints. *)
Definition new_TypeError (message : Str.t) : error :=
  {| err_class := TypeError; err_message := message;
     err_status := VUndefined; err_paypal := VUndefined |}.

Inductive result (A : Type) : Type :=
  | Ok (a : A)
  | Throw (e : error).
Arguments Ok {A} a.
Arguments Throw {A} e.

Definition bind {A B} (r : result A) (k : A -> result B) : result B :=
  match r with
  | Ok a => k a
  | Throw e => Throw e
  end.

Declare Scope js_scope.
Delimit Scope js_scope with js.
Notation "'let*' x ':=' r 'in' k" := (bind r (fun x => k))
  (at level 10, x pattern, r at level 100, k at level 200) : js_scope.
Local Open Scope js_scope.

(** ** Property access and coercions *)

Module Js.

Fixpoint lookup (k : Str.t) (ps : props) : option value :=
  match ps with
  | [] => None
  | (k', v) :: ps' => if Str.eqb k k' then Some v else lookup k ps'
  end.

Definition nullish (v : value) : bool :=
  match v with
  | VUndefined | VNull => true
  | _ => false
  end.

(** [a ?? b]. *)
Definition coalesce (a b : value) : value := if nullish a then b else a.

(** The property [k] of a value that is neither [null] nor [undefined],
    for the names the program reads: none of them is [length], an index or
    a name of a built-in prototype, so only an object has them, as own
    properties. *)
Definition own (v : value) (k : Str.t) : value :=
  match v with
  | VObj ps => match lookup k ps with Some x => x | None => VUndefined end
  | _ => VUndefined
  end.

(** [v.k]. *)
Definition get (v : value) (k : string) : result value :=
  match v with
  | VUndefined =>
      Throw (new_TypeError
        (Str.lit "Cannot read properties of undefined (reading '"
         ++ Str.lit k ++ Str.lit "')"))
  | VNull =>
      Throw (new_TypeError
        (Str.lit "Cannot read properties of null (reading '"
         ++ Str.lit k ++ Str.lit "')"))
  | _ => Ok (own v (Str.lit k))
  end.

(** [v?.k]. *)
Definition opt (v : value) (k : string) : value :=
  if nullish v then VUndefined else own v (Str.lit k).

(** [v?.[0]]. *)
Definition opt0 (v : value) : value :=
  match v with
  | VArr (x :: _) => x
  | VStr (c :: _) => VStr [c]
  | VObj ps => own v (Str.lit "0")
  | _ => VUndefined
  end.

Definition truthy (v : value) : bool :=
  match v with
  | VUndefined | VNull => false
  | VBool b => b
  | VNum x => Num.truthy x
  | VStr s => match s with [] => false | _ => true end
  | VArr _ | VObj _ => true
  end.

Definition has_own (k : string) (ps : props) : bool :=
  match lookup (Str.lit k) ps with Some _ => true | None => false end.

Definition no_primitive : error :=
  new_TypeError (Str.lit "Cannot convert object to primitive value").

Fixpoint join (sep : Str.t) (parts : list Str.t) : Str.t :=
  match parts with
  | [] => []
  | [p] => p
  | p :: ps => p ++ sep ++ join sep ps
  end.

(** [ToString].  An array is joined with commas ([null] and [undefined]
    elements are empty); a plain object is ["[object Object]"], unless an
    own property hides [toString]: a parsed value is not callable, and
    [valueOf] returns the object itself, so no primitive is found. *)
Fixpoint toString (v : value) : result Str.t :=
  match v with
  | VUndefined => Ok (Str.lit "undefined")
  | VNull => Ok (Str.lit "null")
  | VBool b => Ok (Str.lit (if b then "true" else "false"))
  | VNum x => Ok (Num.toString x)
  | VStr s => Ok s
  | VArr elems =>
      let fix parts (l : list value) : result (list Str.t) :=
        match l with
        | [] => Ok []
        | x :: l' =>
            let* p := (if nullish x then Ok [] else toString x) in
            let* ps := parts l' in
            Ok (p :: ps)
        end in
      let* ps := parts elems in
      Ok (join (Str.lit ",") ps)
  | VObj ps =>
      if has_own "toString" ps then Throw no_primitive
      else Ok (Str.lit "[object Object]")
  end.

(** [ToNumber], the function [Number] of the source. *)
Definition toNumber (v : value) : result Num.t :=
  match v with
  | VUndefined => Ok Num.nan
  | VNull => Ok Num.zero
  | VBool b => Ok (if b then Num.of_Z 1 else Num.zero)
  | VNum x => Ok x
  | VStr s => Ok (Num.ofString s)
  | VArr _ | VObj _ =>
      let* s := toString v in
      Ok (Num.ofString s)
  end.

End Js.

(** ** Configuration: the environment variables read at start-up *)

Record config := {
  PAYPAL_CLIENT_ID : option Str.t;
  PAYPAL_CLIENT_SECRET : option Str.t;
  PAYPAL_BASE_URL : Str.t;
  PAYPAL_CURRENCY : Str.t;
  BRAND_NAME : option Str.t
}.

(** Truthiness of an environment variable: set and not empty. *)
Definition is_set (v : option Str.t) : bool :=
  match v with
  | Some (_ :: _) => true
  | _ => false
  end.

Definition env_text (v : option Str.t) : Str.t :=
  match v with Some s => s | None => [] end.

(** ** Cart normalizer *)

Record money := {
  currency_code : Str.t;
  money_value : Str.t
}.

(** A line item as sent to the gateway. *)
Record line_item := {
  reference_id : value;
  name : Str.t;
  quantity : Str.t;
  category : value;
  unit_amount : money
}.

Definition hundred : Num.t := Num.of_Z 100.

(** [(Math.round(Number(value || 0) * 100) / 100).toFixed(2)], for a
    [value] that is a number, as all its callers pass. *)
Definition amountToString (value : Num.t) : Str.t :=
  let v := if Num.truthy value then value else Num.zero in
  Num.toFixed 2 (Num.div (Num.round (Num.mul v hundred)) hundred).

(** [item?.name?.trim()]: [undefined] for a missing name, the trimmed text
    for a string, and a [TypeError] for any other value, which has no
    callable [trim]. *)
Definition trimmed_name (item : value) : result value :=
  let n := Js.opt item "name" in
  if Js.nullish n then Ok VUndefined
  else
    match n with
    | VStr s => Ok (VStr (Str.trim s))
    | _ => Throw (new_TypeError (Str.lit "item?.name?.trim is not a function"))
    end.

(** The callback of [items.map]; [index] counts from 0, and
    [`${index + 1}`] is the decimal text of the position (an array has
    fewer than [2 ^ 32] elements). *)
Definition normalizeItem (cfg : config) (index : nat) (item : value)
  : result line_item :=
  let* name := trimmed_name item in
  let* quantity := Js.toNumber (Js.coalesce (Js.opt item "quantity") (VNum (Num.of_Z 1))) in
  let* price := Js.toNumber (Js.coalesce (Js.opt item "price") (VNum Num.zero)) in
  match name with
  | VStr ((_ :: _) as name) =>
      if negb (Num.isFinite price) || Num.leb price Num.zero then
        Throw (new_Error (Str.lit "Item " ++ Str.quoted name
                          ++ Str.lit " has an invalid price."))
      else if negb (Num.isInteger quantity) || Num.leb quantity Num.zero then
        Throw (new_Error (Str.lit "Item " ++ Str.quoted name
                          ++ Str.lit " has an invalid quantity."))
      else
        Ok {| reference_id :=
                Js.coalesce (Js.opt item "id")
                  (VStr (Str.lit "ITEM-" ++ Str.of_N (N.of_nat (index + 1))));
              name := name;
              quantity := Num.toString quantity;
              category :=
                Js.coalesce (Js.opt item "category")
                  (VStr (Str.lit "DIGITAL_GOODS"));
              unit_amount :=
                {| currency_code := PAYPAL_CURRENCY cfg;
                   money_value := amountToString price |} |}
  | _ =>
      Throw (new_Error (Str.lit "Item #" ++ Str.of_N (N.of_nat (index + 1))
                        ++ Str.lit " is missing a name."))
  end.

(** [Array.prototype.map] with a callback that may throw: the elements are
    visited in order and the first exception ends the call. *)
Fixpoint map_from (cfg : config) (index : nat) (items : list value)
  : result (list line_item) :=
  match items with
  | [] => Ok []
  | item :: rest =>
      let* x := normalizeItem cfg index item in
      let* xs := map_from cfg (S index) rest in
      Ok (x :: xs)
  end.

(** [normalizeItems]; the parameter defaults to [[]] when [undefined]. *)
Definition normalizeItems (cfg : config) (items : value)
  : result (list line_item) :=
  let items := match items with VUndefined => VArr [] | _ => items end in
  match items with
  | VArr ((_ :: _) as l) => map_from cfg 0 l
  | _ => Throw (new_Error (Str.lit "Missing cart items."))
  end.

(** [calculateOrderTotal]: [reduce] from the left, starting at [0]. *)
Definition calculateOrderTotal (items : list line_item) : Str.t :=
  amountToString
    (fold_left
       (fun sum item =>
          Num.add sum
            (Num.mul (Num.ofString (money_value (unit_amount item)))
                     (Num.ofString (quantity item))))
       items Num.zero).

(** ** Order builder: the payload of [POST /api/orders] *)

Record breakdown := { item_total : money }.

Record amount_with_breakdown := {
  amount_currency_code : Str.t;
  amount_value : Str.t;
  amount_breakdown : breakdown
}.

Record purchase_unit := {
  amount : amount_with_breakdown;
  items : list line_item
}.

Record application_context := {
  shipping_preference : Str.t;
  user_action : Str.t;
  brand_name : Str.t
}.

Record order_payload := {
  intent : Str.t;
  purchase_units : list purchase_unit;
  app_context : application_context
}.

Definition orderPayload (cfg : config) (items : list line_item)
  : order_payload :=
  let total := calculateOrderTotal items in
  {| intent := Str.lit "CAPTURE";
     purchase_units :=
       [ {| amount :=
              {| amount_currency_code := PAYPAL_CURRENCY cfg;
                 amount_value := total;
                 amount_breakdown :=
                   {| item_total :=
                        {| currency_code := PAYPAL_CURRENCY cfg;
                           money_value := total |} |} |};
            items := items |} ];
     app_context :=
       {| shipping_preference := Str.lit "NO_SHIPPING";
          user_action := Str.lit "PAY_NOW";
          brand_name :=
            if is_set (BRAND_NAME cfg) then env_text (BRAND_NAME cfg)
            else Str.lit "Payment Sample Store" |} |}.

(** ** Capture summary *)

Module Summary.
Record t := {
  orderId : value;
  captureId : value;
  status : value;
  payerEmail : value;
  payerGivenName : value;
  payerSurname : value;
  amount : value;
  currency : value;
  items : value;
  createTime : value;
  updateTime : value
}.
End Summary.

(** [extractCaptureSummary]; the parameter defaults to [{}] when
    [undefined]. *)
Definition extractCaptureSummary (capturePayload : value)
  : result Summary.t :=
  let capturePayload :=
    match capturePayload with VUndefined => VObj [] | _ => capturePayload end in
  let* units := Js.get capturePayload "purchase_units" in
  let purchaseUnit := Js.opt0 units in
  let capture :=
    Js.opt0 (Js.opt (Js.opt purchaseUnit "payments") "captures") in
  let* id := Js.get capturePayload "id" in
  Ok {| Summary.orderId := id;
        Summary.captureId := Js.opt capture "id";
        Summary.status := Js.opt capture "status";
        Summary.payerEmail := Js.opt (Js.opt capturePayload "payer") "email_address";
        Summary.payerGivenName :=
          Js.opt (Js.opt (Js.opt capturePayload "payer") "name") "given_name";
        Summary.payerSurname :=
          Js.opt (Js.opt (Js.opt capturePayload "payer") "name") "surname";
        Summary.amount := Js.opt (Js.opt capture "amount") "value";
        Summary.currency := Js.opt (Js.opt capture "amount") "currency_code";
        Summary.items := Js.coalesce (Js.opt purchaseUnit "items") (VArr []);
        Summary.createTime := Js.opt capture "create_time";
        Summary.updateTime := Js.opt capture "update_time" |}.

(** ** The outside world: gateway, file system, console, clock *)

(** The [Authorization] header: [Basic] stands for the base64 text of the
    credentials, [Bearer] for the token text. *)
Inductive authorization :=
  | Basic (credentials : Str.t)
  | Bearer (token : Str.t).

Inductive request_body :=
  | NoBody
  | Form (text : Str.t)
  | Json (payload : order_payload).

Record request := {
  url : Str.t;
  method : Str.t;
  auth : authorization;
  body : request_body
}.

(** A response of the gateway: [json] is what [response.json()] settles
    to, the parsed body or the error of a body that is not JSON. *)
Record response := {
  ok : bool;
  http_status : N;
  text : Str.t;
  json : result value
}.

Inductive fetch_outcome :=
  | Responds (r : response)
  | Rejects (e : error).

(** A line of [data/transactions.jsonl]. *)
Record transaction_record := {
  summary : Summary.t;
  loggedAt : Str.t;
  raw : value
}.

(** What the program does not decide: the answer of the gateway to a
    request (given the requests sent before), whether [fs.mkdir] and
    [fs.appendFile] fail (and with which error), and the clock. *)
Record environment := {
  fetch : list request -> request -> fetch_outcome;
  mkdir : option error;
  appendFile : option error;
  now : Str.t
}.

(** What the program changes: the requests sent to the gateway (oldest
    first), the lines of [console.error], and the transaction log. *)
Record world := {
  sent : list request;
  console : list (Str.t * error);
  transactions : list transaction_record
}.

Definition M (A : Type) : Type := world -> result A * world.

Definition ret {A} (a : A) : M A := fun w => (Ok a, w).
Definition throw {A} (e : error) : M A := fun w => (Throw e, w).
Definition lift {A} (r : result A) : M A := fun w => (r, w).

Definition bindM {A B} (m : M A) (k : A -> M B) : M B :=
  fun w =>
    match m w with
    | (Ok a, w') => k a w'
    | (Throw e, w') => (Throw e, w')
    end.

(** [try { m } catch (e) { handler e }]. *)
Definition try_catch {A} (m : M A) (handler : error -> M A) : M A :=
  fun w =>
    match m w with
    | (Ok a, w') => (Ok a, w')
    | (Throw e, w') => handler e w'
    end.

Notation "'do' x <- m ; k" := (bindM m (fun x => k))
  (at level 10, x pattern, m at level 100, k at level 200) : js_scope.

Definition console_error (label : Str.t) (e : error) : M unit :=
  fun w =>
    (Ok tt, {| sent := sent w;
               console := console w ++ [(label, e)];
               transactions := transactions w |}).

(** [`/v2/checkout/orders/${orderId}/capture`] *)
Definition capture_endpoint (orderId : Str.t) : Str.t :=
  Str.lit "/v2/checkout/orders/" ++ orderId ++ Str.lit "/capture".

(** ** Gateway client *)

Section Gateway.

Variable cfg : config.
Variable env : environment.

(** [await fetch(url, options)]: the request is recorded, then the
    gateway answers. *)
Definition do_fetch (r : request) : M response :=
  fun w =>
    let w' := {| sent := sent w ++ [r];
                 console := console w;
                 transactions := transactions w |} in
    match fetch env (sent w) r with
    | Responds resp => (Ok resp, w')
    | Rejects e => (Throw e, w')
    end.

Definition generateAccessToken : M value :=
  if negb (is_set (PAYPAL_CLIENT_ID cfg))
     || negb (is_set (PAYPAL_CLIENT_SECRET cfg))
  then throw (new_Error (Str.lit "Missing PayPal credentials."))
  else
    do response <-
      do_fetch
        {| url := PAYPAL_BASE_URL cfg ++ Str.lit "/v1/oauth2/token";
           method := Str.lit "POST";
           auth := Basic (env_text (PAYPAL_CLIENT_ID cfg) ++ Str.lit ":"
                          ++ env_text (PAYPAL_CLIENT_SECRET cfg));
           body := Form (Str.lit "grant_type=client_credentials") |};
    if negb (ok response) then
      throw (new_Error
               (Str.lit "Failed to authenticate with PayPal: "
                ++ Str.of_N (http_status response) ++ Str.lit " "
                ++ text response))
    else
      do data <- lift (json response);
      lift (Js.get data "access_token").

Definition paypalRequest (endpoint : Str.t) (method : Str.t)
  (body : request_body) : M value :=
  do accessToken <- generateAccessToken;
  do token <- lift (Js.toString accessToken);
  do response <-
    do_fetch {| url := PAYPAL_BASE_URL cfg ++ endpoint;
                method := method;
                auth := Bearer token;
                body := body |};
  let responseBody :=
    match json response with Ok v => v | Throw _ => VObj [] end in
  if negb (ok response) then
    let m := Js.opt responseBody "message" in
    do message <-
      lift (if Js.truthy m then Js.toString m
            else Ok (Str.lit "PayPal API error."));
    throw {| err_class := Error; err_message := message;
             err_status := VUndefined; err_paypal := responseBody |}
  else ret responseBody.

(** ** Capture recorder *)

Definition fs_call (outcome : option error) : M unit :=
  match outcome with
  | Some e => throw e
  | None => ret tt
  end.

Definition append_record (r : transaction_record) : M unit :=
  fun w =>
    match appendFile env with
    | Some e => (Throw e, w)
    | None =>
        (Ok tt, {| sent := sent w;
                   console := console w;
                   transactions := transactions w ++ [r] |})
    end.

Definition persistCapture (capturePayload : value) : M unit :=
  try_catch
    (do _ <- fs_call (mkdir env);
     do summary <- lift (extractCaptureSummary capturePayload);
     append_record {| summary := summary;
                      loggedAt := now env;
                      raw := capturePayload |})
    (fun error =>
       console_error (Str.lit "Failed to persist capture record") error).

(** ** Checkout orchestrator: the routes and the error middleware *)

(** What [res.status(...).json(...)] sends. *)
Record reply := {
  reply_status : value;
  reply_body : value
}.

Definition number (n : Z) : value := VNum (Num.of_Z n).

(** [app.use((err, req, res, _next) => ...)]. *)
Definition error_middleware (err : error) : M reply :=
  do _ <- console_error (Str.lit "PayPal integration error:") err;
  let status :=
    if Js.truthy (err_status err) then err_status err else number 500 in
  ret {| reply_status := status;
         reply_body :=
           VObj ((Str.lit "message",
                  VStr (match err_message err with
                        | [] => Str.lit "Unexpected server error."
                        | m => m
                        end))
                 :: (if Js.truthy (err_paypal err)
                     then [(Str.lit "paypal", err_paypal err)] else [])) |}.

(** [app.post("/api/orders", ...)], on the parsed request body. *)
Definition create_order (req_body : value) : M reply :=
  try_catch
    (do items <- lift (normalizeItems cfg (Js.opt req_body "items"));
     do order <-
       paypalRequest (Str.lit "/v2/checkout/orders") (Str.lit "POST")
         (Json (orderPayload cfg items));
     do id <- lift (Js.get order "id");
     ret {| reply_status := number 201;
            reply_body := VObj [(Str.lit "id", id)] |})
    error_middleware.

(** [app.post("/api/orders/:orderId/capture", ...)]. *)
Definition capture_order (orderId : Str.t) : M reply :=
  try_catch
    (do capture <-
       paypalRequest (capture_endpoint orderId) (Str.lit "POST") NoBody;
     do _ <- persistCapture capture;
     ret {| reply_status := number 200; reply_body := capture |})
    error_middleware.

End Gateway.

(** ** Vocabulary of the properties *)

(** The texts of the regular expression [/^\d+\.\d{2}$/]: one digit or
    more, a dot (code unit 46), two digits. *)
Fixpoint matches_amount (s : Str.t) : bool :=
  match s with
  | [] => false
  | c :: s' =>
      Str.is_digit c
      && (match s' with
          | [46%N; d1; d2] => Str.is_digit d1 && Str.is_digit d2
          | _ => false
          end
          || matches_amount s')
  end.

(** The number of cents a text of that form stands for. *)
Definition amount_cents (s : Str.t) : option N :=
  if matches_amount s
  then Some (Num.digits_value 10 Str.digit_value (filter Str.is_digit s))
  else None.

(** [Number(item?.price ?? 0)] and [Number(item?.quantity ?? 1)]. *)
Definition price_of (item : value) : result Num.t :=
  Js.toNumber (Js.coalesce (Js.opt item "price") (VNum Num.zero)).

Definition quantity_of (item : value) : result Num.t :=
  Js.toNumber (Js.coalesce (Js.opt item "quantity") (VNum (Num.of_Z 1))).

(** A price or a quantity that passes the checks of [normalizeItems]. *)
Definition good_price (price : Num.t) : bool :=
  Num.isFinite price && negb (Num.leb price Num.zero).

Definition good_quantity (quantity : Num.t) : bool :=
  Num.isInteger quantity && negb (Num.leb quantity Num.zero).

(** A valid cart item: a name that is not empty once trimmed, a finite
    price above 0, a positive integer quantity. *)
Definition valid_item (item : value) : bool :=
  match trimmed_name item, quantity_of item, price_of item with
  | Ok (VStr (_ :: _)), Ok q, Ok p => good_price p && good_quantity q
  | _, _, _ => false
  end.

(** A cart [normalizeItems] accepts: a list, not empty, of valid items. *)
Definition valid_cart (items : value) : bool :=
  match items with
  | VArr ((_ :: _) as l) => forallb valid_item l
  | _ => false
  end.

(** [Math.round(value * 100) / 100], the number [amountToString] prints. *)
Definition rounded_amount (value : Num.t) : Num.t :=
  Num.div (Num.round (Num.mul value hundred)) hundred.

(** A status code of the 400 class. *)
Definition is_4xx (status : value) : bool :=
  match status with
  | VNum x => Num.leb (Num.of_Z 400) x && Num.ltb x (Num.of_Z 500)
  | _ => false
  end.

(** [Array.isArray(items) && items.length !== 0] *)
Definition is_cart (items : value) : bool :=
  match items with
  | VArr (_ :: _) => true
  | _ => false
  end.

(** An item whose price is not a finite number above 0 (or is no number
    at all). *)
Definition bad_price (item : value) : bool :=
  match price_of item with
  | Ok p => negb (good_price p)
  | Throw _ => true
  end.

(** An item whose rounded price is below [10 ^ 21], where [toFixed]
    leaves the fixed notation. *)
Definition in_fixed_range (item : value) : bool :=
  match price_of item with
  | Ok p => Num.ltb (rounded_amount p) Num.ten21
  | Throw _ => true
  end.

(** The [unit_amount.value] of the items of a cart, and its order total. *)
Definition unit_values (cfg : config) (cart : value) : option (list Str.t) :=
  match normalizeItems cfg cart with
  | Ok l => Some (map (fun o => money_value (unit_amount o)) l)
  | Throw _ => None
  end.

Definition order_total (cfg : config) (cart : value) : option Str.t :=
  match normalizeItems cfg cart with
  | Ok l => Some (calculateOrderTotal l)
  | Throw _ => None
  end.

(** The line item built from the trimmed name, the quantity and the price
    of an item that passed the checks. *)
Definition line_of (cfg : config) (index : nat) (item : value)
  (nm : Str.t) (q p : Num.t) : line_item :=
  {| reference_id :=
       Js.coalesce (Js.opt item "id")
         (VStr (Str.lit "ITEM-" ++ Str.of_N (N.of_nat (index + 1))));
     name := nm;
     quantity := Num.toString q;
     category :=
       Js.coalesce (Js.opt item "category") (VStr (Str.lit "DIGITAL_GOODS"));
     unit_amount :=
       {| currency_code := PAYPAL_CURRENCY cfg;
          money_value := amountToString p |} |}.

(** An error as the program's own code and the engine make them: a
    message, and neither a [status] nor a [paypal] property. *)
Definition plain (e : error) : Prop :=
  err_message e <> [] /\ err_status e = VUndefined /\ err_paypal e = VUndefined.

(** A number that is [NaN] or has the sign [s]. *)
Definition signed (s : bool) (x : Num.t) : Prop :=
  match x with
  | S754_zero s' | S754_infinity s' | S754_finite s' _ _ => s' = s
  | S754_nan => True
  end.

(** One step of reading a decimal text. *)
Definition decimal_step (acc : N) (c : Str.code_unit) : N :=
  (acc * 10 + Str.digit_value c)%N.

(** The object with the property [k] set to [v]. *)
Fixpoint set_prop (k : Str.t) (v : value) (ps : props) : props :=
  match ps with
  | [] => [(k, v)]
  | (k', v') :: ps' =>
      if Str.eqb k k' then (k, v) :: ps' else (k', v') :: set_prop k v ps'
  end.

Definition with_prop (k : string) (v : value) (ps : props) : value :=
  VObj (set_prop (Str.lit k) v ps).

(** What a handler replies, and the world it leaves. *)
Definition reply_of (r : result reply * world) : option reply :=
  match fst r with
  | Ok x => Some x
  | Throw _ => None
  end.

Definition message_body (message : Str.t) : value :=
  VObj [(Str.lit "message", VStr message)].

Definition logged (w : world) (label : string) (e : error) : world :=
  {| sent := sent w;
     console := console w ++ [(Str.lit label, e)];
     transactions := transactions w |}.

(** *** Sample data *)

Definition sample_config : config :=
  {| PAYPAL_CLIENT_ID := Some (Str.lit "client");
     PAYPAL_CLIENT_SECRET := Some (Str.lit "secret");
     PAYPAL_BASE_URL := Str.lit "https://api-m.sandbox.paypal.com";
     PAYPAL_CURRENCY := Str.lit "USD";
     BRAND_NAME := None |}.

Definition new_world : world :=
  {| sent := []; console := []; transactions := [] |}.

Definition num (s : string) : value := VNum (Num.ofString (Str.lit s)).
Definition str (s : string) : value := VStr (Str.lit s).
Definition prop (k : string) (v : value) : Str.t * value := (Str.lit k, v).

Definition cart_item (name price quantity : string) : value :=
  VObj [prop "name" (str name); prop "price" (num price);
        prop "quantity" (num quantity)].

(** [[{name:"A",price:10,quantity:2},{name:"B",price:5.005,quantity:1}]] *)
Definition sample_cart : value :=
  VArr [cart_item "A" "10" "2"; cart_item "B" "5.005" "1"].

(** [{id:"O1", purchase_units:[{payments:{captures:[{id:"C1",
    status:"COMPLETED", amount:{value:"39.00", currency_code:"USD"}}]}}]}] *)
Definition sample_capture : value :=
  VObj
    [prop "id" (str "O1");
     prop "purchase_units"
       (VArr
          [VObj
             [prop "payments"
                (VObj
                   [prop "captures"
                      (VArr
                         [VObj
                            [prop "id" (str "C1");
                             prop "status" (str "COMPLETED");
                             prop "amount"
                               (VObj [prop "value" (str "39.00");
                                      prop "currency_code" (str "USD")])]])])]])].

Definition json_response (v : value) : response :=
  {| ok := true; http_status := 200; text := []; json := Ok v |}.

(** A gateway that grants a token and answers every other request with
    the sample capture, on a machine where [fs.mkdir] fails. *)
Definition sample_environment : environment :=
  {| fetch := fun _ r =>
       match auth r with
       | Basic _ =>
           Responds (json_response (VObj [prop "access_token" (str "T")]))
       | Bearer _ => Responds (json_response sample_capture)
       end;
     mkdir := Some (new_Error (Str.lit "EACCES: permission denied, mkdir"));
     appendFile := None;
     now := Str.lit "2024-01-01T00:00:00.000Z" |}.

Definition sample_items : list value :=
  [cart_item "A" "10" "2"; cart_item "B" "5.005" "1"].

(** The line items of the sample cart. *)
Definition sample_lines : list line_item :=
  match normalizeItems sample_config (VArr sample_items) with
  | Ok l => l
  | Throw _ => []
  end.

(** Carts with prices at the edge of the number range. *)
Definition huge_price_cart : value := VArr [cart_item "A" "1e22" "1"].
Definition overflowing_cart : value := VArr [cart_item "A" "1e308" "1"].
Definition huge_total_cart : value := VArr [cart_item "A" "6e20" "2"].

(** A cart whose second item has a negative price, and one whose item has
    the quantity 0. *)
Definition negative_price_items : list value :=
  [cart_item "A" "10" "2"; cart_item "B" "-5" "1"].
Definition zero_quantity_cart : value := VArr [cart_item "A" "5" "0"].

Definition body_with (items : value) : value := VObj [prop "items" items].

(** ** Vocabulary of the gateway properties *)

(** Both credentials are set. *)
Definition has_credentials (cfg : config) : bool :=
  is_set (PAYPAL_CLIENT_ID cfg) && is_set (PAYPAL_CLIENT_SECRET cfg).

(** The request [generateAccessToken] sends. *)
Definition token_request (cfg : config) : request :=
  {| url := PAYPAL_BASE_URL cfg ++ Str.lit "/v1/oauth2/token";
     method := Str.lit "POST";
     auth := Basic (env_text (PAYPAL_CLIENT_ID cfg) ++ Str.lit ":"
                    ++ env_text (PAYPAL_CLIENT_SECRET cfg));
     body := Form (Str.lit "grant_type=client_credentials") |}.

(** A request to an endpoint of the gateway, bearing a token. *)
Definition api_request (cfg : config) (endpoint method token : Str.t)
  (body : request_body) : request :=
  {| url := PAYPAL_BASE_URL cfg ++ endpoint;
     method := method;
     auth := Bearer token;
     body := body |}.

(** The world once more requests are sent. *)
Definition after (w : world) (requests : list request) : world :=
  {| sent := sent w ++ requests;
     console := console w;
     transactions := transactions w |}.

(** The error of a token request the gateway refuses. *)
Definition authentication_error (resp : response) : error :=
  new_Error (Str.lit "Failed to authenticate with PayPal: "
             ++ Str.of_N (http_status resp) ++ Str.lit " " ++ text resp).

(** What [response.json().catch(() => ({}))] gives. *)
Definition body_of (resp : response) : value :=
  match json resp with Ok v => v | Throw _ => VObj [] end.

(** The reply of the error middleware to an error. *)
Definition error_reply (e : error) : reply :=
  {| reply_status := number 500; reply_body := message_body (err_message e) |}.

(** A text with no white space at either end. *)
Definition trimmed (s : Str.t) : bool :=
  match s with
  | [] => true
  | c :: _ => negb (Str.is_white_space c) && negb (Str.is_white_space (last s c))
  end.

(** [app.get("/api/config", ...)]: [res.json] replies 200;
    [environment] is the constant [PAYPAL_ENVIRONMENT]. *)
Definition get_config (cfg : config) (environment : Str.t) : reply :=
  {| reply_status := number 200;
     reply_body :=
       VObj [(Str.lit "clientId",
              VStr (if is_set (PAYPAL_CLIENT_ID cfg)
                    then env_text (PAYPAL_CLIENT_ID cfg) else []));
             (Str.lit "currency", VStr (PAYPAL_CURRENCY cfg));
             (Str.lit "environment", VStr environment)] |}.

(** ** The page that calls the routes: [frontend/src/App.jsx] *)

(** [Math.max(x, y)]: [NaN] when either number is, and [+0] above [-0]. *)
Definition math_max (x y : Num.t) : Num.t :=
  match x, y with
  | S754_nan, _ | _, S754_nan => Num.nan
  | S754_zero sx, S754_zero sy => S754_zero (sx && sy)
  | _, _ => if Num.ltb x y then y else x
  end.

Module App.

(** The keys of [BILLING_LABELS], the only values [setBillingPeriod] is
    called with. *)
Inductive billing := yearly | monthly.

(** A plan; [contactOnly] is false for the plans that have no such
    property. *)
Record plan := {
  id : Str.t;
  name : Str.t;
  contactOnly : bool;
  pricing : billing -> Num.t
}.

Definition PLANS : list plan :=
  [ {| id := Str.lit "startup";
       name := Str.lit "Startup Plan";
       contactOnly := false;
       pricing := fun b =>
         match b with yearly => Num.of_Z 39 | monthly => Num.of_Z 49 end |};
    {| id := Str.lit "scaleup";
       name := Str.lit "Scaleup Plan";
       contactOnly := false;
       pricing := fun b =>
         match b with yearly => Num.of_Z 199 | monthly => Num.of_Z 229 end |};
    {| id := Str.lit "enterprise";
       name := Str.lit "Enterprise Plan";
       contactOnly := true;
       pricing := fun _ => Num.zero |} ].

Definition BILLING_LABELS (b : billing) : Str.t :=
  match b with
  | yearly => Str.lit "Yearly"
  | monthly => Str.lit "Monthly"
  end.

(** The state the cart is computed from: the texts of the two top-up
    fields, and the id of the selected plan ([None] for [null]). *)
Record state := {
  billingPeriod : billing;
  emailTopUp : Str.t;
  planningTopUp : Str.t;
  selectedPlanId : option Str.t
}.

(** [PLANS.find((plan) => plan.id === selectedPlanId) || null] *)
Definition selectedPlan (s : state) : option plan :=
  match selectedPlanId s with
  | Some i => find (fun p => Str.eqb (id p) i) PLANS
  | None => None
  end.

(** [Math.max(Number(text) || 0, 0)] *)
Definition topUpAmount (text : Str.t) : Num.t :=
  let x := Num.ofString text in
  math_max (if Num.truthy x then x else Num.zero) Num.zero.

Definition item (i n : Str.t) (price : Num.t) : value :=
  VObj [(Str.lit "id", VStr i);
        (Str.lit "name", VStr n);
        (Str.lit "price", VNum price);
        (Str.lit "quantity", VNum (Num.of_Z 1))].

Definition checkoutItems (s : state) : list value :=
  match selectedPlan s with
  | None => []
  | Some p =>
      if contactOnly p then []
      else
        let price := pricing p (billingPeriod s) in
        let items :=
          [item (id p)
             (name p ++ Str.lit " (" ++ BILLING_LABELS (billingPeriod s)
              ++ Str.lit ")")
             price] in
        let emailAmount := topUpAmount (emailTopUp s) in
        let planningAmount := topUpAmount (planningTopUp s) in
        let items :=
          if Num.ltb Num.zero emailAmount
          then items ++ [item (Str.lit "topup-email")
                           (Str.lit "Email Credits Top-up") emailAmount]
          else items in
        let items :=
          if Num.ltb Num.zero planningAmount
          then items ++ [item (Str.lit "topup-planning")
                           (Str.lit "Planning Credits Top-up") planningAmount]
          else items in
        items
  end.

(** [paypalOptions], from the [config] state: the body of the reply of
    [/api/config], or [null] before it arrives. *)
Definition paypalOptions (config : value) : option value :=
  if negb (Js.truthy (Js.opt config "clientId")) then None
  else Some (VObj [(Str.lit "clientId", Js.opt config "clientId");
                   (Str.lit "currency", Js.opt config "currency");
                   (Str.lit "intent", VStr (Str.lit "capture"))]).

(** The body of the request [createOrder] posts, as the object given to
    [JSON.stringify], or the error it throws before posting anything.
    (The transport keeps such a body as it is: [JSON.parse] gives back
    the strings and the finite numbers that [JSON.stringify] wrote.) *)
Definition order_request (s : state) : result value :=
  match checkoutItems s with
  | [] => Throw (new_Error (Str.lit "Select a plan to continue."))
  | items => Ok (VObj [(Str.lit "items", VArr items)])
  end.

End App.

(** *** Sample data of the further properties *)

Definition config_without_secret : config :=
  {| PAYPAL_CLIENT_ID := Some (Str.lit "client");
     PAYPAL_CLIENT_SECRET := None;
     PAYPAL_BASE_URL := Str.lit "https://api-m.sandbox.paypal.com";
     PAYPAL_CURRENCY := Str.lit "USD";
     BRAND_NAME := None |}.

(** A gateway that answers the token request with one response and every
    other request with another, on a machine whose file system works. *)
Definition gateway (token_answer api_answer : response) : environment :=
  {| fetch := fun _ r =>
       match auth r with
       | Basic _ => Responds token_answer
       | Bearer _ => Responds api_answer
       end;
     mkdir := None;
     appendFile := None;
     now := Str.lit "2024-01-01T00:00:00.000Z" |}.

Definition token_response : response :=
  json_response (VObj [prop "access_token" (str "T")]).

(** A refusal whose body is a text, not JSON. *)
Definition refusal : response :=
  {| ok := false; http_status := 401; text := Str.lit "denied";
     json := Throw (new_Error (Str.lit "Unexpected token d in JSON")) |}.

(** A failure answer with a message. *)
Definition rejection : response :=
  {| ok := false; http_status := 422; text := [];
     json := Ok (VObj [prop "message" (str "Order already captured.")]) |}.

Definition order_response : response :=
  json_response (VObj [prop "id" (str "ORDER1")]).

(** The world after the token request of the sample configuration. *)
Definition token_requested : world :=
  after new_world [token_request sample_config].

(** An item with a name and a price only. *)
Definition bare_item : value :=
  VObj [prop "name" (str " A "); prop "price" (num "10")].

(** The startup plan, billed yearly, with an email top-up of 10. *)
Definition sample_state : App.state :=
  {| App.billingPeriod := App.yearly;
     App.emailTopUp := Str.lit "10";
     App.planningTopUp := Str.lit "0";
     App.selectedPlanId := Some (Str.lit "startup") |}.

(** ** Vocabulary of the exact total *)

(** The value of a text of decimal digits. *)
Definition digits_text (s : Str.t) : option N :=
  match s with
  | [] => None
  | _ =>
      if forallb Str.is_digit s
      then Some (Num.digits_value 10 Str.digit_value s)
      else None
  end.

(** The total of an order in cents, computed on integers: the sum of the
    cents of each [unit_amount.value] times the quantity, for items whose
    value has two decimals and whose quantity is a text of digits, both
    standing for integers below [2 ^ 53]. *)
Fixpoint exact_total (items : list line_item) : option N :=
  match items with
  | [] => Some 0%N
  | item :: rest =>
      match amount_cents (money_value (unit_amount item)),
            digits_text (quantity item),
            exact_total rest with
      | Some n, Some q, Some t =>
          if (n <? 2 ^ 53)%N && (q <? 2 ^ 53)%N
          then Some (n * q + t)%N else None
      | _, _, _ => None
      end
  end.

(** A running sum [s] that stands for [cents] hundredths, to an error of
    [err] units of [2 ^ -120] hundredths: [+0] for no cents, and else a
    positive number of 53 bits. *)
Definition approximates (s : Num.t) (cents err : Z) : Prop :=
  match s with
  | S754_zero false => cents = 0
  | S754_finite false m e =>
      1 <= cents /\ 2 ^ 52 <= Zpos m < 2 ^ 53 /\ -60 <= e <= 0 /\
      Z.abs (100 * (Zpos m * 2 ^ (e + 120)) - cents * 2 ^ 120) <= err
  | _ => False
  end.

(** The step of the sum in [calculateOrderTotal]. *)
Definition add_line (sum : Num.t) (item : line_item) : Num.t :=
  Num.add sum
    (Num.mul (Num.ofString (money_value (unit_amount item)))
             (Num.ofString (quantity item))).

(** The quantity of an item when it is a whole number: the integer [z]
    whose number the quantity is. *)
Definition whole_quantity (item : value) : option Z :=
  match quantity_of item with
  | Ok q =>
      match Num.half_up q with
      | Some z => if Num.eqb q (Num.of_Z z) then Some z else None
      | None => None
      end
  | Throw _ => None
  end.

(** The total of a cart in cents as the code counts them: each price
    times 100, the product rounded to binary64 and then half-up by
    [Math.round], times the quantity, for cents below [2 ^ 52] and whole
    quantities from 1 to below [2 ^ 53].  These are the cents of the
    code, not the price rounded half-up ([price_cents] below): at 5.005
    the product rounds up to 500.5 and counts 501. *)
Fixpoint cart_cents (items : list value) : option N :=
  match items with
  | [] => Some 0%N
  | item :: rest =>
      match price_of item, whole_quantity item, cart_cents rest with
      | Ok p, Some z, Some t =>
          match Num.half_up (Num.mul p hundred) with
          | Some n =>
              if (0 <=? n) && (n <? 2 ^ 52) && (1 <=? z) && (z <? 2 ^ 53)
              then Some (Z.to_N n * Z.to_N z + t)%N
              else None
          | None => None
          end
      | _, _, _ => None
      end
  end.

(** ** Vocabulary of the rounding at the cent *)

(** The price rounded half-up at the cent, in cents:
    [floor (100 * p + 1/2)] on the value [p = m * 2 ^ e] of the number,
    computed on integers, so that nothing is rounded before the half is
    added: [100 * m * 2 ^ e] when that is an integer, and else the
    quotient of [2 * 100 * m + 2 ^ - e] by [2 * 2 ^ - e]. *)
Definition price_cents (p : Num.t) : option Z :=
  match p with
  | S754_zero _ => Some 0
  | S754_finite s m e =>
      let x := 100 * cond_Zopp s (Zpos m) in
      Some (if 0 <=? e then x * 2 ^ e
            else (2 * x + 2 ^ (- e)) / (2 * 2 ^ (- e)))
  | _ => None
  end.

(** The decimal [digits / 10 ^ places] rounded half-up at the cent, in
    cents. *)
Definition decimal_cents (digits places : N) : N :=
  ((2 * (100 * digits) + 10 ^ places) / (2 * 10 ^ places))%N.

(** The total of a cart in cents as the prices give it: the sum of the
    prices, each rounded half-up at the cent on its own value
    ([price_cents]), times the quantities, for prices of 1 cent to below
    [2 ^ 52 - 1] cents and whole quantities from 1 to below [2 ^ 53]. *)
Fixpoint exact_cart_cents (items : list value) : option N :=
  match items with
  | [] => Some 0%N
  | item :: rest =>
      match price_of item, whole_quantity item, exact_cart_cents rest with
      | Ok p, Some z, Some t =>
          match price_cents p with
          | Some c =>
              if (1 <=? c) && (c <? 2 ^ 52 - 1) && (1 <=? z) && (z <? 2 ^ 53)
              then Some (Z.to_N c * Z.to_N z + t)%N
              else None
          | None => None
          end
      | _, _, _ => None
      end
  end.

(** The number of units in a cart of whole quantities. *)
Fixpoint cart_units (items : list value) : option N :=
  match items with
  | [] => Some 0%N
  | item :: rest =>
      match whole_quantity item, cart_units rest with
      | Some z, Some u => Some (Z.to_N z + u)%N
      | _, _ => None
      end
  end.

(** *** Sample data of the rounding, of the errors and of the summary *)

(** [[{name:"A",price:1.005,quantity:1}]]: a price written on a tie. *)
Definition tie_cart : value := VArr [cart_item "A" "1.005" "1"].

(** [[{name:"A",price:90071992547409.91,quantity:3}]] and its line item. *)
Definition large_cart : value :=
  VArr [cart_item "A" "90071992547409.91" "3"].

Definition large_lines : list line_item :=
  [{| reference_id := str "ITEM-1";
      name := Str.lit "A";
      quantity := Str.lit "3";
      category := str "DIGITAL_GOODS";
      unit_amount := {| currency_code := Str.lit "USD";
                        money_value := Str.lit "90071992547409.91" |} |}].

(** [[{name:5,price:-1}]]: a name that is a number. *)
Definition numeric_name_items : list value :=
  [VObj [prop "name" (num "5"); prop "price" (num "-1")]].

(** [[{name:"B",price:"abc"}]]: a price that is a text, and no number. *)
Definition text_price_items : list value :=
  [VObj [prop "name" (str " B "); prop "price" (str "abc")]].

(** A capture of two purchase units, the first with two captures:
    [{id:"O1", purchase_units:[{items:[{name:"A"}], payments:{captures:
    [{id:"C1",status:"COMPLETED"},{id:"C2",status:"DECLINED"}]}},
    {items:[{name:"B"}], payments:{captures:[{id:"C3"}]}}]}] *)
Definition first_unit : props :=
  [prop "items" (VArr [VObj [prop "name" (str "A")]]);
   prop "payments"
     (VObj [prop "captures"
              (VArr [VObj [prop "id" (str "C1");
                           prop "status" (str "COMPLETED")];
                     VObj [prop "id" (str "C2");
                           prop "status" (str "DECLINED")]])])].

Definition second_unit : value :=
  VObj [prop "items" (VArr [VObj [prop "name" (str "B")]]);
        prop "payments"
          (VObj [prop "captures" (VArr [VObj [prop "id" (str "C3")]])])].

Definition two_unit_capture : props :=
  [prop "id" (str "O1");
   prop "purchase_units" (VArr [VObj first_unit; second_unit])].

(** Failure answers of the gateway: with the message [[]], whose text is
    empty, with a message that has no text ([{toString:1}]), and with no
    message. *)
Definition failure (body : value) : response :=
  {| ok := false; http_status := 422; text := []; json := Ok body |}.

Definition empty_list_message : value := VObj [prop "message" (VArr [])].
Definition textless_message : value :=
  VObj [prop "message" (VObj [prop "toString" (num "1")])].
(** * Properties *)

(** ** Rounding to binary64, on mantissas of 53 and 54 bits *)

Lemma digits2_size (p : positive) : digits2_pos p = Pos.size p.
Proof. induction p; simpl; congruence. Qed.

Lemma size_log2 (p : positive) : Zpos (Pos.size p) = Z.log2 (Zpos p) + 1.
Proof. destruct p; simpl; lia. Qed.

Lemma Zdigits2_bounds (p : positive) (k : Z) :
  1 <= k -> 2 ^ (k - 1) <= Zpos p < 2 ^ k -> Zdigits2 (Zpos p) = k.
Proof.
  intros Hk H. unfold Zdigits2. rewrite digits2_size, size_log2.
  rewrite (Z.log2_unique (Zpos p) (k - 1)); try lia.
  replace (Z.succ (k - 1)) with k by lia. exact H.
Qed.

Lemma fexp_normal (a : Z) :
  -1021 <= a -> fexp Num.prec Num.emax a = a - 53.
Proof. unfold fexp, emin, Num.prec, Num.emax. lia. Qed.

Lemma shr_record_of_loc_m m l : shr_m (shr_record_of_loc m l) = m.
Proof. destruct l as [|[| |]]; reflexivity. Qed.

Lemma loc_of_shr_record_of_loc m l :
  loc_of_shr_record (shr_record_of_loc m l) = l.
Proof. destruct l as [|[| |]]; reflexivity. Qed.

Lemma shr_fexp_53 (m : positive) (e : Z) (l : location) :
  2 ^ 52 <= Zpos m < 2 ^ 53 -> -1074 <= e ->
  shr_fexp Num.prec Num.emax (Zpos m) e l = (shr_record_of_loc (Zpos m) l, e).
Proof.
  intros Hm He. unfold shr_fexp.
  rewrite (Zdigits2_bounds m 53) by (simpl; lia).
  rewrite fexp_normal by lia.
  replace (53 + e - 53 - e) with 0 by lia. reflexivity.
Qed.

Lemma shr_fexp_54 (m : positive) (e : Z) (l : location) :
  2 ^ 53 <= Zpos m < 2 ^ 54 -> -1074 <= e ->
  shr_fexp Num.prec Num.emax (Zpos m) e l
  = (shr_1 (shr_record_of_loc (Zpos m) l), e + 1).
Proof.
  intros Hm He. unfold shr_fexp.
  rewrite (Zdigits2_bounds m 54) by (simpl; lia).
  rewrite fexp_normal by lia.
  replace (54 + e - 53 - e) with 1 by lia. reflexivity.
Qed.

(** The second rounding step: a mantissa of 53 bits is kept, and [2 ^ 53]
    becomes [2 ^ 52] with the next exponent. *)
Lemma normalize_53 (s : bool) (q : Z) (e : Z) :
  2 ^ 52 <= q <= 2 ^ 53 -> -1074 <= e <= 900 ->
  exists mz ez,
    (let '(mrs, e') := shr_fexp Num.prec Num.emax q e loc_Exact in
     match shr_m mrs with
     | Z0 => S754_zero s
     | Zpos m =>
         if e' <=? Num.emax - Num.prec then S754_finite s m e'
         else S754_infinity s
     | Zneg _ => S754_nan
     end) = S754_finite s mz ez
    /\ e <= ez <= e + 1 /\ Zpos mz * 2 ^ (ez - e) = q.
Proof.
  intros Hq He. destruct q as [|m|m]; try lia.
  destruct (Z.eq_dec (Zpos m) (2 ^ 53)) as [E53|N53].
  - rewrite shr_fexp_54 by lia. injection E53 as ->.
    exists (Z.to_pos (2 ^ 52)), (e + 1). cbn [shr_record_of_loc shr_1 shr_m].
    destruct (Z.leb_spec (e + 1) (Num.emax - Num.prec)) as [_|H];
      [|unfold Num.emax, Num.prec in H; lia].
    split; [reflexivity|]. split; [lia|].
    replace (e + 1 - e) with 1 by lia. reflexivity.
  - rewrite shr_fexp_53 by lia.
    exists m, e. cbn [shr_record_of_loc shr_m].
    destruct (Z.leb_spec e (Num.emax - Num.prec)) as [_|H];
      [|unfold Num.emax, Num.prec in H; lia].
    split; [reflexivity|]. split; [lia|].
    replace (e - e) with 0 by lia. lia.
Qed.

Lemma round_nearest_even_bounds (m : Z) (l : location) :
  m <= round_nearest_even m l <= m + 1.
Proof.
  unfold round_nearest_even. destruct l as [|[| |]]; try lia.
  destruct (Z.even m); lia.
Qed.

Lemma shr_1_m (m : positive) (r s : bool) :
  shr_m (shr_1 {| shr_m := Zpos m; shr_r := r; shr_s := s |}) = Zpos m / 2.
Proof.
  destruct m as [p|p|]; cbn [shr_1 shr_m].
  - rewrite Pos2Z.inj_xI. apply (Z.div_unique _ 2 _ 1); lia.
  - rewrite Pos2Z.inj_xO. apply (Z.div_unique _ 2 _ 0); lia.
  - reflexivity.
Qed.

(** Halving a mantissa and rounding it, when the mantissa stands for
    [m + r / d]: the result, doubled, is within one unit of that value. *)
Lemma shr_1_round (m : positive) (l : location) (r d : Z) :
  0 < d -> 0 <= r < d -> (l = loc_Exact -> r = 0) ->
  let mrs := shr_1 (shr_record_of_loc (Zpos m) l) in
  let q' := round_nearest_even (shr_m mrs) (loc_of_shr_record mrs) in
  Zpos m / 2 <= q' <= Zpos m / 2 + 1 /\
  d * (2 * q') - d <= d * Zpos m + r <= d * (2 * q') + d.
Proof.
  intros Hd Hr Hexact mrs q'.
  assert (Hm : shr_m mrs = Zpos m / 2).
  { unfold mrs. destruct l as [|[| |]]; apply shr_1_m. }
  pose proof (round_nearest_even_bounds (shr_m mrs) (loc_of_shr_record mrs))
    as Hq'.
  fold q' in Hq'. rewrite Hm in Hq'. split; [exact Hq'|].
  assert (Hr0 : l = loc_Exact -> r = 0) by exact Hexact.
  unfold q', mrs. clear Hq' Hm q' mrs.
  destruct m as [p|p|]; destruct l as [|[| |]];
    cbn [shr_record_of_loc shr_1 orb loc_of_shr_record shr_m
         round_nearest_even];
    try rewrite Pos2Z.inj_xI; try rewrite Pos2Z.inj_xO;
    try (rewrite (Hr0 eq_refl)); try destruct (Z.even _); nia.
Qed.

(** The two steps together, on the quotient [q] of a division by [d] with
    the remainder [r]: the result is within one unit of the last place of
    [q] from [q + r / d]. *)
Lemma binary_round_aux_near (s : bool) (q : Z) (e : Z) (l : location)
  (r d : Z) :
  2 ^ 52 <= q < 2 ^ 54 -> -1074 <= e <= 800 ->
  0 < d -> 0 <= r < d -> (l = loc_Exact -> r = 0) ->
  exists mz ez,
    binary_round_aux Num.prec Num.emax s q e l = S754_finite s mz ez
    /\ e <= ez <= e + 2
    /\ d * (Zpos mz * 2 ^ (ez - e)) - d <= d * q + r
       <= d * (Zpos mz * 2 ^ (ez - e)) + d.
Proof.
  intros Hq He Hd Hr Hexact. unfold binary_round_aux.
  destruct q as [|m|m]; try lia.
  destruct (Z.lt_ge_cases (Zpos m) (2 ^ 53)) as [Hlt|Hge].
  - rewrite shr_fexp_53 by lia.
    rewrite shr_record_of_loc_m, loc_of_shr_record_of_loc.
    pose proof (round_nearest_even_bounds (Zpos m) l) as Hq'.
    destruct (normalize_53 s (round_nearest_even (Zpos m) l) e)
      as (mz & ez & -> & Hez & Hmz); [lia|lia|].
    exists mz, ez. split; [reflexivity|]. split; [lia|].
    rewrite Hmz. nia.
  - rewrite shr_fexp_54 by lia.
    destruct (shr_1_round m l r d Hd Hr Hexact) as [Hq' Hnear].
    assert (Hhalf : 2 ^ 52 <= Zpos m / 2 < 2 ^ 53).
    { split; [apply Z.div_le_lower_bound | apply Z.div_lt_upper_bound]; lia. }
    destruct (normalize_53 s
                (round_nearest_even
                   (shr_m (shr_1 (shr_record_of_loc (Zpos m) l)))
                   (loc_of_shr_record (shr_1 (shr_record_of_loc (Zpos m) l))))
                (e + 1))
      as (mz & ez & -> & Hez & Hmz); [lia|lia|].
    exists mz, ez. split; [reflexivity|]. split; [lia|].
    replace (ez - e) with (1 + (ez - (e + 1))) by lia.
    rewrite Z.pow_add_r by lia. change (2 ^ 1) with 2.
    rewrite <- Hmz in Hnear.
    replace (Zpos mz * (2 * 2 ^ (ez - (e + 1))))
      with (2 * (Zpos mz * 2 ^ (ez - (e + 1)))) by ring.
    exact Hnear.
Qed.

(** ** Integers as numbers, and their hundredth *)

Lemma iter_xO (p k : positive) :
  Zpos (Pos.iter xO p k) = Zpos p * 2 ^ Zpos k.
Proof.
  induction k as [|k IH] using Pos.peano_ind.
  - simpl. lia.
  - rewrite Pos.iter_succ, Pos2Z.inj_xO, IH, Pos2Z.inj_succ, Z.pow_succ_r; lia.
Qed.

Lemma binary_round_aux_exact (s : bool) (m : positive) (e : Z) :
  2 ^ 52 <= Zpos m < 2 ^ 53 -> -1074 <= e <= 900 ->
  binary_round_aux Num.prec Num.emax s (Zpos m) e loc_Exact
  = S754_finite s m e.
Proof.
  intros Hm He. unfold binary_round_aux.
  rewrite shr_fexp_53 by lia.
  cbn [shr_record_of_loc shr_m loc_of_shr_record round_nearest_even].
  rewrite shr_fexp_53 by lia. cbn [shr_record_of_loc shr_m].
  destruct (Z.leb_spec e (Num.emax - Num.prec)) as [_|H];
    [reflexivity|unfold Num.emax, Num.prec in H; lia].
Qed.

(** An integer below [2 ^ 53] is a number: its mantissa is the integer
    shifted to 53 bits. *)
Lemma of_Z_canonical (n : Z) :
  1 <= n < 2 ^ 53 ->
  exists mx ex,
    Num.of_Z n = S754_finite false mx ex
    /\ 2 ^ 52 <= Zpos mx < 2 ^ 53
    /\ ex = Z.log2 n - 52
    /\ Zpos mx = n * 2 ^ (- ex).
Proof.
  intros Hn. destruct n as [|p|p]; try lia.
  remember (Z.log2 (Zpos p) + 1) as d eqn:Hdef.
  assert (Hlog : 2 ^ (d - 1) <= Zpos p < 2 ^ d).
  { subst d. replace (Z.log2 (Zpos p) + 1 - 1) with (Z.log2 (Zpos p)) by lia.
    apply Z.log2_spec; lia. }
  assert (Hd : 1 <= d <= 53).
  { subst d. split; [pose proof (Z.log2_nonneg (Zpos p)); lia|].
    assert (Z.log2 (Zpos p) < 53); [|lia].
    apply Z.log2_lt_pow2; lia. }
  assert (Hdig : Zpos (digits2_pos p) = d).
  { apply (Zdigits2_bounds p d); lia. }
  assert (Hscale : 2 ^ 52 <= Zpos p * 2 ^ (53 - d) < 2 ^ 53).
  { replace (2 ^ 52) with (2 ^ (d - 1) * 2 ^ (53 - d))
      by (rewrite <- Z.pow_add_r by lia; f_equal; lia).
    replace (2 ^ 53) with (2 ^ d * 2 ^ (53 - d))
      by (rewrite <- Z.pow_add_r by lia; f_equal; lia).
    assert (0 < 2 ^ (53 - d)) by (apply Z.pow_pos_nonneg; lia).
    split; [apply Z.mul_le_mono_nonneg_r | apply Z.mul_lt_mono_pos_r]; lia. }
  unfold Num.of_Z, binary_normalize, binary_round.
  rewrite Hdig, Z.add_0_r, fexp_normal by lia.
  unfold shl_align.
  destruct (d - 53 - 0) as [|k|k] eqn:Ek; try lia.
  - (* 53 bits already *)
    assert (Hd53 : d = 53) by lia. rewrite Hd53 in Hscale.
    change (2 ^ (53 - 53)) with 1 in Hscale.
    rewrite binary_round_aux_exact by lia.
    exists p, 0. repeat split; lia.
  - assert (Hk : Zpos k = 53 - d) by lia.
    assert (Hm : Zpos (Pos.iter xO p k) = Zpos p * 2 ^ (53 - d))
      by (rewrite iter_xO, Hk; reflexivity).
    rewrite binary_round_aux_exact by lia.
    exists (Pos.iter xO p k), (d - 53). repeat split; try lia.
    rewrite Hm. f_equal. f_equal. lia.
Qed.

Lemma hundred_eq : hundred = S754_finite false 7036874417766400 (-46).
Proof. reflexivity. Qed.

Lemma ten21_eq : Num.ten21 = S754_finite false 7629394531250000 17.
Proof. reflexivity. Qed.

(** Dividing a number of 53 bits by 100: the quotient of the mantissas,
    on 53 or 54 bits, is rounded. *)
Lemma div_hundred_quotient (mx : positive) (ex : Z) :
  2 ^ 52 <= Zpos mx < 2 ^ 53 -> -52 <= ex <= 0 ->
  exists q r l,
    Num.div (S754_finite false mx ex) hundred
    = binary_round_aux Num.prec Num.emax false q (ex - 7) l
    /\ Zpos mx * 2 ^ 53 = 7036874417766400 * q + r
    /\ 0 <= r < 7036874417766400
    /\ (l = loc_Exact -> r = 0)
    /\ 2 ^ 52 <= q < 2 ^ 54.
Proof.
  intros Hm He. rewrite hundred_eq. unfold Num.div, SFdiv, SFdiv_core_binary.
  rewrite (Zdigits2_bounds mx 53) by (simpl; lia).
  change (Zdigits2 7036874417766400) with 53.
  rewrite fexp_normal by lia.
  replace (Z.min (53 + ex - (53 + -46) - 53) (ex - -46)) with (ex - 7) by lia.
  replace (ex - -46 - (ex - 7)) with 53 by lia.
  rewrite Z.shiftl_mul_pow2 by lia.
  pose proof (Z_div_mod (Zpos mx * 2 ^ 53) 7036874417766400 eq_refl) as Hdiv.
  destruct (Z.div_eucl (Zpos mx * 2 ^ 53) 7036874417766400) as [q r].
  destruct Hdiv as [Heq Hr].
  exists q, r, (new_location 7036874417766400 r).
  split; [reflexivity|]. split; [exact Heq|]. split; [exact Hr|].
  split; [|lia].
  unfold new_location, new_location_even. cbn [Z.even].
  destruct (Z.eqb_spec r 0); [auto|discriminate].
Qed.

(** The amount of [n] cents: [n / 100] as a number prints as [n]
    hundredths, for [n] below [2 ^ 52]. *)
Lemma cents_of_integer (n : Z) :
  1 <= n < 2 ^ 52 ->
  let y := Num.div (Num.of_Z n) hundred in
  Num.isFinite y = true /\ Num.ltb y Num.zero = false /\
  Num.leb Num.ten21 y = false /\ Num.scaled 2 y = Z.to_N n.
Proof.
  intros Hn y.
  destruct (of_Z_canonical n ltac:(lia)) as (mx & ex & Hof & Hmx & Hex & Hval).
  assert (Hlog : 0 <= Z.log2 n < 52).
  { split; [apply Z.log2_nonneg|apply Z.log2_lt_pow2; lia]. }
  destruct (div_hundred_quotient mx ex Hmx ltac:(lia))
    as (q & r & l & Hdiv & Heq & Hr & Hexact & Hq).
  destruct (binary_round_aux_near false q (ex - 7) l r 7036874417766400
              Hq ltac:(lia) eq_refl Hr Hexact)
    as (mz & ez & Hround & Hez & Hnear).
  assert (Hy : y = S754_finite false mz ez).
  { unfold y. rewrite Hof, Hdiv, Hround. reflexivity. }
  rewrite Hy. rewrite ten21_eq.
  split; [reflexivity|]. split; [reflexivity|]. split.
  { unfold Num.leb, SFleb, SFcompare.
    destruct (Z.compare_spec 17 ez); try lia; reflexivity. }
  unfold Num.scaled.
  destruct (Z.leb_spec 0 ez) as [H0|_]; [lia|].
  change (10 ^ Z.of_nat 2) with 100.
  rewrite Z.shiftr_div_pow2 by lia. f_equal.
  (* the powers of two at hand *)
  set (V := 2 ^ (- ez)).
  assert (HV : 0 < V) by (apply Z.pow_pos_nonneg; lia).
  assert (H2V : 2 ^ (1 - ez) = 2 * V).
  { unfold V. replace (1 - ez) with (1 + - ez) by lia.
    rewrite Z.pow_add_r by lia. reflexivity. }
  set (J := 2 ^ (ez - (ex - 7))) in *.
  assert (HW : 2 ^ (7 - ex) = J * V).
  { unfold J, V. rewrite <- Z.pow_add_r by lia. f_equal. lia. }
  assert (HJ : J = 1 \/ J = 2 \/ J = 4).
  { unfold J. assert (Hc : ez - (ex - 7) = 0 \/ ez - (ex - 7) = 1
                            \/ ez - (ex - 7) = 2) by lia.
    destruct Hc as [-> | [-> | ->]]; auto. }
  assert (Hbig : 256 <= 2 ^ (7 - ex)).
  { change 256 with (2 ^ 8). apply Z.pow_le_mono_r; lia. }
  (* [n * 2 ^ (7 - ex)] is within 100 of [100 * mz * J] *)
  assert (HX : 100 * (Zpos mz * J) - 100 <= n * 2 ^ (7 - ex)
               <= 100 * (Zpos mz * J) + 100).
  { assert (E : n * 2 ^ (7 - ex) * 2 ^ 46 = Zpos mx * 2 ^ 53).
    { rewrite Hval. replace (7 - ex) with (7 + - ex) by lia.
      rewrite Z.pow_add_r by lia. lia. }
    lia. }
  rewrite HW in HX, Hbig. rewrite H2V.
  symmetry. apply (Z.div_unique_pos _ _ _ (200 * Zpos mz + V - n * (2 * V))).
  - destruct HJ as [HJ | [HJ | HJ]]; rewrite HJ in *; nia.
  - lia.
Qed.

(** ** Decimal texts *)

Lemma uint_codes_digits (d : Decimal.uint) :
  forallb Str.is_digit (Str.uint_codes d) = true.
Proof. induction d; simpl; auto. Qed.

Lemma digits_value_fold ds :
  Num.digits_value 10 Str.digit_value ds = fold_left decimal_step ds 0%N.
Proof. reflexivity. Qed.

Lemma uint_codes_acc (d : Decimal.uint) (acc : positive) :
  fold_left decimal_step (Str.uint_codes d) (Npos acc)
  = Npos (Pos.of_uint_acc d acc).
Proof.
  revert acc; induction d; intros acc;
    cbn [Str.uint_codes fold_left Pos.of_uint_acc]; try reflexivity;
    rewrite <- IHd; f_equal; unfold decimal_step, Str.digit_value;
    lia.
Qed.

Lemma uint_codes_value (d : Decimal.uint) :
  fold_left decimal_step (Str.uint_codes d) 0%N = Pos.of_uint d.
Proof.
  induction d; cbn [Str.uint_codes fold_left Pos.of_uint]; try reflexivity;
    try exact IHd;
    match goal with
    | |- fold_left _ _ ?a = _ =>
        let v := eval compute in a in change a with v
    end; apply uint_codes_acc.
Qed.

Lemma of_N_value (n : N) : Num.digits_value 10 Str.digit_value (Str.of_N n) = n.
Proof.
  rewrite digits_value_fold. unfold Str.of_N. rewrite uint_codes_value.
  apply DecimalN.Unsigned.of_to.
Qed.

Lemma of_N_digits (n : N) : forallb Str.is_digit (Str.of_N n) = true.
Proof. apply uint_codes_digits. Qed.

Lemma of_N_nonempty (n : N) : Str.of_N n <> [].
Proof.
  unfold Str.of_N. destruct n as [|p]; [discriminate|].
  cbn [N.to_uint]. pose proof (DecimalPos.Unsigned.to_uint_nonnil p) as H.
  destruct (Pos.to_uint p); [congruence|..]; discriminate.
Qed.

(** ** Texts of the form [/^\d+\.\d{2}$/] *)

Lemma matches_amount_intro (a : Str.t) (d1 d2 : Str.code_unit) :
  a <> [] -> forallb Str.is_digit a = true ->
  Str.is_digit d1 = true -> Str.is_digit d2 = true ->
  matches_amount (a ++ [46%N; d1; d2]) = true.
Proof.
  intros Ha Hd H1 H2. induction a as [|c a IH]; [congruence|].
  simpl in Hd. apply andb_true_iff in Hd as [Hc Hd].
  cbn [app matches_amount]. rewrite Hc. cbn [andb].
  destruct a as [|c' a].
  - cbn [app]. rewrite H1, H2. reflexivity.
  - rewrite IH by (auto; discriminate). apply orb_true_r.
Qed.

Lemma fraction_part_elim (s : Str.t) :
  (match s with
   | [46%N; d1; d2] => Str.is_digit d1 && Str.is_digit d2
   | _ => false
   end) = true ->
  exists d1 d2,
    s = [46%N; d1; d2] /\ Str.is_digit d1 = true /\ Str.is_digit d2 = true.
Proof.
  destruct s as [|x s]; [discriminate|].
  destruct x as [|p]; [discriminate|].
  repeat (destruct p as [p|p|]; try discriminate).
  destruct s as [|d1 [|d2 [|? ?]]]; try discriminate.
  intros H. apply andb_true_iff in H as [H1 H2]. exists d1, d2. auto.
Qed.

(** The converse: a matching text is digits, a dot and two digits. *)
Lemma matches_amount_elim (s : Str.t) :
  matches_amount s = true ->
  exists a d1 d2,
    s = a ++ [46%N; d1; d2] /\ a <> [] /\ forallb Str.is_digit a = true /\
    Str.is_digit d1 = true /\ Str.is_digit d2 = true.
Proof.
  induction s as [|c s IH]; [discriminate|].
  cbn [matches_amount]. intros H. apply andb_true_iff in H as [Hc H].
  apply orb_true_iff in H as [H|H].
  - apply fraction_part_elim in H as (d1 & d2 & -> & H1 & H2).
    exists [c], d1, d2. repeat split; auto; try discriminate.
    simpl; rewrite Hc; reflexivity.
  - destruct (IH H) as (a & d1 & d2 & -> & Ha & Hd & H1 & H2).
    exists (c :: a), d1, d2. repeat split; auto; try discriminate.
    simpl; rewrite Hc, Hd; reflexivity.
Qed.

(** The recognizer accepts exactly the texts made of digits, a dot and two
    digits. *)
Lemma matches_amount_iff (s : Str.t) :
  matches_amount s = true <->
  exists a d1 d2,
    s = a ++ [46%N; d1; d2] /\ a <> [] /\ forallb Str.is_digit a = true /\
    Str.is_digit d1 = true /\ Str.is_digit d2 = true.
Proof.
  split; [apply matches_amount_elim|].
  intros (a & d1 & d2 & -> & Ha & Hd & H1 & H2).
  apply matches_amount_intro; assumption.
Qed.

Lemma filter_digits_amount (a : Str.t) (d1 d2 : Str.code_unit) :
  forallb Str.is_digit a = true ->
  Str.is_digit d1 = true -> Str.is_digit d2 = true ->
  filter Str.is_digit (a ++ [46%N; d1; d2]) = a ++ [d1; d2].
Proof.
  intros Hd H1 H2. induction a as [|c a IH]; simpl.
  - rewrite H1, H2; reflexivity.
  - simpl in Hd. apply andb_true_iff in Hd as [Hc Hd].
    rewrite Hc, IH by exact Hd. reflexivity.
Qed.

(** Splitting a text of digits before its last two digits gives a text of
    the form, for the same integer. *)
Lemma split_two_digits (m : Str.t) :
  forallb Str.is_digit m = true -> (3 <= length m)%nat ->
  let s := firstn (length m - 2) m ++ Str.lit "." ++ skipn (length m - 2) m in
  matches_amount s = true /\
  amount_cents s = Some (Num.digits_value 10 Str.digit_value m).
Proof.
  intros Hd Hlen. cbv zeta.
  pose proof (firstn_skipn (length m - 2) m) as Hm.
  assert (Hb : length (skipn (length m - 2) m) = 2%nat)
    by (rewrite length_skipn; lia).
  assert (Ha : firstn (length m - 2) m <> []).
  { intros E. apply (f_equal (@length _)) in E.
    rewrite length_firstn in E. simpl in E. lia. }
  destruct (skipn (length m - 2) m) as [|d1 [|d2 [|? ?]]]; try discriminate.
  set (a := firstn (length m - 2) m) in *.
  rewrite <- Hm, forallb_app in Hd. apply andb_true_iff in Hd as [Hda Hdb].
  simpl in Hdb. apply andb_true_iff in Hdb as [H1 H2].
  rewrite andb_true_r in H2.
  change (a ++ Str.lit "." ++ [d1; d2]) with (a ++ [46%N; d1; d2]).
  assert (Hmatch : matches_amount (a ++ [46%N; d1; d2]) = true)
    by (apply matches_amount_intro; auto).
  split; [exact Hmatch|].
  unfold amount_cents. rewrite Hmatch, filter_digits_amount, Hm; auto.
Qed.

Lemma leading_zeros_value (k : nat) (m : Str.t) :
  Num.digits_value 10 Str.digit_value (repeat 48%N k ++ m)
  = Num.digits_value 10 Str.digit_value m.
Proof.
  unfold Num.digits_value. rewrite fold_left_app. f_equal.
  induction k; simpl; auto.
Qed.

(** [toFixed(2)] in the range of the fixed notation. *)
Lemma toFixed_text (x : Num.t) :
  Num.isFinite x = true -> Num.ltb x Num.zero = false ->
  Num.leb Num.ten21 x = false ->
  matches_amount (Num.toFixed 2 x) = true /\
  amount_cents (Num.toFixed 2 x) = Some (Num.scaled 2 x).
Proof.
  intros Hf Hneg Hbig. unfold Num.toFixed. rewrite Hf, Hneg, Hbig.
  cbn [negb app].
  pose proof (of_N_digits (Num.scaled 2 x)) as Hd0.
  pose proof (of_N_value (Num.scaled 2 x)) as Hv0.
  generalize dependent (Str.of_N (Num.scaled 2 x)). intros m0 Hd0 Hv0.
  set (m := if (length m0 <=? 2)%nat
            then repeat 48%N (2 + 1 - length m0) ++ m0 else m0).
  assert (Hd : forallb Str.is_digit m = true).
  { unfold m. destruct (length m0 <=? 2)%nat; [|exact Hd0].
    rewrite forallb_app. apply andb_true_iff; split; [|exact Hd0].
    induction (2 + 1 - length m0)%nat; simpl; auto. }
  assert (Hlen : (3 <= length m)%nat).
  { unfold m. destruct (Nat.leb_spec (length m0) 2); [|exact H].
    unfold Str.t, Str.code_unit in *.
    rewrite length_app, repeat_length. lia. }
  assert (Hv : Num.digits_value 10 Str.digit_value m = Num.scaled 2 x).
  { unfold m. destruct (length m0 <=? 2)%nat;
      [rewrite leading_zeros_value|]; exact Hv0. }
  rewrite <- Hv. apply split_two_digits; assumption.
Qed.

(** ** Signs and ranges of numbers *)

Lemma binary_round_aux_signed s m e l :
  signed s (binary_round_aux Num.prec Num.emax s m e l).
Proof.
  unfold binary_round_aux.
  destruct (shr_fexp _ _ m e l) as [mrs e'].
  destruct (shr_fexp _ _ _ e' loc_Exact) as [mrs' e''].
  destruct (shr_m mrs'); simpl; auto.
  destruct (Z.leb _ _); simpl; auto.
Qed.

Lemma binary_round_signed s m e :
  signed s (binary_round Num.prec Num.emax s m e).
Proof.
  unfold binary_round. destruct (shl_align _ _ _).
  apply binary_round_aux_signed.
Qed.

Lemma of_Z_signed n : 0 <= n -> signed false (Num.of_Z n).
Proof.
  intros H. unfold Num.of_Z, binary_normalize. destruct n; simpl; auto.
  - apply binary_round_signed.
  - lia.
Qed.

Lemma mul_hundred_signed x : signed false x -> signed false (Num.mul x hundred).
Proof.
  rewrite hundred_eq. destruct x as [s|s| |s m e]; simpl; auto;
    intros ->; simpl; auto.
  apply binary_round_aux_signed.
Qed.

Lemma half_up_nonneg m e n :
  Num.half_up (S754_finite false m e) = Some n -> 0 <= n.
Proof.
  unfold Num.half_up, cond_Zopp. intros H; injection H as <-.
  destruct (0 <=? e) eqn:E.
  - assert (H : 0 <= 2 ^ e) by (apply Z.pow_nonneg; lia).
    destruct (2 ^ e); lia.
  - apply Z.shiftr_nonneg.
    assert (H : 0 <= 2 ^ (- e)) by (apply Z.pow_nonneg; lia).
    destruct (2 ^ (- e)); lia.
Qed.

Lemma round_signed x : signed false x -> signed false (Num.round x).
Proof.
  destruct x as [s|s| |s m e]; try (intros H; exact H).
  intros Hs. cbn [signed] in Hs. subst s. unfold Num.round.
  destruct (Num.half_up (S754_finite false m e)) as [n|] eqn:E;
    [|reflexivity].
  destruct (n =? 0); [reflexivity|].
  apply of_Z_signed. eapply half_up_nonneg; eauto.
Qed.

Lemma div_hundred_signed x : signed false x -> signed false (Num.div x hundred).
Proof.
  rewrite hundred_eq. destruct x as [s|s| |s m e]; simpl; auto;
    intros ->; simpl; auto.
  unfold Num.div, SFdiv.
  destruct (SFdiv_core_binary _ _ _ _ _ _) as [[q e'] l].
  apply binary_round_aux_signed.
Qed.

Lemma rounded_amount_signed x :
  signed false x -> signed false (rounded_amount x).
Proof.
  intros H. apply div_hundred_signed, round_signed, mul_hundred_signed, H.
Qed.

Lemma compare_antisym_finite m1 e1 m2 e2 :
  SFcompare (S754_finite false m1 e1) (S754_finite false m2 e2) = Some Lt ->
  SFcompare (S754_finite false m2 e2) (S754_finite false m1 e1) = Some Gt.
Proof.
  simpl. rewrite (Z.compare_antisym e1 e2).
  destruct (e1 ?= e2); simpl; try congruence.
  intros H; injection H as H.
  pose proof (Pos.compare_cont_antisym m1 m2 Eq) as A. cbn [CompOpp] in A.
  rewrite <- A, H. reflexivity.
Qed.

(** Between zero and [10 ^ 21], [toFixed] stays in the fixed notation. *)
Lemma fixed_range (q : Num.t) :
  Num.leb Num.zero q = true -> Num.ltb q Num.ten21 = true ->
  Num.isFinite q = true /\ Num.ltb q Num.zero = false /\
  Num.leb Num.ten21 q = false.
Proof.
  rewrite ten21_eq. unfold Num.leb, Num.ltb, SFleb, SFltb, Num.zero.
  destruct q as [s|[|]| |[|] m e]; try discriminate.
  - intros _ _. repeat split.
  - intros _ H. repeat split.
    destruct (SFcompare (S754_finite false m e) _) as [[| |]|] eqn:E;
      try discriminate.
    rewrite (compare_antisym_finite _ _ _ _ E). reflexivity.
Qed.

Lemma signed_nonneg (q : Num.t) :
  signed false q -> Num.ltb q Num.ten21 = true -> Num.leb Num.zero q = true.
Proof.
  rewrite ten21_eq.
  destruct q as [s|s| |s m e]; simpl; try discriminate; intros ->; auto;
    discriminate.
Qed.

Lemma good_price_positive (p : Num.t) :
  good_price p = true -> exists m e, p = S754_finite false m e.
Proof.
  unfold good_price. destruct p as [s|s| |[|] m e]; try discriminate; eauto.
Qed.

Lemma amountToString_text (v : Num.t) :
  let q := rounded_amount (if Num.truthy v then v else Num.zero) in
  Num.leb Num.zero q = true -> Num.ltb q Num.ten21 = true ->
  matches_amount (amountToString v) = true /\
  amount_cents (amountToString v) = Some (Num.scaled 2 q).
Proof.
  intros q H0 H21. destruct (fixed_range q H0 H21) as (Hf & Hn & Hb).
  apply toFixed_text; assumption.
Qed.

Lemma amountToString_price_text (p : Num.t) :
  good_price p = true ->
  Num.ltb (rounded_amount p) Num.ten21 = true ->
  matches_amount (amountToString p) = true /\
  amount_cents (amountToString p) = Some (Num.scaled 2 (rounded_amount p)).
Proof.
  intros Hp H21. destruct (good_price_positive p Hp) as (m & e & ->).
  apply (amountToString_text (S754_finite false m e)); [|exact H21].
  apply signed_nonneg; [|exact H21].
  apply rounded_amount_signed. reflexivity.
Qed.

(** ** Strings *)

Lemma Str_eqb_eq (a b : Str.t) : Str.eqb a b = true <-> a = b.
Proof.
  revert b; induction a as [|x a IH]; intros [|y b]; simpl;
    try (split; congruence).
  rewrite andb_true_iff, N.eqb_eq, IH. split.
  - intros [-> ->]; reflexivity.
  - intros H; injection H; auto.
Qed.

Lemma Str_eqb_refl (a : Str.t) : Str.eqb a a = true.
Proof. apply Str_eqb_eq; reflexivity. Qed.

(** ** Capture summary *)

Lemma extractCaptureSummary_empty_object :
  extractCaptureSummary (VObj []) =
  Ok {| Summary.orderId := VUndefined; Summary.captureId := VUndefined;
        Summary.status := VUndefined; Summary.payerEmail := VUndefined;
        Summary.payerGivenName := VUndefined;
        Summary.payerSurname := VUndefined; Summary.amount := VUndefined;
        Summary.currency := VUndefined; Summary.items := VArr [];
        Summary.createTime := VUndefined; Summary.updateTime := VUndefined |}.
Proof. reflexivity. Qed.

Lemma extractCaptureSummary_total (payload : value) :
  payload <> VNull -> exists s, extractCaptureSummary payload = Ok s.
Proof.
  intros H. destruct payload; try congruence; eexists; reflexivity.
Qed.

Lemma lookup_set_same k v ps : Js.lookup k (set_prop k v ps) = Some v.
Proof.
  induction ps as [|[k' v'] ps IH]; simpl.
  - rewrite Str_eqb_refl; reflexivity.
  - destruct (Str.eqb k k') eqn:E; simpl.
    + rewrite Str_eqb_refl; reflexivity.
    + rewrite E; exact IH.
Qed.

Lemma lookup_set_other k k' v ps :
  Str.eqb k' k = false -> Js.lookup k' (set_prop k v ps) = Js.lookup k' ps.
Proof.
  intros Hk. induction ps as [|[k0 v0] ps IH]; simpl.
  - rewrite Hk; reflexivity.
  - destruct (Str.eqb k k0) eqn:E; simpl.
    + apply Str_eqb_eq in E; subst k0. rewrite Hk; reflexivity.
    + rewrite IH; reflexivity.
Qed.

Lemma opt_set_same k v ps :
  Js.opt (VObj (set_prop (Str.lit k) v ps)) k = v.
Proof. unfold Js.opt; simpl. rewrite lookup_set_same; reflexivity. Qed.

Lemma opt_set_other k k' v ps :
  Str.eqb (Str.lit k') (Str.lit k) = false ->
  Js.opt (VObj (set_prop (Str.lit k) v ps)) k' = Js.opt (VObj ps) k'.
Proof.
  intros H. unfold Js.opt; simpl.
  rewrite lookup_set_other by exact H; reflexivity.
Qed.

(** On an object, nothing throws: the summary is made of optional reads
    of the payer, of the first purchase unit and of its first capture. *)
Lemma extractCaptureSummary_object (ps : props) :
  let payload := VObj ps in
  let purchaseUnit := Js.opt0 (Js.opt payload "purchase_units") in
  let capture :=
    Js.opt0 (Js.opt (Js.opt purchaseUnit "payments") "captures") in
  extractCaptureSummary payload =
  Ok {| Summary.orderId := Js.opt payload "id";
        Summary.captureId := Js.opt capture "id";
        Summary.status := Js.opt capture "status";
        Summary.payerEmail := Js.opt (Js.opt payload "payer") "email_address";
        Summary.payerGivenName :=
          Js.opt (Js.opt (Js.opt payload "payer") "name") "given_name";
        Summary.payerSurname :=
          Js.opt (Js.opt (Js.opt payload "payer") "name") "surname";
        Summary.amount := Js.opt (Js.opt capture "amount") "value";
        Summary.currency := Js.opt (Js.opt capture "amount") "currency_code";
        Summary.items := Js.coalesce (Js.opt purchaseUnit "items") (VArr []);
        Summary.createTime := Js.opt capture "create_time";
        Summary.updateTime := Js.opt capture "update_time" |}.
Proof. reflexivity. Qed.

(** ** Errors of the coercions and of the cart normalizer *)

Lemma toString_throws (v : value) (e : error) :
  Js.toString v = Throw e -> e = Js.no_primitive.
Proof.
  revert e. induction v as [| | b | x | s | elems IH | ps _] using value_induction;
    intros e; simpl; try discriminate.
  - (* arrays *)
    match goal with
    | |- bind (?f elems) _ = _ -> _ => set (parts := f)
    end.
    assert (Hparts : forall e, parts elems = Throw e -> e = Js.no_primitive).
    { clear e. induction IH as [|x l Hx _ IHl]; intros e; simpl; [discriminate|].
      destruct (Js.nullish x); simpl.
      - destruct (parts l); simpl; [discriminate|].
        intros H; injection H as <-. apply IHl; reflexivity.
      - destruct (Js.toString x) eqn:Ex; simpl.
        + destruct (parts l); simpl; [discriminate|].
          intros H; injection H as <-. apply IHl; reflexivity.
        + intros H; injection H as <-. apply Hx; reflexivity. }
    destruct (parts elems) eqn:E; simpl; [discriminate|].
    intros H; injection H as <-. apply Hparts; reflexivity.
  - destruct (Js.has_own "toString" ps); [|discriminate].
    intros H; injection H as <-; reflexivity.
Qed.

Lemma toNumber_throws (v : value) (e : error) :
  Js.toNumber v = Throw e -> e = Js.no_primitive.
Proof.
  destruct v; try discriminate; unfold Js.toNumber;
    (destruct (Js.toString _) eqn:E; [discriminate|]);
    intros H; injection H as <-; eapply toString_throws; exact E.
Qed.

Lemma plain_no_primitive : plain Js.no_primitive.
Proof. repeat split; discriminate. Qed.

(** ** Cart normalizer *)

Lemma normalizeItem_Ok cfg index item o :
  normalizeItem cfg index item = Ok o <->
  exists nm q p,
    trimmed_name item = Ok (VStr nm) /\ nm <> [] /\
    quantity_of item = Ok q /\ price_of item = Ok p /\
    good_price p = true /\ good_quantity q = true /\
    o = line_of cfg index item nm q p.
Proof.
  unfold normalizeItem, good_price, good_quantity.
  fold (quantity_of item). fold (price_of item).
  destruct (trimmed_name item) as [nv|e]; simpl.
  2:{ split; [discriminate|]. intros (nm & q & p & H & _); discriminate. }
  destruct (quantity_of item) as [q|e]; simpl.
  2:{ split; [discriminate|]. intros (nm & q & p & _ & _ & H & _); discriminate. }
  destruct (price_of item) as [p|e]; simpl.
  2:{ split; [discriminate|].
      intros (nm & q' & p & _ & _ & _ & H & _); discriminate. }
  split.
  - destruct nv as [| | | |[|c nm]| |]; try discriminate.
    destruct (Num.isFinite p) eqn:Ef, (Num.leb p Num.zero) eqn:El; simpl;
      try discriminate.
    destruct (Num.isInteger q) eqn:Ei, (Num.leb q Num.zero) eqn:Eq; simpl;
      try discriminate.
    intros H; injection H as <-.
    exists (c :: nm), q, p. rewrite Ef, El, Ei, Eq.
    repeat split; try reflexivity; discriminate.
  - intros (nm & q' & p' & Hn & Hne & Hq & Hp & Hgp & Hgq & ->).
    injection Hn as ->. injection Hq as <-. injection Hp as <-.
    destruct nm as [|c nm]; [congruence|].
    destruct (Num.isFinite p), (Num.leb p Num.zero); simpl in *; try discriminate.
    destruct (Num.isInteger q), (Num.leb q Num.zero); simpl in *; try discriminate.
    reflexivity.
Qed.

Lemma trimmed_name_throws item e :
  trimmed_name item = Throw e -> plain e.
Proof.
  unfold trimmed_name. destruct (Js.nullish _); [discriminate|].
  destruct (Js.opt item "name"); try discriminate;
    intros H; injection H as <-; repeat split; discriminate.
Qed.

Lemma normalizeItem_Throw cfg index item e :
  normalizeItem cfg index item = Throw e -> plain e.
Proof.
  unfold normalizeItem.
  fold (quantity_of item). fold (price_of item).
  destruct (trimmed_name item) as [nv|e0] eqn:En; cbn [bind].
  2:{ intros H; injection H as <-. eapply trimmed_name_throws; eauto. }
  destruct (quantity_of item) as [q|e0] eqn:Eq; cbn [bind].
  2:{ intros H; injection H as <-.
      rewrite (toNumber_throws _ _ Eq). apply plain_no_primitive. }
  destruct (price_of item) as [p|e0] eqn:Ep; cbn [bind].
  2:{ intros H; injection H as <-.
      rewrite (toNumber_throws _ _ Ep). apply plain_no_primitive. }
  assert (Hmissing : forall n,
    plain (new_Error (Str.lit "Item #" ++ Str.of_N n
                      ++ Str.lit " is missing a name."))).
  { intros n; repeat split; discriminate. }
  destruct nv as [| | | |[|c nm]| |];
    try (intros H; injection H as <-; apply Hmissing).
  destruct (_ || _).
  { intros H; injection H as <-; repeat split; discriminate. }
  destruct (_ || _); [|discriminate].
  intros H; injection H as <-; repeat split; discriminate.
Qed.

Lemma valid_item_iff cfg index item :
  valid_item item = true <-> exists o, normalizeItem cfg index item = Ok o.
Proof.
  unfold valid_item. split.
  - destruct (trimmed_name item) as [[| | | |[|c nm]| |]|] eqn:En; try discriminate.
    destruct (quantity_of item) as [q|] eqn:Eq; try discriminate.
    destruct (price_of item) as [p|] eqn:Ep; try discriminate.
    intros H. apply andb_true_iff in H as [Hp Hq].
    eexists. apply normalizeItem_Ok.
    exists (c :: nm), q, p. repeat split; auto; discriminate.
  - intros [o H]. apply normalizeItem_Ok in H
      as (nm & q & p & -> & Hne & -> & -> & Hp & Hq & _).
    destruct nm; [congruence|]. rewrite Hp, Hq; reflexivity.
Qed.

Lemma map_from_Ok cfg index items out :
  map_from cfg index items = Ok out ->
  length out = length items /\
  forall n item, nth_error items n = Some item ->
    exists o, nth_error out n = Some o /\
              normalizeItem cfg (index + n) item = Ok o.
Proof.
  revert index out; induction items as [|x items IH]; intros index out; simpl.
  - intros H; injection H as <-. split; [reflexivity|].
    intros [|n] item; discriminate.
  - destruct (normalizeItem cfg index x) as [o|] eqn:Ex; simpl; [|discriminate].
    destruct (map_from cfg (S index) items) as [os|] eqn:Erest; simpl;
      [|discriminate].
    intros H; injection H as <-.
    destruct (IH _ _ Erest) as [Hlen Hnth]. split; [simpl; congruence|].
    intros [|n] item; simpl.
    + intros H; injection H as <-. exists o. rewrite Nat.add_0_r; auto.
    + intros H. destruct (Hnth _ _ H) as (o' & Ho' & Hn).
      exists o'. rewrite Nat.add_succ_r; auto.
Qed.

Lemma map_from_Throw cfg index items e :
  map_from cfg index items = Throw e ->
  exists n item,
    nth_error items n = Some item /\
    normalizeItem cfg (index + n) item = Throw e /\
    forall m, (m < n)%nat ->
      exists item',
        nth_error items m = Some item' /\ valid_item item' = true.
Proof.
  revert index; induction items as [|x items IH]; intros index; simpl;
    [discriminate|].
  destruct (normalizeItem cfg index x) as [o|e0] eqn:Ex; simpl.
  - destruct (map_from cfg (S index) items) as [os|e1] eqn:Erest; simpl;
      [discriminate|].
    intros H; injection H as <-.
    destruct (IH _ Erest) as (n & item & Hn & He & Hbefore).
    exists (S n), item. rewrite Nat.add_succ_r. repeat split; auto.
    intros [|m] Hm; simpl.
    + exists x. split; [reflexivity|]. eapply valid_item_iff; eauto.
    + apply Hbefore; lia.
  - intros H; injection H as <-. exists 0%nat, x.
    rewrite Nat.add_0_r. repeat split; auto. intros m Hm; lia.
Qed.

Lemma map_from_valid cfg index items :
  forallb valid_item items = true ->
  exists out, map_from cfg index items = Ok out.
Proof.
  revert index; induction items as [|x items IH]; intros index; simpl.
  - eauto.
  - intros H. apply andb_true_iff in H as [Hx Hrest].
    apply (valid_item_iff cfg index) in Hx as [o ->].
    destruct (IH (S index) Hrest) as [os ->]. simpl; eauto.
Qed.

Lemma map_from_invalid cfg index items :
  forallb valid_item items = false ->
  exists e, map_from cfg index items = Throw e.
Proof.
  revert index; induction items as [|x items IH]; intros index; simpl;
    [discriminate|].
  intros H. destruct (normalizeItem cfg index x) as [o|e] eqn:Ex; simpl; eauto.
  assert (Hx : valid_item x = true) by (eapply valid_item_iff; eauto).
  rewrite Hx in H; simpl in H.
  destruct (IH (S index) H) as [e ->]. simpl; eauto.
Qed.

Lemma normalizeItems_array cfg x l :
  normalizeItems cfg (VArr (x :: l)) = map_from cfg 0 (x :: l).
Proof. reflexivity. Qed.

Lemma normalizeItems_missing cfg items :
  (forall x l, items <> VArr (x :: l)) ->
  normalizeItems cfg items = Throw (new_Error (Str.lit "Missing cart items.")).
Proof.
  intros H. destruct items as [| | | | |[|x l]|]; try reflexivity.
  exfalso; eapply H; reflexivity.
Qed.

Lemma normalizeItems_Throw cfg items e :
  normalizeItems cfg items = Throw e -> plain e.
Proof.
  destruct items as [| | | | |[|x l]|];
    try (intros H; injection H as <-; repeat split; discriminate).
  rewrite normalizeItems_array. intros H.
  apply map_from_Throw in H as (n & item & _ & H & _).
  eapply normalizeItem_Throw; eauto.
Qed.

Lemma normalizeItems_invalid cfg items :
  valid_cart items = false -> exists e, normalizeItems cfg items = Throw e.
Proof.
  destruct items as [| | | | |[|x l]|]; try (intros _; eexists; reflexivity).
  intros H. rewrite normalizeItems_array. apply map_from_invalid. exact H.
Qed.

Lemma normalizeItems_valid cfg items :
  valid_cart items = true -> exists out, normalizeItems cfg items = Ok out.
Proof.
  destruct items as [| | | | |[|x l]|]; try discriminate.
  intros H. rewrite normalizeItems_array. apply map_from_valid. exact H.
Qed.

(** The errors of [normalizeItem]: the three of its own, which name the
    item by its position or by its trimmed name, and the two of the
    engine, which name no item. *)
Lemma normalizeItem_Throw_cases cfg index item e :
  normalizeItem cfg index item = Throw e ->
  e = new_Error (Str.lit "Item #" ++ Str.of_N (N.of_nat (index + 1))
                 ++ Str.lit " is missing a name.")
  \/ (exists nm,
        trimmed_name item = Ok (VStr nm) /\
        (e = new_Error (Str.lit "Item " ++ Str.quoted nm
                        ++ Str.lit " has an invalid price.")
         \/ e = new_Error (Str.lit "Item " ++ Str.quoted nm
                           ++ Str.lit " has an invalid quantity.")))
  \/ (trimmed_name item = Throw e /\
      e = new_TypeError (Str.lit "item?.name?.trim is not a function"))
  \/ (e = Js.no_primitive /\
      (quantity_of item = Throw e \/ price_of item = Throw e)).
Proof.
  unfold normalizeItem.
  fold (quantity_of item). fold (price_of item).
  destruct (trimmed_name item) as [nv|e0] eqn:En; cbn [bind].
  2:{ intros H; injection H as <-. right; right; left.
      split; [reflexivity|].
      unfold trimmed_name in En. destruct (Js.nullish _); [discriminate|].
      destruct (Js.opt item "name"); try discriminate;
        injection En as <-; reflexivity. }
  destruct (quantity_of item) as [q|e0] eqn:Eq; cbn [bind].
  2:{ intros H; injection H as <-. right; right; right.
      rewrite (toNumber_throws _ _ Eq). auto. }
  destruct (price_of item) as [p|e0] eqn:Ep; cbn [bind].
  2:{ intros H; injection H as <-. right; right; right.
      rewrite (toNumber_throws _ _ Ep). auto. }
  destruct nv as [| | | |[|c nm]| |];
    try (intros H; injection H as <-; left; reflexivity).
  destruct (_ || _).
  { intros H; injection H as <-. right; left. exists (c :: nm). auto. }
  destruct (_ || _); [|discriminate].
  intros H; injection H as <-. right; left. exists (c :: nm). auto.
Qed.

(** ** Routes *)

Lemma error_middleware_plain (e : error) (w : world) :
  plain e ->
  error_middleware e w =
  (Ok {| reply_status := number 500;
         reply_body := message_body (err_message e) |},
   logged w "PayPal integration error:" e).
Proof.
  intros (Hm & Hs & Hp). unfold error_middleware, bindM, console_error, ret.
  rewrite Hs, Hp. cbn [Js.truthy]. unfold message_body, logged.
  destruct (err_message e); [congruence|reflexivity].
Qed.

Lemma create_order_rejected cfg env body w e :
  normalizeItems cfg (Js.opt body "items") = Throw e ->
  create_order cfg env body w =
  (Ok {| reply_status := number 500;
         reply_body := message_body (err_message e) |},
   logged w "PayPal integration error:" e).
Proof.
  intros H. unfold create_order, try_catch, bindM, lift. rewrite H.
  apply error_middleware_plain. eapply normalizeItems_Throw; eauto.
Qed.

Lemma persistCapture_returns env capture w :
  exists w',
    persistCapture env capture w = (Ok tt, w') /\
    sent w' = sent w /\
    (forall e, mkdir env = Some e ->
       w' = logged w "Failed to persist capture record" e) /\
    (forall e, mkdir env = None -> extractCaptureSummary capture = Throw e ->
       w' = logged w "Failed to persist capture record" e) /\
    (forall s e, mkdir env = None -> extractCaptureSummary capture = Ok s ->
       appendFile env = Some e ->
       w' = logged w "Failed to persist capture record" e) /\
    (forall s, mkdir env = None -> extractCaptureSummary capture = Ok s ->
       appendFile env = None ->
       w' = {| sent := sent w; console := console w;
               transactions :=
                 transactions w
                 ++ [{| summary := s; loggedAt := now env; raw := capture |}] |}).
Proof.
  unfold persistCapture, try_catch, bindM, fs_call, lift, append_record,
    console_error, throw, ret.
  destruct (mkdir env) as [e|].
  { eexists; split; [reflexivity|]. repeat split; try discriminate.
    intros e' H; injection H as <-; reflexivity. }
  destruct (extractCaptureSummary capture) as [s|e].
  2:{ eexists; split; [reflexivity|]. repeat split; try discriminate.
      intros e' _ H; injection H as <-; reflexivity. }
  destruct (appendFile env) as [e|].
  { eexists; split; [reflexivity|]. repeat split; try discriminate.
    intros s' e' _ _ H; injection H as <-; reflexivity. }
  eexists; split; [reflexivity|]. repeat split; try discriminate.
  intros s' _ H _; injection H as <-; reflexivity.
Qed.

(** ** Amounts *)

Lemma amountToString_cents (p : Num.t) (n : Z) :
  good_price p = true ->
  Num.half_up (Num.mul p hundred) = Some n -> n < 2 ^ 52 ->
  matches_amount (amountToString p) = true /\
  amount_cents (amountToString p) = Some (Z.to_N n).
Proof.
  intros Hp Hn Hlt. destruct (good_price_positive p Hp) as (m & e & ->).
  unfold amountToString. cbn [Num.truthy].
  pose proof (mul_hundred_signed (S754_finite false m e) eq_refl) as Hs.
  assert (Hzero : forall s,
    matches_amount (Num.toFixed 2 (Num.div (S754_zero s) hundred)) = true /\
    amount_cents (Num.toFixed 2 (Num.div (S754_zero s) hundred)) = Some 0%N).
  { intros [|]; split; reflexivity. }
  destruct (Num.mul (S754_finite false m e) hundred) as [s|s| |s mx ex] eqn:Ex;
    try discriminate.
  - (* the product is a zero *)
    injection Hn as <-. apply Hzero.
  - cbn [signed] in Hs. subst s.
    pose proof (half_up_nonneg _ _ _ Hn) as H0.
    unfold Num.round. rewrite Hn.
    destruct (Z.eqb_spec n 0) as [->|Hnz]; [apply Hzero|].
    destruct (cents_of_integer n ltac:(lia)) as (Hf & Hneg & Hbig & Hc).
    rewrite <- Hc. apply toFixed_text; assumption.
Qed.

(** A gateway that answers the capture request with the body [null]: the
    summary throws inside [persistCapture], nothing is recorded, and the
    reply is still 200. *)
Lemma persistCapture_null_is_not_recorded (env : environment) (w : world) :
  mkdir env = None ->
  persistCapture env VNull w =
  (Ok tt,
   logged w "Failed to persist capture record"
     (new_TypeError
        (Str.lit "Cannot read properties of null (reading 'purchase_units')"))).
Proof.
  intros H. unfold persistCapture, try_catch, bindM, fs_call. rewrite H.
  reflexivity.
Qed.

(** ** Rounding to binary64, on mantissas of any length *)

Lemma shr_1_nonneg (mrs : shr_record) :
  0 <= shr_m mrs ->
  shr_m (shr_1 mrs) = shr_m mrs / 2 /\ 0 <= shr_m (shr_1 mrs).
Proof.
  destruct mrs as [[|[p|p|]|p] r s]; cbn [shr_1 shr_m]; intros H; try lia.
  - split; [reflexivity|lia].
  - rewrite Pos2Z.inj_xI. split; [|lia]. apply (Z.div_unique _ 2 _ 1); lia.
  - rewrite Pos2Z.inj_xO. split; [|lia]. apply (Z.div_unique _ 2 _ 0); lia.
  - split; [reflexivity|lia].
Qed.

Lemma iter_pos_shr_1 (k : positive) (mrs : shr_record) :
  0 <= shr_m mrs ->
  shr_m (iter_pos shr_1 k mrs) = shr_m mrs / 2 ^ Zpos k /\
  0 <= shr_m (iter_pos shr_1 k mrs).
Proof.
  revert mrs. induction k as [k IH|k IH|]; intros mrs H; cbn [iter_pos].
  - destruct (shr_1_nonneg mrs H) as [E1 H1].
    destruct (IH _ H1) as [E2 H2]. destruct (IH _ H2) as [E3 H3].
    split; [|exact H3]. rewrite E3, E2, E1.
    rewrite !Z.div_div by lia. f_equal.
    rewrite (Pos2Z.inj_xI k), Z.add_1_r, Z.pow_succ_r, Z.pow_twice_r by lia.
    reflexivity.
  - destruct (IH _ H) as [E2 H2]. destruct (IH _ H2) as [E3 H3].
    split; [|exact H3]. rewrite E3, E2.
    rewrite !Z.div_div by lia. f_equal.
    rewrite (Pos2Z.inj_xO k), Z.pow_twice_r. reflexivity.
  - apply shr_1_nonneg. exact H.
Qed.

(** The second rounding step, with the range of the mantissa it leaves. *)
Lemma normalize_canonical (s : bool) (q : Z) (e : Z) :
  2 ^ 52 <= q <= 2 ^ 53 -> -1074 <= e <= 900 ->
  exists mz ez,
    (let '(mrs, e') := shr_fexp Num.prec Num.emax q e loc_Exact in
     match shr_m mrs with
     | Z0 => S754_zero s
     | Zpos m =>
         if e' <=? Num.emax - Num.prec then S754_finite s m e'
         else S754_infinity s
     | Zneg _ => S754_nan
     end) = S754_finite s mz ez
    /\ 2 ^ 52 <= Zpos mz < 2 ^ 53
    /\ e <= ez <= e + 1 /\ Zpos mz * 2 ^ (ez - e) = q.
Proof.
  intros Hq He. destruct q as [|m|m]; try lia.
  destruct (Z.eq_dec (Zpos m) (2 ^ 53)) as [E53|N53].
  - rewrite shr_fexp_54 by lia. injection E53 as ->.
    exists (Z.to_pos (2 ^ 52)), (e + 1). cbn [shr_record_of_loc shr_1 shr_m].
    destruct (Z.leb_spec (e + 1) (Num.emax - Num.prec)) as [_|H];
      [|unfold Num.emax, Num.prec in H; lia].
    split; [reflexivity|]. split; [simpl; lia|]. split; [lia|].
    replace (e + 1 - e) with 1 by lia. reflexivity.
  - rewrite shr_fexp_53 by lia.
    exists m, e. cbn [shr_record_of_loc shr_m].
    destruct (Z.leb_spec e (Num.emax - Num.prec)) as [_|H];
      [|unfold Num.emax, Num.prec in H; lia].
    split; [reflexivity|]. split; [lia|]. split; [lia|].
    replace (e - e) with 0 by lia. lia.
Qed.

(** Rounding a mantissa of 53 bits or more: the result has 53 bits, and
    is within one unit of its last place of the mantissa given. *)
Lemma round_near (s : bool) (m : positive) (e : Z) (l : location) :
  2 ^ 52 <= Zpos m -> -1074 <= e -> Z.log2 (Zpos m) + e <= 950 ->
  exists mz ez,
    binary_round_aux Num.prec Num.emax s (Zpos m) e l = S754_finite s mz ez
    /\ 2 ^ 52 <= Zpos mz < 2 ^ 53
    /\ e <= ez
    /\ (Zpos mz - 1) * 2 ^ (ez - e) <= Zpos m < (Zpos mz + 1) * 2 ^ (ez - e).
Proof.
  intros Hm He Hmax.
  remember (Z.log2 (Zpos m) + 1) as d eqn:Hdef.
  assert (Hlog : 2 ^ (d - 1) <= Zpos m < 2 ^ d).
  { subst d. replace (Z.log2 (Zpos m) + 1 - 1) with (Z.log2 (Zpos m)) by lia.
    apply Z.log2_spec; lia. }
  assert (Hd : 53 <= d).
  { subst d. assert (52 <= Z.log2 (Zpos m)); [|lia].
    apply Z.log2_le_pow2; lia. }
  assert (Hek : -1074 <= e + (d - 53) <= 900) by lia.
  set (k := d - 53) in *.
  assert (Hpow : 2 ^ (d - 1) = 2 ^ 52 * 2 ^ k /\ 2 ^ d = 2 ^ 53 * 2 ^ k).
  { unfold k. rewrite <- !Z.pow_add_r by lia. split; f_equal; lia. }
  assert (HP : 0 < 2 ^ k) by (apply Z.pow_pos_nonneg; lia).
  assert (Hm' : 2 ^ 52 <= Zpos m / 2 ^ k < 2 ^ 53).
  { split; [apply Z.div_le_lower_bound | apply Z.div_lt_upper_bound]; lia. }
  assert (Hshr : exists mrs',
            shr_fexp Num.prec Num.emax (Zpos m) e l = (mrs', e + k) /\
            shr_m mrs' = Zpos m / 2 ^ k).
  { unfold shr_fexp. rewrite (Zdigits2_bounds m d) by lia.
    rewrite fexp_normal by lia.
    replace (d + e - 53 - e) with k by (unfold k; lia).
    unfold shr. destruct k as [|p|p] eqn:Ek; try lia.
    - eexists. split; [f_equal; lia|].
      rewrite shr_record_of_loc_m. change (2 ^ 0) with 1.
      rewrite Z.div_1_r. reflexivity.
    - eexists. split; [reflexivity|].
      destruct (iter_pos_shr_1 p (shr_record_of_loc (Zpos m) l)) as [E _].
      { rewrite shr_record_of_loc_m. lia. }
      rewrite E, shr_record_of_loc_m. reflexivity. }
  destruct Hshr as (mrs' & Hshr & Hmrs).
  unfold binary_round_aux. rewrite Hshr.
  pose proof (round_nearest_even_bounds (shr_m mrs') (loc_of_shr_record mrs'))
    as Hq'.
  set (q' := round_nearest_even (shr_m mrs') (loc_of_shr_record mrs')) in *.
  rewrite Hmrs in Hq'.
  destruct (normalize_canonical s q' (e + k))
    as (mz & ez & -> & Hmz & Hez & Hval); [lia|exact Hek|].
  exists mz, ez. split; [reflexivity|]. split; [exact Hmz|]. split; [lia|].
  replace (ez - e) with ((ez - (e + k)) + k) by lia.
  rewrite Z.pow_add_r by lia.
  set (J := 2 ^ (ez - (e + k))) in *.
  assert (HJ : 1 <= J).
  { unfold J. change 1 with (2 ^ 0). apply Z.pow_le_mono_r; lia. }
  pose proof (Z.mul_div_le (Zpos m) (2 ^ k) HP) as Hlo.
  pose proof (Z.mul_succ_div_gt (Zpos m) (2 ^ k) HP) as Hhi.
  set (m' := Zpos m / 2 ^ k) in *.
  split; nia.
Qed.

(** ** Products, sums and hundredths, to one unit of the last place *)

Lemma pow2_lt_inv (a b : Z) : 0 <= b -> 2 ^ a < 2 ^ b -> a < b.
Proof. intros Hb H. apply (Z.pow_lt_mono_r_iff 2); lia. Qed.

Lemma pow2_split (a b : Z) : 0 <= a -> 0 <= b -> 2 ^ (a + b) = 2 ^ a * 2 ^ b.
Proof. intros. apply Z.pow_add_r; assumption. Qed.

Lemma log2_below (m : positive) (k : Z) :
  0 <= k -> Zpos m < 2 ^ k -> Z.log2 (Zpos m) < k.
Proof. intros Hk H. apply Z.log2_lt_pow2; lia. Qed.

(** The product of two numbers of 53 bits. *)
Lemma mul_near (mx my : positive) (ex ey : Z) :
  2 ^ 52 <= Zpos mx < 2 ^ 53 -> 2 ^ 52 <= Zpos my < 2 ^ 53 ->
  -120 <= ex + ey <= 120 ->
  exists mz ez,
    Num.mul (S754_finite false mx ex) (S754_finite false my ey)
    = S754_finite false mz ez
    /\ 2 ^ 52 <= Zpos mz < 2 ^ 53
    /\ ex + ey <= ez
    /\ (Zpos mz - 1) * 2 ^ (ez + 120)
       <= Zpos mx * Zpos my * 2 ^ (ex + ey + 120)
       < (Zpos mz + 1) * 2 ^ (ez + 120).
Proof.
  intros Hx Hy He.
  assert (Hm : 2 ^ 104 <= Zpos (mx * my) < 2 ^ 106).
  { rewrite Pos2Z.inj_mul. nia. }
  destruct (round_near false (mx * my) (ex + ey) loc_Exact)
    as (mz & ez & Hr & Hmz & Hez & Hval).
  - lia.
  - lia.
  - pose proof (log2_below (mx * my) 106 ltac:(lia) ltac:(lia)). lia.
  - exists mz, ez. split; [exact Hr|]. split; [exact Hmz|]. split; [exact Hez|].
    rewrite Pos2Z.inj_mul in Hval.
    replace (ez + 120) with ((ez - (ex + ey)) + (ex + ey + 120)) by lia.
    rewrite pow2_split by lia.
    assert (0 < 2 ^ (ex + ey + 120)) by (apply Z.pow_pos_nonneg; lia).
    split; nia.
Qed.

Lemma shl_align_value (mx : positive) (ex ez : Z) :
  ez <= ex -> Zpos (fst (shl_align mx ex ez)) = Zpos mx * 2 ^ (ex - ez).
Proof.
  intros H. unfold shl_align.
  destruct (ez - ex) as [|d|d] eqn:E; try lia; cbn [fst].
  - replace (ex - ez) with 0 by lia. lia.
  - rewrite iter_xO. f_equal. f_equal. lia.
Qed.

(** The sum of two numbers of 53 bits. *)
Lemma add_near (mx my : positive) (ex ey : Z) :
  2 ^ 52 <= Zpos mx < 2 ^ 53 -> 2 ^ 52 <= Zpos my < 2 ^ 53 ->
  -120 <= ex <= 120 -> -120 <= ey <= 120 ->
  exists mz ez,
    Num.add (S754_finite false mx ex) (S754_finite false my ey)
    = S754_finite false mz ez
    /\ 2 ^ 52 <= Zpos mz < 2 ^ 53
    /\ Z.min ex ey <= ez
    /\ (Zpos mz - 1) * 2 ^ (ez + 120)
       <= Zpos mx * 2 ^ (ex + 120) + Zpos my * 2 ^ (ey + 120)
       < (Zpos mz + 1) * 2 ^ (ez + 120).
Proof.
  intros Hx Hy Hex Hey.
  unfold Num.add, SFadd. cbn [cond_Zopp].
  set (e0 := Z.min ex ey).
  assert (He0 : e0 <= ex /\ e0 <= ey /\ -120 <= e0) by (unfold e0; lia).
  pose proof (shl_align_value mx ex e0 ltac:(lia)) as Ha.
  pose proof (shl_align_value my ey e0 ltac:(lia)) as Hb.
  set (a := fst (shl_align mx ex e0)) in *.
  set (b := fst (shl_align my ey e0)) in *.
  change (Zpos a + Zpos b) with (Zpos (a + b)).
  cbn [binary_normalize]. unfold binary_round.
  set (t := Z.max ex ey - e0).
  assert (Ht : 0 <= t <= 240) by (unfold t, e0; lia).
  set (P := 2 ^ (ex - e0)) in *. set (Q := 2 ^ (ey - e0)) in *.
  assert (HP : 1 <= P <= 2 ^ t).
  { unfold P. split; [change 1 with (2 ^ 0)|];
      apply Z.pow_le_mono_r; unfold t; lia. }
  assert (HQ : 1 <= Q <= 2 ^ t).
  { unfold Q. split; [change 1 with (2 ^ 0)|];
      apply Z.pow_le_mono_r; unfold t; lia. }
  assert (Hsum : 2 ^ 52 <= Zpos (a + b) < 2 ^ (54 + t)).
  { rewrite Pos2Z.inj_add, Ha, Hb. split; [nia|].
    rewrite pow2_split by lia. nia. }
  remember (Z.log2 (Zpos (a + b)) + 1) as d eqn:Hdef.
  assert (Hlog : 2 ^ (d - 1) <= Zpos (a + b) < 2 ^ d).
  { subst d.
    replace (Z.log2 (Zpos (a + b)) + 1 - 1) with (Z.log2 (Zpos (a + b))) by lia.
    apply Z.log2_spec; lia. }
  assert (Hd : 53 <= d <= 300).
  { subst d. split.
    - assert (52 <= Z.log2 (Zpos (a + b))); [|lia]. apply Z.log2_le_pow2; lia.
    - pose proof (log2_below (a + b) (54 + t) ltac:(lia) ltac:(lia)). lia. }
  change (Zpos (digits2_pos (a + b))) with (Zdigits2 (Zpos (a + b))).
  rewrite (Zdigits2_bounds (a + b) d) by lia.
  rewrite fexp_normal by lia.
  unfold shl_align.
  assert (Hfinal :
    exists mz ez,
      binary_round_aux Num.prec Num.emax false (Zpos (a + b)) e0 loc_Exact
      = S754_finite false mz ez
      /\ 2 ^ 52 <= Zpos mz < 2 ^ 53
      /\ e0 <= ez
      /\ (Zpos mz - 1) * 2 ^ (ez + 120)
         <= Zpos mx * 2 ^ (ex + 120) + Zpos my * 2 ^ (ey + 120)
         < (Zpos mz + 1) * 2 ^ (ez + 120)).
  { destruct (round_near false (a + b) e0 loc_Exact)
      as (mz & ez & Hr & Hmz & Hez & Hval).
    { apply Hsum. }
    { lia. }
    { rewrite Hdef in Hd. lia. }
    exists mz, ez. split; [exact Hr|]. split; [exact Hmz|].
    split; [exact Hez|].
    rewrite Pos2Z.inj_add, Ha, Hb in Hval.
    replace (ez + 120) with ((ez - e0) + (e0 + 120)) by lia.
    replace (ex + 120) with ((ex - e0) + (e0 + 120)) by lia.
    replace (ey + 120) with ((ey - e0) + (e0 + 120)) by lia.
    rewrite (pow2_split (ez - e0)), (pow2_split (ex - e0)),
      (pow2_split (ey - e0)) by lia.
    fold P Q.
    set (K := 2 ^ (ez - e0)) in *.
    assert (HW : 0 < 2 ^ (e0 + 120)) by (apply Z.pow_pos_nonneg; lia).
    set (W := 2 ^ (e0 + 120)) in *.
    destruct Hval as [Hlo Hhi]. split.
    - apply (Z.mul_le_mono_nonneg_r _ _ W) in Hlo; lia.
    - apply (Z.mul_lt_mono_pos_r W) in Hhi; lia. }
  destruct (d + e0 - 53 - e0) as [|k|k] eqn:Ek; try lia; exact Hfinal.
Qed.

(** The number nearest to [n / 100]. *)
Lemma hundredth_near (n : positive) :
  Zpos n < 2 ^ 53 ->
  exists mz ez,
    Num.of_decimal false (Npos n) (-2) = S754_finite false mz ez
    /\ 2 ^ 52 <= Zpos mz < 2 ^ 53
    /\ -59 <= ez
    /\ 100 * (Zpos mz - 1) * 2 ^ (ez + 120)
       <= Zpos n * 2 ^ 120
       <= 100 * (Zpos mz + 1) * 2 ^ (ez + 120).
Proof.
  intros Hn. cbn [Num.of_decimal]. change (10 ^ 2)%positive with 100%positive.
  unfold Num.of_ratio, SFdiv_core_binary.
  remember (Z.log2 (Zpos n) + 1) as d eqn:Hdef.
  assert (Hlog : 2 ^ (d - 1) <= Zpos n < 2 ^ d).
  { subst d. replace (Z.log2 (Zpos n) + 1 - 1) with (Z.log2 (Zpos n)) by lia.
    apply Z.log2_spec; lia. }
  assert (Hd : 1 <= d <= 53).
  { subst d. split; [pose proof (Z.log2_nonneg (Zpos n)); lia|].
    pose proof (log2_below n 53 ltac:(lia) Hn). lia. }
  rewrite (Zdigits2_bounds n d) by lia.
  change (Zdigits2 100) with 7.
  rewrite fexp_normal by lia.
  replace (Z.min (d + 0 - (7 + 0) - 53) (0 - 0)) with (d - 60) by lia.
  replace (0 - 0 - (d - 60)) with (60 - d) by lia.
  destruct (60 - d) as [|k|k] eqn:Ek; try lia.
  rewrite <- Ek. rewrite Z.shiftl_mul_pow2 by lia.
  assert (Hscale : 2 ^ 59 <= Zpos n * 2 ^ (60 - d) < 2 ^ 60).
  { replace (2 ^ 59) with (2 ^ (d - 1) * 2 ^ (60 - d))
      by (rewrite <- Z.pow_add_r by lia; f_equal; lia).
    replace (2 ^ 60) with (2 ^ d * 2 ^ (60 - d))
      by (rewrite <- Z.pow_add_r by lia; f_equal; lia).
    assert (0 < 2 ^ (60 - d)) by (apply Z.pow_pos_nonneg; lia).
    split; [apply Z.mul_le_mono_nonneg_r | apply Z.mul_lt_mono_pos_r]; lia. }
  pose proof (Z_div_mod (Zpos n * 2 ^ (60 - d)) 100 eq_refl) as Hdiv.
  destruct (Z.div_eucl (Zpos n * 2 ^ (60 - d)) 100) as [q r].
  destruct Hdiv as [Heq Hr].
  assert (Hq : 2 ^ 52 <= q < 2 ^ 54) by lia.
  destruct q as [|q|q]; try lia.
  destruct (round_near false q (d - 60) (new_location 100 r))
    as (mz & ez & Hround & Hmz & Hez & Hval).
  - lia.
  - lia.
  - pose proof (log2_below q 54 ltac:(lia) ltac:(lia)). lia.
  - exists mz, ez. split; [exact Hround|]. split; [exact Hmz|].
    split; [lia|].
    assert (E : Zpos n * 2 ^ 120 = (100 * Zpos q + r) * 2 ^ (d - 60 + 120)).
    { rewrite <- Heq. rewrite <- Z.mul_assoc, <- Z.pow_add_r by lia.
      f_equal. f_equal. lia. }
    rewrite E.
    replace (ez + 120) with ((ez - (d - 60)) + (d - 60 + 120)) by lia.
    rewrite pow2_split by lia.
    assert (0 < 2 ^ (d - 60 + 120)) by (apply Z.pow_pos_nonneg; lia).
    split; nia.
Qed.

(** ** Reading amounts and quantities *)

Lemma digit_cases (c : Str.code_unit) :
  Str.is_digit c = true ->
  (c = 48 \/ c = 49 \/ c = 50 \/ c = 51 \/ c = 52 \/ c = 53 \/ c = 54 \/
   c = 55 \/ c = 56 \/ c = 57)%N.
Proof.
  unfold Str.is_digit. intros H. apply andb_true_iff in H as [H1 H2].
  apply N.leb_le in H1, H2. lia.
Qed.

Lemma digit_is_not_white_space (c : Str.code_unit) :
  Str.is_digit c = true -> Str.is_white_space c = false.
Proof.
  intros H. destruct (digit_cases c H) as [->|[->|[->|[->|[->|[->|[->|[->|[->| ->]]]]]]]]];
    reflexivity.
Qed.

Lemma trimStart_kept (c : Str.code_unit) (r : Str.t) :
  Str.is_white_space c = false -> Str.trimStart (c :: r) = c :: r.
Proof. intros H. cbn [Str.trimStart]. rewrite H. reflexivity. Qed.

Lemma trim_kept (s : Str.t) (c : Str.code_unit) (r : Str.t) :
  s = c :: r ->
  Str.is_white_space c = false -> Str.is_white_space (last s c) = false ->
  Str.trim s = s.
Proof.
  intros Hs Hc Hl. unfold Str.trim. rewrite Hs at 1.
  rewrite (trimStart_kept _ _ Hc), <- Hs. unfold Str.trimEnd.
  assert (Hne : s <> []) by (rewrite Hs; discriminate).
  rewrite (app_removelast_last c Hne) at 1.
  rewrite rev_app_distr. cbn [rev app].
  rewrite (trimStart_kept _ _ Hl). cbn [rev].
  rewrite rev_involutive. symmetry. apply app_removelast_last. exact Hne.
Qed.

Lemma last_digit (s : Str.t) (c : Str.code_unit) :
  forallb Str.is_digit s = true -> Str.is_digit c = true ->
  Str.is_digit (last s c) = true.
Proof.
  intros Hs Hc. induction s as [|x s IH]; [exact Hc|].
  cbn [forallb] in Hs. apply andb_true_iff in Hs as [Hx Hs].
  destruct s as [|y s]; [exact Hx|]. apply IH. exact Hs.
Qed.

(** A text that starts with a digit, followed by nothing, a digit or a
    dot, is read as a decimal literal without a sign. *)
Lemma ofString_decimal (c : Str.code_unit) (r : Str.t) :
  Str.is_digit c = true ->
  match r with
  | [] => True
  | d :: _ => Str.is_digit d = true \/ d = 46%N
  end ->
  Str.trim (c :: r) = c :: r ->
  Num.ofString (c :: r) = Num.unsigned_decimal false (c :: r).
Proof.
  intros Hc Hr Htrim. unfold Num.ofString. rewrite Htrim.
  assert (Hinf : Num.str_decimal false (c :: r)
                 = Num.unsigned_decimal false (c :: r)).
  { unfold Num.str_decimal.
    destruct (digit_cases c Hc) as [->|[->|[->|[->|[->|[->|[->|[->|[->| ->]]]]]]]]];
      reflexivity. }
  rewrite <- Hinf.
  destruct (digit_cases c Hc) as [->|[->|[->|[->|[->|[->|[->|[->|[->| ->]]]]]]]]];
    try reflexivity.
  destruct r as [|d r]; [reflexivity|].
  destruct Hr as [Hd| ->]; [|reflexivity].
  destruct (digit_cases d Hd) as [->|[->|[->|[->|[->|[->|[->|[->|[->| ->]]]]]]]]];
    reflexivity.
Qed.

Lemma span_digits_app (a r : Str.t) :
  forallb Str.is_digit a = true ->
  match r with [] => True | d :: _ => Str.is_digit d = false end ->
  Num.span_digits (a ++ r) = (a, r).
Proof.
  intros Ha Hr. induction a as [|c a IH]; cbn [app].
  - destruct r as [|d r]; [reflexivity|]. cbn [Num.span_digits].
    rewrite Hr. reflexivity.
  - cbn [forallb] in Ha. apply andb_true_iff in Ha as [Hc Ha].
    cbn [Num.span_digits]. rewrite Hc, (IH Ha). reflexivity.
Qed.

(** A text of the form digits, dot, two digits is read as its cents
    divided by 100. *)
Lemma ofString_amount (s : Str.t) (n : N) :
  amount_cents s = Some n -> Num.ofString s = Num.of_decimal false n (-2).
Proof.
  unfold amount_cents. destruct (matches_amount s) eqn:Hm; [|discriminate].
  intros H; injection H as <-.
  destruct (matches_amount_elim s Hm) as (a & d1 & d2 & -> & Ha & Hd & H1 & H2).
  replace (filter Str.is_digit (a ++ [46%N; d1; d2])) with (a ++ [d1; d2])
    by (symmetry; apply filter_digits_amount; assumption).
  destruct a as [|c a]; [congruence|]. clear Ha.
  cbn [forallb] in Hd. apply andb_true_iff in Hd as [Hc Hd].
  cbn [app]. rewrite ofString_decimal.
  - unfold Num.unsigned_decimal.
    change (c :: a ++ [46%N; d1; d2]) with ((c :: a) ++ [46%N; d1; d2]).
    rewrite span_digits_app; [|cbn [forallb]; rewrite Hc; exact Hd|reflexivity].
    replace (Num.span_digits [d1; d2]) with ([d1; d2], @nil Str.code_unit)
      by (cbn [Num.span_digits]; rewrite H1, H2; reflexivity).
    cbn [app Num.exponent_part length]. reflexivity.
  - exact Hc.
  - destruct a as [|d a]; cbn [app]; [right; reflexivity|left].
    cbn [forallb] in Hd. apply andb_true_iff in Hd as [Hx _]. exact Hx.
  - apply (trim_kept _ c (a ++ [46%N; d1; d2])); [reflexivity| |].
    + apply digit_is_not_white_space, Hc.
    + apply digit_is_not_white_space.
      change (c :: a ++ [46%N; d1; d2]) with ((c :: a) ++ [46%N; d1] ++ [d2]).
      rewrite !app_assoc, last_last. exact H2.
Qed.

(** A text of digits is read as the integer it stands for. *)
Lemma ofString_digits (s : Str.t) (q : N) :
  digits_text s = Some q -> Num.ofString s = Num.of_decimal false q 0.
Proof.
  unfold digits_text. destruct s as [|c r]; [discriminate|].
  destruct (forallb Str.is_digit (c :: r)) eqn:Hd; [|discriminate].
  intros H; injection H as <-.
  pose proof Hd as Hall.
  cbn [forallb] in Hd. apply andb_true_iff in Hd as [Hc Hr].
  rewrite ofString_decimal.
  - unfold Num.unsigned_decimal.
    rewrite <- (app_nil_r (c :: r)) at 1.
    rewrite span_digits_app; [|exact Hall|exact I].
    rewrite app_nil_r. reflexivity.
  - exact Hc.
  - destruct r as [|d r]; [exact I|left].
    cbn [forallb] in Hr. apply andb_true_iff in Hr as [Hx _]. exact Hx.
  - apply (trim_kept _ c r); [reflexivity| |].
    + apply digit_is_not_white_space, Hc.
    + apply digit_is_not_white_space, last_digit; assumption.
Qed.

(** An integer read from its digits is the number [of_Z] gives. *)
Lemma of_decimal_integer (q : positive) :
  Num.of_decimal false (Npos q) 0 = Num.of_Z (Zpos q).
Proof.
  cbn [Num.of_decimal]. change (Z.to_pos (10 ^ 0)) with 1%positive.
  rewrite Pos.mul_1_r. reflexivity.
Qed.

(** ** The sum of the lines, and its hundredfold *)

(** One line: [n] cents times [q]. *)
Lemma line_near (n q : positive) :
  Zpos n * Zpos q < 2 ^ 49 ->
  exists mp ep,
    Num.mul (Num.of_decimal false (Npos n) (-2))
            (Num.of_decimal false (Npos q) 0)
    = S754_finite false mp ep
    /\ 2 ^ 52 <= Zpos mp < 2 ^ 53
    /\ -60 <= ep <= 0
    /\ Z.abs (100 * (Zpos mp * 2 ^ (ep + 120)) - Zpos n * Zpos q * 2 ^ 120)
       <= Zpos n * Zpos q * 2 ^ 71.
Proof.
  intros Hnq.
  assert (Hn : Zpos n < 2 ^ 49) by nia.
  assert (Hq : Zpos q < 2 ^ 49) by nia.
  destruct (hundredth_near n ltac:(lia)) as (mv & ev & Hv & Hmv & Hev & Hnear).
  rewrite Hv, of_decimal_integer.
  destruct (of_Z_canonical (Zpos q) ltac:(lia))
    as (mq & eq & Hof & Hmq & Heq & Hval).
  rewrite Hof.
  assert (Hlog : 0 <= Z.log2 (Zpos q) < 49).
  { split; [apply Z.log2_nonneg|apply Z.log2_lt_pow2; lia]. }
  assert (HUv : 0 < 2 ^ (ev + 120)) by (apply Z.pow_pos_nonneg; lia).
  (* the exponent of the hundredth is below -9 *)
  assert (Hev' : ev < -9).
  { assert (H : 2 ^ (ev + 120) < 2 ^ 111) by nia.
    apply pow2_lt_inv in H; lia. }
  destruct (mul_near mv mq ev eq Hmv Hmq ltac:(lia))
    as (mp & ep & Hmul & Hmp & Hep & Hprod).
  exists mp, ep. split; [exact Hmul|]. split; [exact Hmp|].
  (* the exact product, in terms of [q] *)
  assert (E : Zpos mv * Zpos mq * 2 ^ (ev + eq + 120)
              = Zpos mv * 2 ^ (ev + 120) * Zpos q).
  { rewrite Hval.
    replace (ev + 120) with ((ev + eq + 120) + - eq) by lia.
    rewrite (pow2_split (ev + eq + 120)) by lia. ring. }
  rewrite E in Hprod. clear E.
  set (Uv := 2 ^ (ev + 120)) in *.
  assert (HUp : 0 < 2 ^ (ep + 120)) by (apply Z.pow_pos_nonneg; lia).
  set (Up := 2 ^ (ep + 120)) in *.
  set (A := Zpos mv * Uv) in *.
  assert (HA : 2 ^ 52 * Uv <= A) by (unfold A; nia).
  assert (HB : 2 ^ 52 * Up <= Zpos mp * Up < 2 ^ 53 * Up) by nia.
  set (B := Zpos mp * Up) in *.
  assert (H1 : 100 * (A - Uv) * Zpos q <= Zpos n * Zpos q * 2 ^ 120).
  { replace (100 * (A - Uv)) with (100 * (Zpos mv - 1) * Uv)
      by (unfold A; ring).
    nia. }
  assert (H2 : Zpos n * Zpos q * 2 ^ 120 <= 100 * (A + Uv) * Zpos q).
  { replace (100 * (A + Uv)) with (100 * (Zpos mv + 1) * Uv)
      by (unfold A; ring).
    nia. }
  assert (H3 : 2 ^ 52 * (Uv * Zpos q) <= A * Zpos q) by nia.
  assert (H4 : B - Up <= A * Zpos q).
  { replace (B - Up) with ((Zpos mp - 1) * Up) by (unfold B; ring). lia. }
  assert (H5 : A * Zpos q < B + Up).
  { replace (B + Up) with ((Zpos mp + 1) * Up) by (unfold B; ring). lia. }
  assert (HX : 1 <= Zpos n * Zpos q) by nia.
  set (X := Zpos n * Zpos q) in *.
  set (Aq := A * Zpos q) in *. set (Wq := Uv * Zpos q) in *.
  assert (H1' : 100 * Aq - 100 * Wq <= X * 2 ^ 120) by (unfold Aq, Wq; lia).
  assert (H2' : X * 2 ^ 120 <= 100 * Aq + 100 * Wq) by (unfold Aq, Wq; lia).
  clear H1 H2.
  assert (Hclose : Z.abs (100 * B - X * 2 ^ 120) <= X * 2 ^ 71) by lia.
  split; [|exact Hclose].
  (* the exponent of the product *)
  split.
  - assert (H : 2 ^ 59 < Up) by lia.
    apply pow2_lt_inv in H; lia.
  - assert (H : Up < 2 ^ 112) by lia.
    apply pow2_lt_inv in H; lia.
Qed.

Lemma approximates_weaken (s : Num.t) (cents err err' : Z) :
  approximates s cents err -> err <= err' -> approximates s cents err'.
Proof.
  unfold approximates. destruct s as [[|]|[|]| |[|] m e]; auto.
  intros (H1 & H2 & H3 & H4) H. repeat split; try lia.
Qed.

(** Adding a line to the running sum. *)
Lemma add_line_near (s : Num.t) (cents err most : Z) (n q : N) :
  approximates s cents err -> 0 <= err ->
  (n < 2 ^ 53)%N -> (q < 2 ^ 53)%N ->
  cents + Z.of_N n * Z.of_N q <= most -> most < 2 ^ 49 ->
  err + most * 2 ^ 72 <= 2 ^ 119 ->
  approximates
    (Num.add s (Num.mul (Num.of_decimal false n (-2))
                        (Num.of_decimal false q 0)))
    (cents + Z.of_N n * Z.of_N q) (err + most * 2 ^ 72).
Proof.
  intros Hs Herr Hn Hq Hmost Hcap Hbudget.
  assert (H0 : 0 <= cents).
  { unfold approximates in Hs. destruct s as [[|]|[|]| |[|] m e]; try tauto; lia. }
  assert (Hm0 : 0 <= most) by lia.
  assert (Hkeep : forall x, x = S754_zero false ->
            approximates (Num.add s x) (cents + 0) (err + most * 2 ^ 72)).
  { intros x ->. rewrite Z.add_0_r.
    apply (approximates_weaken _ _ err); [|lia].
    unfold approximates in *.
    destruct s as [[|]|[|]| |[|] m e]; try tauto; exact Hs. }
  destruct n as [|n].
  { (* a value of no cents *)
    cbn [Z.of_N]. rewrite Z.mul_0_l. apply Hkeep.
    destruct q as [|q]; [reflexivity|].
    rewrite of_decimal_integer.
    destruct (of_Z_canonical (Zpos q) ltac:(lia)) as (mq & eq & -> & _).
    reflexivity. }
  destruct (hundredth_near n ltac:(lia)) as (mv & ev & Hv & _).
  destruct q as [|q].
  { (* a quantity of zero *)
    cbn [Z.of_N]. rewrite Z.mul_0_r. apply Hkeep.
    rewrite Hv. reflexivity. }
  cbn [Z.of_N] in *.
  assert (Hnq : 1 <= Zpos n * Zpos q) by nia.
  destruct (line_near n q ltac:(lia)) as (mp & ep & -> & Hmp & Hep & Hp).
  unfold approximates in Hs.
  destruct s as [[|]|[|]| |[|] ms es]; try tauto.
  - (* the first line that counts *)
    subst cents. cbn [Num.add SFadd approximates].
    repeat split; try lia.
  - destruct Hs as (Hc & Hms & Hes & Hsum).
    destruct (add_near ms mp es ep Hms Hmp ltac:(lia) ltac:(lia))
      as (mz & ez & -> & Hmz & Hez & Hadd).
    cbn [approximates].
    assert (HUz : 0 < 2 ^ (ez + 120)) by (apply Z.pow_pos_nonneg; lia).
    set (Uz := 2 ^ (ez + 120)) in *.
    set (X := Zpos n * Zpos q) in *.
    set (A := Zpos ms * 2 ^ (es + 120)) in *.
    set (P := Zpos mp * 2 ^ (ep + 120)) in *.
    assert (HB : 2 ^ 52 * Uz <= Zpos mz * Uz < 2 ^ 53 * Uz) by nia.
    assert (H4 : Zpos mz * Uz - Uz <= A + P) by lia.
    assert (H5 : A + P < Zpos mz * Uz + Uz) by lia.
    set (B := Zpos mz * Uz) in *.
    assert (Hclose : Z.abs (100 * B - (cents + X) * 2 ^ 120)
                     <= err + most * 2 ^ 72) by lia.
    split; [lia|]. split; [exact Hmz|]. split; [|exact Hclose].
    split; [lia|].
    assert (H : Uz < 2 ^ 112) by lia.
    apply pow2_lt_inv in H; lia.
Qed.

(** The sum of the lines of an order. *)
Lemma order_sum_near (items : list line_item) :
  forall (s : Num.t) (cents k most : Z) (t : N),
    approximates s cents (k * (most * 2 ^ 72)) -> 0 <= k ->
    exact_total items = Some t ->
    cents + Z.of_N t <= most -> most < 2 ^ 49 ->
    (k + Z.of_nat (length items)) * (most * 2 ^ 72) <= 2 ^ 119 ->
    approximates (fold_left add_line items s) (cents + Z.of_N t)
      ((k + Z.of_nat (length items)) * (most * 2 ^ 72)).
Proof.
  induction items as [|item rest IH];
    intros s cents k most t Hs Hk Ht Hmost Hcap Hbudget.
  - injection Ht as <-. cbn [fold_left length Z.of_nat Z.of_N].
    rewrite !Z.add_0_r. exact Hs.
  - cbn [exact_total] in Ht.
    destruct (amount_cents (money_value (unit_amount item))) as [n|] eqn:En;
      [|discriminate].
    destruct (digits_text (quantity item)) as [q|] eqn:Eq; [|discriminate].
    destruct (exact_total rest) as [t'|] eqn:Et; [|discriminate].
    destruct ((n <? 2 ^ 53)%N && (q <? 2 ^ 53)%N) eqn:Eb; [|discriminate].
    apply andb_true_iff in Eb as [Hn Hq].
    apply N.ltb_lt in Hn, Hq.
    injection Ht as <-.
    assert (H0 : 0 <= cents).
    { unfold approximates in Hs.
      destruct s as [[|]|[|]| |[|] m e]; try tauto; lia. }
    assert (Hm0 : 0 <= most) by lia.
    cbn [fold_left length] in *. rewrite Nat2Z.inj_succ in *.
    rewrite N2Z.inj_add, N2Z.inj_mul in *.
    pose proof (N2Z.is_nonneg t') as Ht'.
    pose proof (N2Z.is_nonneg n) as Hn0.
    pose proof (N2Z.is_nonneg q) as Hq0.
    pose proof (Nat2Z.is_nonneg (length rest)) as Hlen.
    assert (Hnq0 : 0 <= Z.of_N n * Z.of_N q) by (apply Z.mul_nonneg_nonneg; lia).
    assert (HM : 0 <= most * 2 ^ 72) by lia.
    assert (HkM : 0 <= k * (most * 2 ^ 72)) by (apply Z.mul_nonneg_nonneg; lia).
    assert (HlM : 0 <= Z.of_nat (length rest) * (most * 2 ^ 72))
      by (apply Z.mul_nonneg_nonneg; lia).
    assert (Hstep : approximates (add_line s item)
                      (cents + Z.of_N n * Z.of_N q)
                      ((k + 1) * (most * 2 ^ 72))).
    { unfold add_line.
      rewrite (ofString_amount _ _ En), (ofString_digits _ _ Eq).
      replace ((k + 1) * (most * 2 ^ 72))
        with (k * (most * 2 ^ 72) + most * 2 ^ 72) by ring.
      apply add_line_near; try assumption; try lia. }
    replace (cents + (Z.of_N n * Z.of_N q + Z.of_N t'))
      with ((cents + Z.of_N n * Z.of_N q) + Z.of_N t') by ring.
    replace (k + Z.succ (Z.of_nat (length rest)))
      with ((k + 1) + Z.of_nat (length rest)) in * by lia.
    apply IH; try assumption; try reflexivity; lia.
Qed.

(** A number within half a unit of an integer rounds to it. *)
Lemma half_up_exact (m : positive) (e : Z) (n : Z) :
  -120 <= e ->
  Z.abs (Zpos m * 2 ^ (e + 120) - n * 2 ^ 120) < 2 ^ 119 ->
  Num.half_up (S754_finite false m e) = Some n.
Proof.
  intros He H. cbn [Num.half_up cond_Zopp]. f_equal.
  destruct (Z.leb_spec 0 e) as [H0|H0].
  - rewrite (pow2_split e 120) in H by lia.
    assert (0 < 2 ^ e) by (apply Z.pow_pos_nonneg; lia). lia.
  - rewrite Z.shiftr_div_pow2 by lia.
    assert (HU : 0 < 2 ^ (e + 120)) by (apply Z.pow_pos_nonneg; lia).
    assert (HD : 0 < 2 ^ (- e)) by (apply Z.pow_pos_nonneg; lia).
    assert (E1 : 2 ^ 120 = 2 ^ (- e) * 2 ^ (e + 120)).
    { rewrite <- Z.pow_add_r by lia. f_equal. lia. }
    assert (E2 : 2 ^ (1 - e) = 2 * 2 ^ (- e)).
    { replace (1 - e) with (1 + - e) by lia.
      rewrite Z.pow_add_r by lia. reflexivity. }
    assert (E3 : 2 * 2 ^ 119 = 2 ^ 120) by reflexivity.
    rewrite E2. set (D := 2 ^ (- e)) in *. set (U := 2 ^ (e + 120)) in *.
    symmetry.
    apply (Z.div_unique_pos _ _ _ (2 * Zpos m + D - n * (2 * D))); [|ring].
    rewrite E1 in H. split; nia.
Qed.

(** The hundredfold of the sum rounds to the exact number of cents. *)
Lemma hundredfold_half_up (m : positive) (e : Z) (cents err : Z) :
  2 ^ 52 <= Zpos m < 2 ^ 53 -> -60 <= e <= 0 ->
  1 <= cents ->
  Z.abs (100 * (Zpos m * 2 ^ (e + 120)) - cents * 2 ^ 120) <= err ->
  err + cents * 2 ^ 69 < 2 ^ 119 ->
  Num.half_up (Num.mul (S754_finite false m e) hundred) = Some cents.
Proof.
  intros Hm He Hc Hnear Hbudget. rewrite hundred_eq.
  destruct (mul_near m 7036874417766400 e (-46) Hm ltac:(lia) ltac:(lia))
    as (mc & ec & -> & Hmc & Hec & Hprod).
  apply half_up_exact; [lia|].
  assert (E : Zpos m * 7036874417766400 * 2 ^ (e + -46 + 120)
              = 100 * (Zpos m * 2 ^ (e + 120))).
  { replace (e + 120) with (46 + (e + -46 + 120)) by lia.
    rewrite (pow2_split 46) by lia.
    change 7036874417766400 with (100 * 2 ^ 46). ring. }
  rewrite E in Hprod. clear E.
  assert (HU : 0 < 2 ^ (ec + 120)) by (apply Z.pow_pos_nonneg; lia).
  set (U := 2 ^ (ec + 120)) in *.
  set (A := Zpos m * 2 ^ (e + 120)) in *.
  assert (HB : 2 ^ 52 * U <= Zpos mc * U) by nia.
  assert (H4 : Zpos mc * U - U <= 100 * A) by lia.
  assert (H5 : 100 * A < Zpos mc * U + U) by lia.
  set (B := Zpos mc * U) in *.
  lia.
Qed.

(** ** The order total is exact *)

Lemma order_total_exact (items : list line_item) (total : N) :
  exact_total items = Some total ->
  (total * (8 * N.of_nat (length items) + 1) < 2 ^ 50)%N ->
  matches_amount (calculateOrderTotal items) = true /\
  amount_cents (calculateOrderTotal items) = Some total.
Proof.
  intros Ht Hsmall.
  change (calculateOrderTotal items)
    with (amountToString (fold_left add_line items Num.zero)).
  set (cents := Z.of_N total).
  set (lines := Z.of_nat (length items)).
  assert (Hc : 0 <= cents) by apply N2Z.is_nonneg.
  assert (Hl : 0 <= lines) by apply Nat2Z.is_nonneg.
  assert (Hcl : 0 <= cents * lines) by (apply Z.mul_nonneg_nonneg; lia).
  assert (Hz : cents * (8 * lines + 1) < 2 ^ 50).
  { unfold cents, lines. rewrite <- nat_N_Z.
    change 8 with (Z.of_N 8). change 1 with (Z.of_N 1).
    rewrite <- N2Z.inj_mul, <- N2Z.inj_add, <- N2Z.inj_mul.
    change (2 ^ 50) with (Z.of_N (2 ^ 50)). apply N2Z.inj_lt. exact Hsmall. }
  assert (Hnone : lines = 0 -> cents = 0).
  { unfold lines, cents. destruct items; [|discriminate].
    injection Ht as <-. reflexivity. }
  assert (Hmost : cents < 2 ^ 49).
  { destruct (Z.eq_dec lines 0) as [E|E]; [rewrite (Hnone E); reflexivity|lia]. }
  pose proof (order_sum_near items Num.zero 0 0 cents total) as Hsum.
  cbn [approximates] in Hsum. rewrite !Z.add_0_l in Hsum.
  specialize (Hsum eq_refl ltac:(lia) Ht ltac:(lia) ltac:(lia) ltac:(lia)).
  fold lines in Hsum.
  destruct (fold_left add_line items Num.zero) as [[|]|[|]| |[|] m e];
    cbn [approximates] in Hsum; try tauto.
  - (* no cents at all *)
    assert (E : total = 0%N) by lia. rewrite E.
    split; vm_compute; reflexivity.
  - destruct Hsum as (H1 & Hm & He & Hnear).
    assert (Hhalf : Num.half_up (Num.mul (S754_finite false m e) hundred)
                    = Some cents).
    { apply (hundredfold_half_up m e cents (lines * (cents * 2 ^ 72)));
        try assumption; lia. }
    destruct (amountToString_cents (S754_finite false m e) cents)
      as [Hmatch Hcents]; [reflexivity|exact Hhalf|lia|].
    split; [exact Hmatch|]. rewrite Hcents. f_equal. apply N2Z.id.
Qed.


(** ** The cents of a price, against the price rounded half-up *)

(** Rounding a mantissa of 53 bits or more drops its last [k] bits, and
    gives that quotient or the next integer. *)
Lemma round_between (s : bool) (m : positive) (e : Z) (l : location) :
  2 ^ 52 <= Zpos m -> -1022 <= Z.log2 (Zpos m) + e <= 950 ->
  exists mz ez,
    binary_round_aux Num.prec Num.emax s (Zpos m) e l = S754_finite s mz ez
    /\ let k := Z.log2 (Zpos m) - 52 in
       e + k <= ez
       /\ Zpos m / 2 ^ k <= Zpos mz * 2 ^ (ez - (e + k)) <= Zpos m / 2 ^ k + 1.
Proof.
  intros Hm He.
  remember (Z.log2 (Zpos m) + 1) as d eqn:Hdef.
  assert (Hlog : 2 ^ (d - 1) <= Zpos m < 2 ^ d).
  { subst d. replace (Z.log2 (Zpos m) + 1 - 1) with (Z.log2 (Zpos m)) by lia.
    apply Z.log2_spec; lia. }
  assert (Hd : 53 <= d).
  { subst d. assert (52 <= Z.log2 (Zpos m)); [|lia].
    apply Z.log2_le_pow2; lia. }
  assert (Hek : -1074 <= e + (d - 53) <= 900) by lia.
  replace (Z.log2 (Zpos m) - 52) with (d - 53) by lia.
  set (k := d - 53) in *.
  assert (Hpow : 2 ^ (d - 1) = 2 ^ 52 * 2 ^ k /\ 2 ^ d = 2 ^ 53 * 2 ^ k).
  { unfold k. rewrite <- !Z.pow_add_r by lia. split; f_equal; lia. }
  assert (HP : 0 < 2 ^ k) by (apply Z.pow_pos_nonneg; lia).
  assert (Hm' : 2 ^ 52 <= Zpos m / 2 ^ k < 2 ^ 53).
  { split; [apply Z.div_le_lower_bound | apply Z.div_lt_upper_bound]; lia. }
  assert (Hshr : exists mrs',
            shr_fexp Num.prec Num.emax (Zpos m) e l = (mrs', e + k) /\
            shr_m mrs' = Zpos m / 2 ^ k).
  { unfold shr_fexp. rewrite (Zdigits2_bounds m d) by lia.
    rewrite fexp_normal by lia.
    replace (d + e - 53 - e) with k by (unfold k; lia).
    unfold shr. destruct k as [|p|p] eqn:Ek; try lia.
    - eexists. split; [f_equal; lia|].
      rewrite shr_record_of_loc_m. change (2 ^ 0) with 1.
      rewrite Z.div_1_r. reflexivity.
    - eexists. split; [reflexivity|].
      destruct (iter_pos_shr_1 p (shr_record_of_loc (Zpos m) l)) as [E _].
      { rewrite shr_record_of_loc_m. lia. }
      rewrite E, shr_record_of_loc_m. reflexivity. }
  destruct Hshr as (mrs' & Hshr & Hmrs).
  unfold binary_round_aux. rewrite Hshr.
  pose proof (round_nearest_even_bounds (shr_m mrs') (loc_of_shr_record mrs'))
    as Hq'.
  set (q' := round_nearest_even (shr_m mrs') (loc_of_shr_record mrs')) in *.
  rewrite Hmrs in Hq'.
  destruct (normalize_canonical s q' (e + k))
    as (mz & ez & -> & Hmz & Hez & Hval); [lia|exact Hek|].
  exists mz, ez. split; [reflexivity|]. cbv zeta. split; [lia|].
  rewrite Hval. exact Hq'.
Qed.

(** [Num.half_up] on a scale of [2 ^ E]. *)
Lemma half_up_scaled (m : positive) (e E : Z) :
  E <= e -> E <= -1 ->
  Num.half_up (S754_finite false m e)
  = Some ((2 * (Zpos m * 2 ^ (e - E)) + 2 ^ (- E)) / (2 * 2 ^ (- E))).
Proof.
  intros HE H1. unfold Num.half_up, cond_Zopp. f_equal.
  assert (HW : 0 < 2 ^ (- E)) by (apply Z.pow_pos_nonneg; lia).
  destruct (Z.leb_spec 0 e) as [H0|H0].
  - apply (Z.div_unique_pos _ _ _ (2 ^ (- E))); [lia|].
    replace (e - E) with (e + - E) by lia.
    rewrite Z.pow_add_r by lia. ring.
  - rewrite Z.shiftr_div_pow2 by lia.
    assert (HS : 0 < 2 ^ (e - E)) by (apply Z.pow_pos_nonneg; lia).
    replace (2 ^ (1 - e)) with (2 * 2 ^ (- e))
      by (replace (1 - e) with (1 + - e) by lia;
          rewrite Z.pow_add_r by lia; reflexivity).
    rewrite <- (Z.div_mul_cancel_r _ _ (2 ^ (e - E))) by lia.
    f_equal.
    + rewrite Z.mul_add_distr_r, <- Z.pow_add_r by lia.
      replace (- e + (e - E)) with (- E) by lia. ring.
    + rewrite <- Z.mul_assoc, <- Z.pow_add_r by lia.
      replace (- e + (e - E)) with (- E) by lia. reflexivity.
Qed.

(** The price rounded half-up, as [Num.half_up] of the product of the
    mantissa by 100. *)
Lemma price_cents_half_up (m : positive) (e : Z) :
  price_cents (S754_finite false m e)
  = Num.half_up (S754_finite false (100 * m) e).
Proof.
  unfold price_cents, Num.half_up, cond_Zopp. cbv zeta. f_equal.
  rewrite (Pos2Z.inj_mul 100 m).
  destruct (Z.leb_spec 0 e) as [H0|H0]; [reflexivity|].
  rewrite Z.shiftr_div_pow2 by lia. f_equal.
  replace (1 - e) with (1 + - e) by lia.
  rewrite Z.pow_add_r by lia. reflexivity.
Qed.

(** The cents the code gives a price are the price rounded half-up at the
    cent, or one cent more: the product by 100 is rounded to 53 bits
    before the half is added, and rounding keeps the order of the
    numbers of 53 bits, the halves among them. *)
Lemma cents_between (mp : positive) (ep c : Z) :
  price_cents (S754_finite false mp ep) = Some c ->
  1 <= c < 2 ^ 52 - 1 ->
  exists n,
    Num.half_up (Num.mul (S754_finite false mp ep) hundred) = Some n /\
    (n = c \/ n = c + 1).
Proof.
  intros Hc Hrange. rewrite price_cents_half_up in Hc.
  (* the exponent of the price *)
  assert (Hep : ep <= 45).
  { destruct (Z.leb_spec ep 45) as [H|H]; [exact H|exfalso].
    unfold Num.half_up, cond_Zopp in Hc.
    destruct (Z.leb_spec 0 ep) as [_|H0]; [|lia].
    assert (Hc' : Zpos (100 * mp) * 2 ^ ep = c) by congruence.
    assert (H46 : 2 ^ 46 <= 2 ^ ep) by (apply Z.pow_le_mono_r; lia).
    assert (H100 : 100 <= Zpos (100 * mp)) by lia.
    assert (Hbig : 100 * 2 ^ 46 <= c).
    { rewrite <- Hc'. apply Z.mul_le_mono_nonneg; lia. }
    change (100 * 2 ^ 46) with 7036874417766400 in Hbig.
    change (2 ^ 52) with 4503599627370496 in Hrange. lia. }
  set (E := ep - 46).
  set (W := 2 ^ (- E)).
  set (M := Zpos (mp * 7036874417766400)).
  assert (HW : 0 < W) by (apply Z.pow_pos_nonneg; unfold E; lia).
  assert (HM : M = Zpos (100 * mp) * 2 ^ (ep - E)).
  { unfold M, E. replace (ep - (ep - 46)) with 46 by lia.
    change (2 ^ 46) with 70368744177664. lia. }
  rewrite (half_up_scaled (100 * mp) ep E) in Hc by (unfold E; lia).
  rewrite <- HM in Hc. fold W in Hc.
  assert (Hc' : (2 * M + W) / (2 * W) = c) by congruence.
  clear Hc. rename Hc' into Hc.
  assert (Hc2W : c * (2 * W) <= 2 * M + W < (c + 1) * (2 * W)).
  { rewrite <- Hc. split.
    - rewrite Z.mul_comm. apply Z.mul_div_le. lia.
    - rewrite (Z.mul_comm (_ + 1) (2 * W)), Z.add_1_r.
      apply Z.mul_succ_div_gt. lia. }
  assert (HM52 : 2 ^ 52 <= M).
  { unfold M. change (2 ^ 52) with 4503599627370496. lia. }
  (* the magnitude of the product *)
  assert (Hlow : - E - 1 <= Z.log2 M).
  { apply Z.log2_le_pow2; [lia|].
    assert (W = 2 * 2 ^ (- E - 1)); [|nia].
    unfold W. replace (- E) with (1 + (- E - 1)) at 1 by lia.
    rewrite Z.pow_add_r by (unfold E; lia). reflexivity. }
  assert (Hhigh : Z.log2 M < 52 - E).
  { apply Z.log2_lt_pow2; [lia|].
    replace (52 - E) with (52 + - E) by lia.
    rewrite Z.pow_add_r by (unfold E; lia). fold W. nia. }
  destruct (round_between false (mp * 7036874417766400) E loc_Exact)
    as (mz & ez & Hround & Hez & Hq); [exact HM52|fold M; lia|].
  fold M in Hez, Hq.
  set (k := Z.log2 M - 52) in *.
  assert (Hk : 0 <= k).
  { unfold k. assert (52 <= Z.log2 M); [|lia]. apply Z.log2_le_pow2; lia. }
  set (q := Zpos mz * 2 ^ (ez - (E + k))) in *.
  set (P := 2 ^ k) in *.
  set (T := 2 ^ (- E - 1 - k)).
  assert (HP : 0 < P) by (apply Z.pow_pos_nonneg; lia).
  assert (HT : 0 < T) by (apply Z.pow_pos_nonneg; unfold k; lia).
  assert (HWT : W = 2 * (T * P)).
  { unfold W, T, P. rewrite <- Z.pow_add_r by (unfold k; lia).
    replace (- E) with (1 + (- E - 1 - k + k)) at 1 by lia.
    rewrite Z.pow_add_r by (unfold k; lia). reflexivity. }
  assert (HV : Zpos mz * 2 ^ (ez - E) = q * P).
  { unfold q, P. rewrite <- Z.mul_assoc, <- Z.pow_add_r by lia.
    do 2 f_equal. lia. }
  exists ((2 * (q * P) + W) / (2 * W)). split.
  - unfold Num.mul, SFmul, hundred.
    change (Num.of_Z 100) with (S754_finite false 7036874417766400 (-46)).
    cbn [xorb]. fold (E). change (ep + -46) with E in *.
    rewrite Hround. rewrite (half_up_scaled mz ez E) by (unfold E; lia).
    fold W. rewrite HV. reflexivity.
  - (* between the two neighbours on the grid *)
    set (M' := M / P) in *.
    assert (Hfloor : (2 * c - 1) * T <= M').
    { apply Z.div_le_lower_bound; [exact HP|]. nia. }
    assert (Hceil : M' < (2 * c + 1) * T).
    { apply Z.div_lt_upper_bound; [exact HP|]. nia. }
    assert (H1 : (2 * c - 1) * T * P <= q * P)
      by (apply Z.mul_le_mono_nonneg_r; lia).
    assert (H2 : q * P <= (2 * c + 1) * T * P)
      by (apply Z.mul_le_mono_nonneg_r; lia).
    assert (Hn1 : c <= (2 * (q * P) + W) / (2 * W)).
    { apply Z.div_le_lower_bound; [lia|]. rewrite HWT. lia. }
    assert (Hn2 : (2 * (q * P) + W) / (2 * W) < c + 2).
    { apply Z.div_lt_upper_bound; [lia|]. rewrite HWT.
      assert (0 < T * P) by (apply Z.mul_pos_pos; assumption). lia. }
    lia.
Qed.
(** * The claims *)

(** C1 (as the code has it).  For every item of an accepted cart,
    [unit_amount.value] is [amountToString] of the price.  It has the
    form digits, dot, two digits whenever the price, rounded to the
    hundredth, is below [10 ^ 21]; and whenever the product of the price
    and 100, a binary64 number, rounds half-up to an integer [n] below
    [2 ^ 52], it reads as [n] hundredths.  Against the price itself: when
    the price rounded half-up at the cent ([price_cents], on the value of
    the number) is [c] cents, from 1 to below [2 ^ 52 - 1], the value
    reads as [c] hundredths or as [c + 1], never less and never more.
    The cart
    [[{name:"A",price:10,quantity:2},{name:"B",price:5.005,quantity:1}]]
    gives the values ["10.00"] and ["5.01"] and the order total ["25.01"],
    and the price 9.999 gives ["10.00"]. *)
Theorem unit_amount_rounds_half_up :
  (forall (cfg : config) (items : list value) (out : list line_item)
          (i : nat) (item : value) (o : line_item) (p : Num.t),
      normalizeItems cfg (VArr items) = Ok out ->
      nth_error items i = Some item -> nth_error out i = Some o ->
      price_of item = Ok p ->
      let text := money_value (unit_amount o) in
      text = amountToString p /\
      (Num.ltb (rounded_amount p) Num.ten21 = true ->
         matches_amount text = true) /\
      (forall n : Z,
         Num.half_up (Num.mul p hundred) = Some n -> n < 2 ^ 52 ->
         matches_amount text = true /\
         amount_cents text = Some (Z.to_N n)) /\
      (forall c : Z,
         price_cents p = Some c -> 1 <= c < 2 ^ 52 - 1 ->
         matches_amount text = true /\
         (amount_cents text = Some (Z.to_N c)
          \/ amount_cents text = Some (Z.to_N (c + 1)))))
  /\ unit_values sample_config sample_cart
     = Some [Str.lit "10.00"; Str.lit "5.01"]
  /\ order_total sample_config sample_cart = Some (Str.lit "25.01")
  /\ amountToString (Num.ofString (Str.lit "9.999")) = Str.lit "10.00".
Proof.
  split; [|repeat split; vm_compute; reflexivity].
  intros cfg items out i item o p Hok Hitem Hout Hp text.
  destruct items as [|x l]; [discriminate|].
  rewrite normalizeItems_array in Hok.
  destruct (map_from_Ok _ _ _ _ Hok) as [_ Hnth].
  destruct (Hnth _ _ Hitem) as (o' & Ho' & Hnorm).
  rewrite Hout in Ho'. injection Ho' as <-.
  apply normalizeItem_Ok in Hnorm
    as (nm & q & p' & _ & _ & _ & Hp' & Hgood & _ & Ho).
  rewrite Hp in Hp'. injection Hp' as <-.
  assert (Htext : text = amountToString p) by (unfold text; rewrite Ho; reflexivity).
  split; [exact Htext|]. rewrite Htext. split; [|split].
  - intros Hrange. apply amountToString_price_text; assumption.
  - intros n Hn Hlt. apply amountToString_cents; assumption.
  - intros c Hc Hrange.
    destruct (good_price_positive p Hgood) as (m & e & ->).
    destruct (cents_between m e c Hc Hrange) as (n & Hn & Hcase).
    destruct (amountToString_cents _ n Hgood Hn) as [Hmatch Hcents]; [lia|].
    split; [exact Hmatch|]. rewrite Hcents.
    destruct Hcase as [->| ->]; [left|right]; reflexivity.
Qed.

(** C2 (as the code has it).  For every [POST /api/orders] request whose
    cart [normalizeItems] rejects (missing, not a list, empty, or with an
    item that fails a check), the reply has the status 500 and the body
    [{message}], the message being the one of the error thrown; the error
    is logged and nothing else happens. *)
Theorem create_order_invalid_cart_is_500 (cfg : config) (env : environment)
  (body : value) (w : world) :
  valid_cart (Js.opt body "items") = false ->
  exists e,
    normalizeItems cfg (Js.opt body "items") = Throw e /\
    err_message e <> [] /\
    create_order cfg env body w =
      (Ok {| reply_status := number 500;
             reply_body := message_body (err_message e) |},
       logged w "PayPal integration error:" e).
Proof.
  intros H. destruct (normalizeItems_invalid cfg _ H) as [e He].
  exists e. split; [exact He|]. split.
  - apply (normalizeItems_Throw _ _ _ He).
  - apply create_order_rejected; exact He.
Qed.

(** C3 (as the code has it).  For every valid cart (a list, not empty, of
    valid items) whose rounded prices are below [10 ^ 21], [normalizeItems]
    returns a list of the same length, the item at each position being
    the normalized item of the input at that position, and every
    [unit_amount.value] matches [/^\d+\.\d{2}$/]. *)
Theorem normalizeItems_valid_cart (cfg : config) (items : list value) :
  valid_cart (VArr items) = true ->
  forallb in_fixed_range items = true ->
  exists out,
    normalizeItems cfg (VArr items) = Ok out /\
    length out = length items /\
    (forall n item, nth_error items n = Some item ->
       exists o, nth_error out n = Some o /\
                 normalizeItem cfg n item = Ok o /\
                 trimmed_name item = Ok (VStr (name o))) /\
    Forall (fun o => matches_amount (money_value (unit_amount o)) = true) out.
Proof.
  intros Hvalid Hrange.
  destruct (normalizeItems_valid cfg _ Hvalid) as [out Hok].
  exists out. split; [exact Hok|].
  destruct items as [|x l]; [discriminate|].
  rewrite normalizeItems_array in Hok.
  destruct (map_from_Ok _ _ _ _ Hok) as [Hlen Hnth].
  split; [exact Hlen|]. split.
  - intros n item Hn. destruct (Hnth _ _ Hn) as (o & Ho & Hnorm).
    exists o. repeat split; auto.
    apply normalizeItem_Ok in Hnorm
      as (nm & q & p & Hname & _ & _ & _ & _ & _ & ->).
    exact Hname.
  - apply Forall_forall. intros o Hin.
    destruct (In_nth_error _ _ Hin) as [n Ho].
    assert (Hn : (n < length (x :: l))%nat).
    { rewrite <- Hlen. apply nth_error_Some. congruence. }
    destruct (nth_error (x :: l) n) as [item|] eqn:Hitem;
      [|apply nth_error_None in Hitem; lia].
    destruct (Hnth _ _ Hitem) as (o' & Ho' & Hnorm).
    rewrite Ho in Ho'. injection Ho' as <-.
    apply normalizeItem_Ok in Hnorm
      as (nm & q & p & _ & _ & _ & Hp & Hgood & _ & ->).
    cbn [line_of unit_amount money_value].
    apply amountToString_price_text; [exact Hgood|].
    rewrite forallb_forall in Hrange.
    specialize (Hrange item (nth_error_In _ _ Hitem)).
    unfold in_fixed_range in Hrange. rewrite Hp in Hrange. exact Hrange.
Qed.

(** C4 (as the code has it).  For every list of normalized items the
    order payload has one purchase unit, whose [amount.value] and
    [amount.breakdown.item_total.value] are the same text, the order
    total.  When the values have two decimals and the quantities are
    texts of digits, and the sum over the items of value times quantity,
    computed in whole cents ([exact_total]), is [total] cents with
    [total * (8 * lines + 1) < 2 ^ 50], that text has the form digits,
    dot, two digits and reads as [total] hundredths: it is that sum, to
    the cent. *)
Theorem orderPayload_totals (cfg : config) (items : list line_item) :
  let text := calculateOrderTotal items in
  exists unit,
    purchase_units (orderPayload cfg items) = [unit] /\
    amount_value (amount unit) = text /\
    money_value (item_total (amount_breakdown (amount unit))) = text /\
    (forall total : N,
       exact_total items = Some total ->
       (total * (8 * N.of_nat (length items) + 1) < 2 ^ 50)%N ->
       matches_amount text = true /\
       amount_cents text = Some total).
Proof.
  intros text. eexists. split; [reflexivity|].
  split; [reflexivity|]. split; [reflexivity|].
  intros total Htotal Hsmall. apply order_total_exact; assumption.
Qed.

(** C5.  For the empty cart, and for items that are missing or not a list,
    [POST /api/orders] fails with the error "Missing cart items.": that
    is the message of the reply, and no request is sent to the gateway
    (neither for a token nor for an order). *)
Theorem create_order_without_items (cfg : config) (env : environment)
  (body : value) (w : world) :
  is_cart (Js.opt body "items") = false ->
  let missing := new_Error (Str.lit "Missing cart items.") in
  normalizeItems cfg (Js.opt body "items") = Throw missing /\
  create_order cfg env body w =
    (Ok {| reply_status := number 500;
           reply_body := message_body (Str.lit "Missing cart items.") |},
     logged w "PayPal integration error:" missing) /\
  sent (snd (create_order cfg env body w)) = sent w.
Proof.
  intros H missing.
  assert (Hthrow : normalizeItems cfg (Js.opt body "items") = Throw missing).
  { apply normalizeItems_missing. intros x l E. rewrite E in H. discriminate. }
  pose proof (create_order_rejected cfg env body w _ Hthrow) as Hreply.
  split; [exact Hthrow|]. split; [exact Hreply|].
  rewrite Hreply; reflexivity.
Qed.

(** C6 (as the code has it).  For every list with an item whose price is
    not a finite number above 0, [normalizeItems] throws and returns no
    items at all.  The error is the one of the first item that fails,
    all items before it being valid.  It is an [Error] that names that
    item, by its position (a missing name) or by its trimmed name (an
    invalid price or quantity), unless the name of that item is neither
    a string nor missing, or its quantity or price cannot be made a
    number: then it is the [TypeError] of the engine, which names no
    item. *)
Theorem normalizeItems_rejects_bad_price (cfg : config) (items : list value) :
  existsb bad_price items = true ->
  exists e n bad,
    normalizeItems cfg (VArr items) = Throw e /\
    nth_error items n = Some bad /\
    normalizeItem cfg n bad = Throw e /\
    (forall m, (m < n)%nat ->
       exists item, nth_error items m = Some item /\ valid_item item = true) /\
    (e = new_Error (Str.lit "Item #" ++ Str.of_N (N.of_nat (n + 1))
                    ++ Str.lit " is missing a name.")
     \/ (exists nm,
           trimmed_name bad = Ok (VStr nm) /\
           (e = new_Error (Str.lit "Item " ++ Str.quoted nm
                           ++ Str.lit " has an invalid price.")
            \/ e = new_Error (Str.lit "Item " ++ Str.quoted nm
                              ++ Str.lit " has an invalid quantity.")))
     \/ (trimmed_name bad = Throw e /\
         e = new_TypeError (Str.lit "item?.name?.trim is not a function"))
     \/ (e = Js.no_primitive /\
         (quantity_of bad = Throw e \/ price_of bad = Throw e))).
Proof.
  intros Hbad. apply existsb_exists in Hbad as (item & Hin & Hbad).
  assert (Hinvalid : forallb valid_item items = false).
  { destruct (forallb valid_item items) eqn:E; [|reflexivity].
    rewrite forallb_forall in E. specialize (E _ Hin).
    unfold valid_item in E. unfold bad_price in Hbad.
    destruct (trimmed_name item) as [[| | | |[|c nm]| |]|]; try discriminate.
    destruct (quantity_of item); try discriminate.
    destruct (price_of item) as [p|]; [|discriminate].
    destruct (good_price p); discriminate. }
  destruct items as [|x l]; [destruct Hin|].
  rewrite normalizeItems_array.
  destruct (map_from_invalid cfg 0 _ Hinvalid) as [e He].
  destruct (map_from_Throw _ _ _ _ He) as (n & bad & Hn & Hthrow & Hbefore).
  exists e, n, bad. repeat split; auto.
  eapply normalizeItem_Throw_cases; eauto.
Qed.

(** C7 (where the code falls short).  Capture summary extraction is meant
    to be total, and it is on every payload but one: for the payload
    [null] the default [{}] of the parameter does not apply, and reading
    [capturePayload.purchase_units] throws. *)
Theorem extractCaptureSummary_null_throws :
  extractCaptureSummary VNull =
  Throw (new_TypeError
           (Str.lit "Cannot read properties of null (reading 'purchase_units')")).
Proof. reflexivity. Qed.

(** C8.  Whenever the gateway answers the capture request with a payload,
    [POST /api/orders/:orderId/capture] replies 200 with that payload
    unchanged, also when [fs.mkdir] or [fs.appendFile] fails: the error
    is logged with [console.error] and goes no further, and no other
    request is sent. *)
Theorem capture_order_replies_200 (cfg : config) (env : environment)
  (orderId : Str.t) (w w1 : world) (capture : value) :
  paypalRequest cfg env (capture_endpoint orderId) (Str.lit "POST") NoBody w
    = (Ok capture, w1) ->
  exists w2,
    capture_order cfg env orderId w =
      (Ok {| reply_status := number 200; reply_body := capture |}, w2) /\
    sent w2 = sent w1 /\
    (forall e, mkdir env = Some e ->
       w2 = logged w1 "Failed to persist capture record" e) /\
    (forall s e, mkdir env = None -> extractCaptureSummary capture = Ok s ->
       appendFile env = Some e ->
       w2 = logged w1 "Failed to persist capture record" e).
Proof.
  intros Hreq.
  destruct (persistCapture_returns env capture w1)
    as (w2 & Hp & Hsent & Hmkdir & _ & Happend & _).
  exists w2. split.
  - unfold capture_order, try_catch, bindM. rewrite Hreq, Hp. reflexivity.
  - repeat split; assumption.
Qed.

(** C9.  The capture summary reads the first purchase unit and its first
    capture only.  For every payload whose [purchase_units] is a list
    with a first element, whatever that element is, the items of the
    summary are those of that unit; when the [captures] of that unit are
    a list with a first element, the capture fields of the summary are
    those of that capture; and whatever follows the first element of
    [purchase_units] or of [captures] changes nothing: the summary is
    the one of the payload with the first unit alone, and of that unit
    with its first capture alone. *)
Theorem summary_reads_first_unit_and_capture
  (payload : props) (unit : value) (more_units : list value) :
  Js.opt (VObj payload) "purchase_units" = VArr (unit :: more_units) ->
  exists s,
    extractCaptureSummary (VObj payload) = Ok s /\
    Summary.items s = Js.coalesce (Js.opt unit "items") (VArr []) /\
    extractCaptureSummary (with_prop "purchase_units" (VArr [unit]) payload)
    = Ok s /\
    (forall (capture : value) (more_captures : list value),
       Js.opt (Js.opt unit "payments") "captures"
       = VArr (capture :: more_captures) ->
       Summary.captureId s = Js.opt capture "id" /\
       Summary.status s = Js.opt capture "status" /\
       Summary.amount s = Js.opt (Js.opt capture "amount") "value" /\
       Summary.currency s = Js.opt (Js.opt capture "amount") "currency_code" /\
       Summary.createTime s = Js.opt capture "create_time" /\
       Summary.updateTime s = Js.opt capture "update_time" /\
       forall fields payments : props,
         unit = VObj fields ->
         Js.opt unit "payments" = VObj payments ->
         extractCaptureSummary
           (with_prop "purchase_units"
              (VArr [with_prop "payments"
                       (with_prop "captures" (VArr [capture]) payments)
                       fields])
              payload)
         = Ok s).
Proof.
  intros Hunits. eexists. split; [apply extractCaptureSummary_object|].
  cbv zeta. rewrite Hunits.
  change (Js.opt0 (VArr (unit :: more_units))) with unit.
  cbn [Summary.items Summary.captureId Summary.status Summary.amount
       Summary.currency Summary.createTime Summary.updateTime].
  split; [reflexivity|]. split.
  - unfold with_prop. rewrite extractCaptureSummary_object. cbv zeta.
    rewrite opt_set_same.
    rewrite !(opt_set_other "purchase_units" "id") by reflexivity.
    rewrite !(opt_set_other "purchase_units" "payer") by reflexivity.
    reflexivity.
  - intros capture more_captures Hcaptures. rewrite Hcaptures.
    change (Js.opt0 (VArr (capture :: more_captures))) with capture.
    do 6 (split; [reflexivity|]).
    intros fields payments -> Hpayments.
    unfold with_prop. rewrite extractCaptureSummary_object. cbv zeta.
    rewrite opt_set_same.
    rewrite !(opt_set_other "purchase_units" "id") by reflexivity.
    rewrite !(opt_set_other "purchase_units" "payer") by reflexivity.
    change (Js.opt0 (VArr [?x])) with x.
    rewrite !opt_set_same.
    rewrite !(opt_set_other "payments" "items") by reflexivity.
    reflexivity.
Qed.

(** C10.  In an accepted cart the item at position [n + 1] gets as
    [reference_id] its own [id] when it has one (neither [undefined] nor
    [null]) and the text ["ITEM-"] followed by [n + 1] otherwise. *)
Theorem normalizeItems_reference_id (cfg : config) (items : list value)
  (out : list line_item) (n : nat) (item : value) :
  normalizeItems cfg (VArr items) = Ok out ->
  nth_error items n = Some item ->
  exists o,
    nth_error out n = Some o /\
    reference_id o =
      if Js.nullish (Js.opt item "id")
      then VStr (Str.lit "ITEM-" ++ Str.of_N (N.of_nat (n + 1)))
      else Js.opt item "id".
Proof.
  intros Hok Hn. destruct items as [|x l]; [discriminate|].
  rewrite normalizeItems_array in Hok.
  destruct (map_from_Ok _ _ _ _ Hok) as [_ Hnth].
  destruct (Hnth _ _ Hn) as (o & Ho & Hitem). exists o. split; [exact Ho|].
  apply normalizeItem_Ok in Hitem as (nm & q & p & _ & _ & _ & _ & _ & _ & ->).
  reflexivity.
Qed.

(** * The claims on concrete inputs *)

(** The second item of the sample cart, priced 5.005: the product by 100
    rounds half-up to 501, and the value reads as 501 hundredths, one
    cent above the price rounded half-up, which is 500. *)
Lemma unit_amount_rounds_half_up_sample :
  exists o,
    nth_error sample_lines 1 = Some o /\
    money_value (unit_amount o) = Str.lit "5.01" /\
    matches_amount (money_value (unit_amount o)) = true /\
    amount_cents (money_value (unit_amount o)) = Some 501%N /\
    price_cents (Num.ofString (Str.lit "5.005")) = Some 500 /\
    (amount_cents (money_value (unit_amount o)) = Some 500%N
     \/ amount_cents (money_value (unit_amount o)) = Some 501%N).
Proof.
  eexists. split; [vm_compute; reflexivity|].
  split; [vm_compute; reflexivity|].
  pose proof (proj1 unit_amount_rounds_half_up
                sample_config sample_items sample_lines 1%nat
                (cart_item "B" "5.005" "1") _
                (Num.ofString (Str.lit "5.005"))
                ltac:(vm_compute; reflexivity) ltac:(vm_compute; reflexivity)
                ltac:(vm_compute; reflexivity) ltac:(vm_compute; reflexivity))
    as (_ & _ & Hproduct & Hprice).
  destruct (Hproduct 501) as [Hmatch Hcents]; [vm_compute; reflexivity ..|].
  destruct (Hprice 500) as [_ Hbetween];
    [vm_compute; reflexivity|lia|].
  split; [exact Hmatch|]. split; [exact Hcents|].
  split; [vm_compute; reflexivity|exact Hbetween].
Defined.

(** The value is not the price rounded half-up at the cent.  The number
    5.005 is below the decimal 5.005 and rounds half-up to 500 cents, and
    its value is ["5.01"]: the product by 100 rounds up to 500.5 first.
    The decimal 1.005 rounds half-up to 101 cents, and the value of the
    number read from it is ["1.00"]. *)
Lemma value_is_not_the_price_rounded_half_up :
  valid_cart sample_cart = true /\
  price_cents (Num.ofString (Str.lit "5.005")) = Some 500 /\
  Num.half_up (Num.mul (Num.ofString (Str.lit "5.005")) hundred) = Some 501 /\
  amount_cents (amountToString (Num.ofString (Str.lit "5.005")))
  = Some 501%N /\
  unit_values sample_config sample_cart
  = Some [Str.lit "10.00"; Str.lit "5.01"] /\
  valid_cart tie_cart = true /\
  Num.ofString (Str.lit "1.005") = Num.of_decimal false 1005 (-3) /\
  decimal_cents 1005 3 = 101%N /\
  price_cents (Num.ofString (Str.lit "1.005")) = Some 100 /\
  unit_values sample_config tie_cart = Some [Str.lit "1.00"].
Proof. repeat split; vm_compute; reflexivity. Qed.

(** A price of [10 ^ 22] is finite and above 0, and its value is not in
    the form of two decimals. *)
Lemma huge_price_leaves_fixed_notation :
  valid_cart huge_price_cart = true /\
  unit_values sample_config huge_price_cart = Some [Str.lit "1e+22"] /\
  matches_amount (Str.lit "1e+22") = false.
Proof. repeat split; vm_compute; reflexivity. Qed.

(** From [2 ^ 52] hundredths on, the division by 100 can lose the last
    digit: this price times 100 rounds to 7894957430026162, and the value
    ends in 63. *)
Lemma cents_drift_above_2_52 :
  let p := Num.ofString (Str.lit "78949574300261.62") in
  Num.half_up (Num.mul p hundred) = Some 7894957430026162 /\
  amountToString p = Str.lit "78949574300261.63".
Proof. split; vm_compute; reflexivity. Qed.

(** A cart whose only item has the quantity 0 is answered with 500. *)
Lemma create_order_invalid_cart_is_500_sample :
  exists e,
    normalizeItems sample_config
      (Js.opt (body_with zero_quantity_cart) "items") = Throw e /\
    err_message e <> [] /\
    create_order sample_config sample_environment
      (body_with zero_quantity_cart) new_world =
      (Ok {| reply_status := number 500;
             reply_body := message_body (err_message e) |},
       logged new_world "PayPal integration error:" e).
Proof.
  apply (create_order_invalid_cart_is_500 sample_config sample_environment
           (body_with zero_quantity_cart) new_world).
  vm_compute; reflexivity.
Defined.

(** The empty cart is malformed, and the reply to it has the status 500,
    which is not of the 400 class. *)
Lemma create_order_empty_cart_not_4xx :
  valid_cart (Js.opt (body_with (VArr [])) "items") = false /\
  option_map reply_status
    (reply_of (create_order sample_config sample_environment
                 (body_with (VArr [])) new_world))
  = Some (number 500) /\
  is_4xx (number 500) = false.
Proof. repeat split; vm_compute; reflexivity. Qed.

(** The sample cart is valid and in range. *)
Lemma normalizeItems_valid_cart_sample :
  exists out,
    normalizeItems sample_config (VArr sample_items) = Ok out /\
    length out = length sample_items /\
    Forall (fun o => matches_amount (money_value (unit_amount o)) = true) out.
Proof.
  destruct (normalizeItems_valid_cart sample_config sample_items)
    as (out & Hok & Hlen & _ & Hall).
  - vm_compute; reflexivity.
  - vm_compute; reflexivity.
  - exists out. repeat split; assumption.
Defined.

(** A price of [10 ^ 308] is finite and above 0; times 100 it is
    [Infinity], and so reads the value. *)
Lemma overflowing_price_does_not_match :
  valid_cart overflowing_cart = true /\
  unit_values sample_config overflowing_cart = Some [Str.lit "Infinity"] /\
  matches_amount (Str.lit "Infinity") = false.
Proof. repeat split; vm_compute; reflexivity. Qed.

(** The total of the sample cart: 2501 cents on two lines. *)
Lemma orderPayload_totals_sample :
  exact_total sample_lines = Some 2501%N /\
  matches_amount (calculateOrderTotal sample_lines) = true /\
  amount_cents (calculateOrderTotal sample_lines) = Some 2501%N.
Proof.
  destruct (orderPayload_totals sample_config sample_lines)
    as (unit & _ & _ & _ & Hexact).
  split; [vm_compute; reflexivity|].
  apply Hexact; vm_compute; reflexivity.
Defined.

(** Three items at 90071992547409.91: the sum is 270215977642229.73, and
    the order total is a cent below it. *)
Lemma large_total_is_a_cent_below_the_sum :
  valid_cart large_cart = true /\
  normalizeItems sample_config large_cart = Ok large_lines /\
  exact_total large_lines = Some 27021597764222973%N /\
  calculateOrderTotal large_lines = Str.lit "270215977642229.72" /\
  amount_cents (calculateOrderTotal large_lines)
  = Some 27021597764222972%N.
Proof. repeat split; vm_compute; reflexivity. Qed.

(** Two items at 6e20 each: the value of the item has two decimals, the
    total of the order has not. *)
Lemma huge_total_leaves_fixed_notation :
  valid_cart huge_total_cart = true /\
  unit_values sample_config huge_total_cart
  = Some [Str.lit "600000000000000000000.00"] /\
  matches_amount (Str.lit "600000000000000000000.00") = true /\
  order_total sample_config huge_total_cart = Some (Str.lit "1.2e+21") /\
  matches_amount (Str.lit "1.2e+21") = false.
Proof. repeat split; vm_compute; reflexivity. Qed.

(** A request without items. *)
Lemma create_order_without_items_sample :
  create_order sample_config sample_environment (VObj []) new_world =
    (Ok {| reply_status := number 500;
           reply_body := message_body (Str.lit "Missing cart items.") |},
     logged new_world "PayPal integration error:"
       (new_Error (Str.lit "Missing cart items."))) /\
  sent (snd (create_order sample_config sample_environment (VObj [])
               new_world)) = [].
Proof.
  apply (create_order_without_items sample_config sample_environment
           (VObj []) new_world).
  reflexivity.
Defined.

(** A cart whose second item costs -5. *)
Lemma normalizeItems_rejects_bad_price_sample :
  exists e n bad,
    normalizeItems sample_config (VArr negative_price_items) = Throw e /\
    nth_error negative_price_items n = Some bad /\
    normalizeItem sample_config n bad = Throw e.
Proof.
  destruct (normalizeItems_rejects_bad_price sample_config
              negative_price_items)
    as (e & n & bad & He & Hn & Hbad & _).
  - vm_compute; reflexivity.
  - exists e, n, bad. repeat split; assumption.
Defined.

(** An item whose name is the number 5 and whose price is -1: the error
    is the one of the engine, and names no item. *)
Lemma numeric_name_error_names_no_item :
  existsb bad_price numeric_name_items = true /\
  normalizeItems sample_config (VArr numeric_name_items)
  = Throw (new_TypeError (Str.lit "item?.name?.trim is not a function")).
Proof. split; vm_compute; reflexivity. Qed.

(** An item whose price is the text ["abc"]: the error names it by its
    trimmed name. *)
Lemma text_price_error_names_the_item :
  existsb bad_price text_price_items = true /\
  normalizeItems sample_config (VArr text_price_items)
  = Throw (new_Error (Str.lit "Item " ++ Str.quoted (Str.lit "B")
                      ++ Str.lit " has an invalid price.")).
Proof. split; vm_compute; reflexivity. Qed.

(** The sample capture, on a machine where [fs.mkdir] fails. *)
Lemma capture_order_replies_200_sample :
  exists w2,
    capture_order sample_config sample_environment (Str.lit "O1") new_world =
      (Ok {| reply_status := number 200; reply_body := sample_capture |}, w2).
Proof.
  destruct (capture_order_replies_200 sample_config sample_environment
              (Str.lit "O1") new_world
              (snd (paypalRequest sample_config sample_environment
                      (capture_endpoint (Str.lit "O1")) (Str.lit "POST")
                      NoBody new_world))
              sample_capture)
    as (w2 & Hreply & _).
  - vm_compute; reflexivity.
  - exists w2. exact Hreply.
Defined.

(** A capture of two purchase units, the first with two captures: the
    summary has the items of the first unit and the fields of its first
    capture. *)
Lemma summary_reads_first_unit_and_capture_sample :
  exists s,
    extractCaptureSummary (VObj two_unit_capture) = Ok s /\
    Summary.items s = VArr [VObj [prop "name" (str "A")]] /\
    Summary.captureId s = str "C1" /\
    Summary.status s = str "COMPLETED".
Proof.
  destruct (summary_reads_first_unit_and_capture two_unit_capture
              (VObj first_unit) [second_unit] eq_refl)
    as (s & Hs & Hitems & _ & Hcapture).
  destruct (Hcapture (VObj [prop "id" (str "C1");
                            prop "status" (str "COMPLETED")])
                     [VObj [prop "id" (str "C2");
                            prop "status" (str "DECLINED")]] eq_refl)
    as (Hid & Hstatus & _).
  exists s. split; [exact Hs|]. split; [exact Hitems|].
  split; [exact Hid|exact Hstatus].
Defined.

(** The second item of the sample cart has no id. *)
Lemma normalizeItems_reference_id_sample :
  exists o,
    nth_error sample_lines 1 = Some o /\
    reference_id o = VStr (Str.lit "ITEM-2").
Proof.
  apply (normalizeItems_reference_id sample_config sample_items sample_lines
           1%nat (cart_item "B" "5.005" "1")).
  - vm_compute; reflexivity.
  - vm_compute; reflexivity.
Defined.

(** * Further properties *)

(** ** The gateway client, step by step *)

Lemma after_nil w : after w [] = w.
Proof. destruct w. unfold after. cbn. rewrite app_nil_r. reflexivity. Qed.

Lemma after_after w l1 l2 : after (after w l1) l2 = after w (l1 ++ l2).
Proof. unfold after. cbn. rewrite app_assoc. reflexivity. Qed.

Lemma has_credentials_guard cfg :
  negb (is_set (PAYPAL_CLIENT_ID cfg)) || negb (is_set (PAYPAL_CLIENT_SECRET cfg))
  = negb (has_credentials cfg).
Proof. unfold has_credentials. destruct (is_set _), (is_set _); reflexivity. Qed.

Lemma generateAccessToken_missing cfg env w :
  has_credentials cfg = false ->
  generateAccessToken cfg env w =
  (Throw (new_Error (Str.lit "Missing PayPal credentials.")), w).
Proof.
  intros H. unfold generateAccessToken. rewrite has_credentials_guard, H.
  reflexivity.
Qed.

(** With credentials, one request is sent, and the answer decides. *)
Lemma generateAccessToken_sends cfg env w :
  has_credentials cfg = true ->
  generateAccessToken cfg env w =
  (match fetch env (sent w) (token_request cfg) with
   | Rejects e => Throw e
   | Responds resp =>
       if ok resp then
         let* data := json resp in Js.get data "access_token"
       else Throw (authentication_error resp)
   end,
   after w [token_request cfg]).
Proof.
  intros H. unfold generateAccessToken. rewrite has_credentials_guard, H.
  cbn [negb]. unfold bindM, do_fetch. fold (token_request cfg).
  fold (after w [token_request cfg]).
  destruct (fetch env (sent w) (token_request cfg)) as [resp|e]; [|reflexivity].
  destruct (ok resp); cbn [negb]; [|reflexivity].
  unfold lift. destruct (json resp) as [data|e]; [|reflexivity].
  cbn [bind]. destruct (Js.get data "access_token"); reflexivity.
Qed.

Lemma paypalRequest_no_token cfg env endpoint method body w e w1 :
  generateAccessToken cfg env w = (Throw e, w1) ->
  paypalRequest cfg env endpoint method body w = (Throw e, w1).
Proof. intros H. unfold paypalRequest, bindM. rewrite H. reflexivity. Qed.

(** With a token, the request to the endpoint is sent, and the answer
    decides. *)
Lemma paypalRequest_sends cfg env endpoint method body w t token w1 :
  generateAccessToken cfg env w = (Ok t, w1) ->
  Js.toString t = Ok token ->
  let request := api_request cfg endpoint method token body in
  paypalRequest cfg env endpoint method body w =
  (match fetch env (sent w1) request with
   | Rejects e => Throw e
   | Responds resp =>
       if ok resp then Ok (body_of resp)
       else
         let m := Js.opt (body_of resp) "message" in
         let* message :=
           (if Js.truthy m then Js.toString m
            else Ok (Str.lit "PayPal API error.")) in
         Throw {| err_class := Error; err_message := message;
                  err_status := VUndefined; err_paypal := body_of resp |}
   end,
   after w1 [request]).
Proof.
  intros Ht Hs request. unfold paypalRequest, bindM. rewrite Ht.
  unfold lift at 1. rewrite Hs. unfold do_fetch.
  fold (api_request cfg endpoint method token body). fold request.
  fold (after w1 [request]).
  destruct (fetch env (sent w1) request) as [resp|e]; [|reflexivity].
  fold (body_of resp).
  destruct (ok resp); cbn [negb]; [reflexivity|].
  unfold lift.
  destruct (if Js.truthy (Js.opt (body_of resp) "message") then _ else _);
    reflexivity.
Qed.

(** ** The routes, once the cart is read *)

Lemma error_middleware_shape (e : error) (w : world) :
  exists status m rest,
    error_middleware e w =
    (Ok {| reply_status := status;
           reply_body := VObj ((Str.lit "message", VStr m) :: rest) |},
     logged w "PayPal integration error:" e) /\
    m <> [].
Proof.
  unfold error_middleware, bindM, console_error, ret.
  do 3 eexists. split; [reflexivity|].
  destruct (err_message e); [discriminate|discriminate].
Qed.

(** [POST /api/orders] once the cart is accepted. *)
Lemma create_order_accepted cfg env body w l :
  normalizeItems cfg (Js.opt body "items") = Ok l ->
  create_order cfg env body w =
  match paypalRequest cfg env (Str.lit "/v2/checkout/orders") (Str.lit "POST")
          (Json (orderPayload cfg l)) w with
  | (Ok order, w1) =>
      match Js.get order "id" with
      | Ok id => (Ok {| reply_status := number 201;
                        reply_body := VObj [(Str.lit "id", id)] |}, w1)
      | Throw e => error_middleware e w1
      end
  | (Throw e, w1) => error_middleware e w1
  end.
Proof.
  intros H. unfold create_order, try_catch, bindM. unfold lift at 1. rewrite H.
  destruct (paypalRequest _ _ _ _ _ w) as [[order|e] w1]; [|reflexivity].
  unfold lift. destruct (Js.get order "id"); reflexivity.
Qed.

(** [POST /api/orders/:orderId/capture]. *)
Lemma capture_order_gateway cfg env orderId w :
  capture_order cfg env orderId w =
  match paypalRequest cfg env (capture_endpoint orderId) (Str.lit "POST")
          NoBody w with
  | (Ok capture, w1) =>
      (Ok {| reply_status := number 200; reply_body := capture |},
       snd (persistCapture env capture w1))
  | (Throw e, w1) => error_middleware e w1
  end.
Proof.
  unfold capture_order, try_catch, bindM.
  destruct (paypalRequest _ _ _ _ _ w) as [[capture|e] w1]; [|reflexivity].
  destruct (persistCapture_returns env capture w1) as (w2 & -> & _).
  reflexivity.
Qed.


Lemma paypalRequest_bad_token cfg env endpoint method body w t e w1 :
  generateAccessToken cfg env w = (Ok t, w1) ->
  Js.toString t = Throw e ->
  paypalRequest cfg env endpoint method body w = (Throw e, w1).
Proof.
  intros Ht Hs. unfold paypalRequest, bindM. rewrite Ht.
  unfold lift at 1. rewrite Hs. reflexivity.
Qed.

Lemma paypalRequest_world cfg env endpoint method body w :
  exists r requests,
    paypalRequest cfg env endpoint method body w = (r, after w requests) /\
    (requests = [] \/ requests = [token_request cfg] \/
     exists token,
       requests = [token_request cfg;
                   api_request cfg endpoint method token body]) /\
    (forall v, r = Ok v ->
       exists token,
         requests = [token_request cfg;
                     api_request cfg endpoint method token body]).
Proof.
  destruct (has_credentials cfg) eqn:Hc.
  2:{ exists (Throw (new_Error (Str.lit "Missing PayPal credentials."))), [].
      rewrite after_nil. split; [|split; [auto|discriminate]].
      apply paypalRequest_no_token, generateAccessToken_missing, Hc. }
  pose proof (generateAccessToken_sends cfg env w Hc) as Ht.
  destruct (match fetch env (sent w) (token_request cfg) with
            | Responds _ => _ | Rejects _ => _ end) as [t|e].
  2:{ exists (Throw e), [token_request cfg].
      split; [|split; [auto|discriminate]].
      apply paypalRequest_no_token, Ht. }
  destruct (Js.toString t) as [token|e] eqn:Hs.
  2:{ exists (Throw e), [token_request cfg].
      split; [|split; [auto|discriminate]].
      eapply paypalRequest_bad_token; eauto. }
  pose proof (paypalRequest_sends cfg env endpoint method body w t token _
                Ht Hs) as Hr.
  cbv zeta in Hr. rewrite after_after in Hr. cbn [app] in Hr.
  eexists _, _. split; [exact Hr|]. split; eauto.
Qed.

(** ** What the gateway client and the routes do *)

(** X1.  Without a client id or without a secret no request leaves the
    server: the capture route, and the order route on a valid cart, reply
    500 with the message "Missing PayPal credentials.", and the error is
    logged. *)
Theorem missing_credentials_send_nothing (cfg : config) (env : environment)
  (w : world) :
  has_credentials cfg = false ->
  let e := new_Error (Str.lit "Missing PayPal credentials.") in
  let answer := (Ok (error_reply e), logged w "PayPal integration error:" e) in
  (forall orderId, capture_order cfg env orderId w = answer) /\
  (forall body, valid_cart (Js.opt body "items") = true ->
     create_order cfg env body w = answer).
Proof.
  intros Hc e answer.
  assert (Hreq : forall endpoint method body,
            paypalRequest cfg env endpoint method body w = (Throw e, w)).
  { intros. apply paypalRequest_no_token, generateAccessToken_missing, Hc. }
  split.
  - intros orderId. rewrite capture_order_gateway, Hreq.
    apply error_middleware_plain. repeat split. discriminate.
  - intros body Hv. destruct (normalizeItems_valid cfg _ Hv) as [l Hl].
    rewrite (create_order_accepted _ _ _ _ _ Hl), Hreq.
    apply error_middleware_plain. repeat split. discriminate.
Qed.

(** X2.  When the gateway refuses the token request, the capture route,
    and the order route on a valid cart, reply 500 with the message
    "Failed to authenticate with PayPal: ", the status and the body text
    of the refusal; the token request is the only one sent. *)
Theorem refused_token_is_reported (cfg : config) (env : environment)
  (w : world) (resp : response) :
  has_credentials cfg = true ->
  fetch env (sent w) (token_request cfg) = Responds resp ->
  ok resp = false ->
  let e := authentication_error resp in
  let answer :=
    (Ok (error_reply e),
     logged (after w [token_request cfg]) "PayPal integration error:" e) in
  (forall orderId, capture_order cfg env orderId w = answer) /\
  (forall body, valid_cart (Js.opt body "items") = true ->
     create_order cfg env body w = answer).
Proof.
  intros Hc Hf Hok e answer.
  assert (Hreq : forall endpoint method body,
            paypalRequest cfg env endpoint method body w
            = (Throw e, after w [token_request cfg])).
  { intros. apply paypalRequest_no_token.
    rewrite (generateAccessToken_sends _ _ _ Hc), Hf, Hok. reflexivity. }
  split.
  - intros orderId. rewrite capture_order_gateway, Hreq.
    apply error_middleware_plain. repeat split. discriminate.
  - intros body Hv. destruct (normalizeItems_valid cfg _ Hv) as [l Hl].
    rewrite (create_order_accepted _ _ _ _ _ Hl), Hreq.
    apply error_middleware_plain. repeat split. discriminate.
Qed.

(** X3.  The token is not checked: whatever the property [access_token]
    of the token response is, present or not, its text is what the next
    request bears; for a response without the property that text is
    "undefined". *)
Theorem bearer_is_text_of_access_token (cfg : config) (env : environment)
  (endpoint method : Str.t) (body : request_body) (w : world)
  (resp : response) (data t : value) (token : Str.t) :
  has_credentials cfg = true ->
  fetch env (sent w) (token_request cfg) = Responds resp ->
  ok resp = true -> json resp = Ok data ->
  Js.get data "access_token" = Ok t ->
  Js.toString t = Ok token ->
  sent (snd (paypalRequest cfg env endpoint method body w))
  = sent w ++ [token_request cfg; api_request cfg endpoint method token body]
  /\ (t = VUndefined -> token = Str.lit "undefined").
Proof.
  intros Hc Hf Hok Hj Hg Hs. split.
  - erewrite paypalRequest_sends; [| |exact Hs].
    2:{ rewrite (generateAccessToken_sends _ _ _ Hc), Hf, Hok, Hj.
        cbn [bind]. rewrite Hg. reflexivity. }
    cbn [snd after sent]. rewrite <- app_assoc. reflexivity.
  - intros ->. injection Hs as <-. reflexivity.
Qed.

(** X4.  A call of [paypalRequest] sends at most two requests, the token
    request first and then the request to the endpoint, with the method
    and the body given and a token; it returns a body only after both.
    It writes nothing to the console or to the transaction log.  No token
    is kept from one call to the next. *)
Theorem paypalRequest_trace (cfg : config) (env : environment)
  (endpoint method : Str.t) (body : request_body) (w : world) :
  let r := fst (paypalRequest cfg env endpoint method body w) in
  let w' := snd (paypalRequest cfg env endpoint method body w) in
  console w' = console w /\
  transactions w' = transactions w /\
  (sent w' = sent w \/
   sent w' = sent w ++ [token_request cfg] \/
   exists token,
     sent w' = sent w ++ [token_request cfg;
                          api_request cfg endpoint method token body]) /\
  (forall v, r = Ok v ->
     exists token,
       sent w' = sent w ++ [token_request cfg;
                            api_request cfg endpoint method token body]).
Proof.
  intros r w'. subst r w'.
  destruct (paypalRequest_world cfg env endpoint method body w)
    as (r & requests & -> & Hreqs & Hok).
  cbn [fst snd after sent console transactions].
  split; [reflexivity|]. split; [reflexivity|]. split.
  - destruct Hreqs as [->|[->|[token ->]]].
    + left. apply app_nil_r.
    + right; left; reflexivity.
    + right; right; eauto.
  - intros v Hv. destruct (Hok v Hv) as [token ->]. eauto.
Qed.

(** X5.  When the gateway answers the capture request with a failure
    status, the route replies 500, the error is logged, and nothing is
    written to the transaction log.  The message of the reply follows
    the [message] of the answer: the text "PayPal API error." when it is
    falsy (the answer has none, or is not JSON); otherwise its text
    [String(message)], or "Unexpected server error." when that text is
    empty, as for the message [[]]; in both cases the answer itself is
    sent under [paypal] when it is truthy.  When the message has no text
    (an object with a [toString] of its own), the reply carries the
    message of the [TypeError] and no [paypal]. *)
Theorem capture_rejected_by_gateway (cfg : config) (env : environment)
  (orderId : Str.t) (w w1 : world) (t : value) (token : Str.t)
  (resp : response) :
  generateAccessToken cfg env w = (Ok t, w1) ->
  Js.toString t = Ok token ->
  let request :=
    api_request cfg (capture_endpoint orderId) (Str.lit "POST") token NoBody in
  fetch env (sent w1) request = Responds resp ->
  ok resp = false ->
  let m := Js.opt (body_of resp) "message" in
  let answer :=
    if Js.truthy (body_of resp)
    then [(Str.lit "paypal", body_of resp)] else [] in
  let rejected (message : Str.t) :=
    {| err_class := Error; err_message := message;
       err_status := VUndefined; err_paypal := body_of resp |} in
  let replies (message : Str.t) (rest : props) (e : error) :=
    capture_order cfg env orderId w =
    (Ok {| reply_status := number 500;
           reply_body := VObj ((Str.lit "message", VStr message) :: rest) |},
     logged (after w1 [request]) "PayPal integration error:" e) in
  (Js.truthy m = false ->
     replies (Str.lit "PayPal API error.") answer
       (rejected (Str.lit "PayPal API error."))) /\
  (forall text : Str.t,
     Js.truthy m = true -> Js.toString m = Ok text ->
     replies (match text with
              | [] => Str.lit "Unexpected server error."
              | _ => text
              end)
       answer (rejected text)) /\
  (forall e : error,
     Js.truthy m = true -> Js.toString m = Throw e ->
     e = Js.no_primitive /\
     replies (Str.lit "Cannot convert object to primitive value") [] e) /\
  transactions (snd (capture_order cfg env orderId w)) = transactions w1.
Proof.
  intros Ht Hs request Hf Hok m answer rejected replies.
  pose proof (capture_order_gateway cfg env orderId w) as Hroute.
  rewrite (paypalRequest_sends _ _ _ _ _ _ _ _ _ Ht Hs) in Hroute.
  fold request in Hroute. rewrite Hf, Hok in Hroute.
  cbv zeta in Hroute. fold m in Hroute. unfold replies.
  destruct (Js.truthy m) eqn:Etruthy.
  - destruct (Js.toString m) as [text|e] eqn:Etext; cbn [bind] in Hroute.
    + assert (Hreply : capture_order cfg env orderId w =
                (Ok {| reply_status := number 500;
                       reply_body :=
                         VObj ((Str.lit "message",
                                VStr (match text with
                                      | [] => Str.lit "Unexpected server error."
                                      | _ => text
                                      end)) :: answer) |},
                 logged (after w1 [request]) "PayPal integration error:"
                   (rejected text))).
      { rewrite Hroute. unfold error_middleware, bindM, console_error, ret.
        cbn [err_status err_message err_paypal Js.truthy rejected].
        destruct text; reflexivity. }
      split; [discriminate|]. split; [|split].
      * intros text' _ H. injection H as <-. exact Hreply.
      * intros e _ H. discriminate.
      * rewrite Hreply. reflexivity.
    + pose proof (toString_throws _ _ Etext) as ->.
      split; [discriminate|]. split; [|split].
      * intros text _ H. discriminate.
      * intros e _ H. injection H as <-. split; [reflexivity|].
        rewrite Hroute. reflexivity.
      * rewrite Hroute. reflexivity.
  - cbn [bind] in Hroute.
    assert (Hreply : capture_order cfg env orderId w =
              (Ok {| reply_status := number 500;
                     reply_body :=
                       VObj ((Str.lit "message",
                              VStr (Str.lit "PayPal API error.")) :: answer) |},
               logged (after w1 [request]) "PayPal integration error:"
                 (rejected (Str.lit "PayPal API error.")))).
    { rewrite Hroute. reflexivity. }
    split; [intros _; exact Hreply|]. split; [|split].
    + intros text H. discriminate.
    + intros e H. discriminate.
    + rewrite Hreply. reflexivity.
Qed.

(** X6.  When the gateway answers the order request with a success
    status, the order route replies 201 with the [id] of the answer,
    whatever it is: [undefined] when the answer has no [id] or is not
    JSON.  Only the answer [null] fails, with a [TypeError] that is
    answered with 500. *)
Theorem create_order_replies_id (cfg : config) (env : environment)
  (body : value) (w w1 : world) (l : list line_item) (order : value) :
  normalizeItems cfg (Js.opt body "items") = Ok l ->
  paypalRequest cfg env (Str.lit "/v2/checkout/orders") (Str.lit "POST")
    (Json (orderPayload cfg l)) w = (Ok order, w1) ->
  (Js.nullish order = false ->
     create_order cfg env body w =
     (Ok {| reply_status := number 201;
            reply_body := VObj [(Str.lit "id", Js.opt order "id")] |}, w1)) /\
  (order = VNull ->
     let e := new_TypeError
                (Str.lit "Cannot read properties of null (reading 'id')") in
     create_order cfg env body w =
     (Ok (error_reply e), logged w1 "PayPal integration error:" e)).
Proof.
  intros Hl Hreq. rewrite (create_order_accepted _ _ _ _ _ Hl), Hreq. split.
  - intros Hn. unfold Js.opt. rewrite Hn.
    destruct order; try discriminate; reflexivity.
  - intros ->. reflexivity.
Qed.

(** X7.  The order route sends nothing before the cart is accepted, and
    then at most the token request and one order request, whose body is
    the order payload of the normalized items.  It never writes to the
    transaction log. *)
Theorem create_order_trace (cfg : config) (env : environment) (body : value)
  (w : world) :
  let w' := snd (create_order cfg env body w) in
  transactions w' = transactions w /\
  (sent w' = sent w \/
   exists l,
     normalizeItems cfg (Js.opt body "items") = Ok l /\
     (sent w' = sent w ++ [token_request cfg] \/
      exists token,
        sent w' = sent w ++
          [token_request cfg;
           api_request cfg (Str.lit "/v2/checkout/orders") (Str.lit "POST")
             token (Json (orderPayload cfg l))])).
Proof.
  intros w'. subst w'.
  destruct (normalizeItems cfg (Js.opt body "items")) as [l|e] eqn:Hl.
  2:{ rewrite (create_order_rejected _ _ _ _ _ Hl). cbn. auto. }
  rewrite (create_order_accepted _ _ _ _ _ Hl).
  destruct (paypalRequest_world cfg env (Str.lit "/v2/checkout/orders")
              (Str.lit "POST") (Json (orderPayload cfg l)) w)
    as (r & requests & -> & Hreqs & _).
  assert (Hw : forall w2, sent w2 = sent (after w requests) ->
                          transactions w2 = transactions (after w requests) ->
            transactions w2 = transactions w /\
            (sent w2 = sent w \/
             exists l0, Ok l = Ok l0 /\
               (sent w2 = sent w ++ [token_request cfg] \/
                exists token,
                  sent w2 = sent w ++
                    [token_request cfg;
                     api_request cfg (Str.lit "/v2/checkout/orders")
                       (Str.lit "POST") token (Json (orderPayload cfg l0))]))).
  { intros w2 -> ->. cbn [after sent transactions]. split; [reflexivity|].
    destruct Hreqs as [->|[->|[token ->]]].
    - left. apply app_nil_r.
    - right. exists l. auto.
    - right. exists l. split; [reflexivity|]. right. eauto. }
  destruct r as [order|e].
  - destruct (Js.get order "id") as [id|e]; cbn [snd].
    + apply Hw; reflexivity.
    + destruct (error_middleware_shape e (after w requests))
        as (st & m & rest & -> & _). apply Hw; reflexivity.
  - destruct (error_middleware_shape e (after w requests))
      as (st & m & rest & -> & _). apply Hw; reflexivity.
Qed.

(** X8.  The capture route sends at most the token request and one
    capture request, which has no body.  A call adds at most one record
    to the transaction log, and only for a capture that the gateway
    answered with a success status: the record holds its summary, the
    time of the clock and the payload, and the reply is that payload. *)
Theorem capture_order_trace (cfg : config) (env : environment)
  (orderId : Str.t) (w : world) :
  let r := fst (capture_order cfg env orderId w) in
  let w' := snd (capture_order cfg env orderId w) in
  (sent w' = sent w \/
   sent w' = sent w ++ [token_request cfg] \/
   exists token,
     sent w' = sent w ++
       [token_request cfg;
        api_request cfg (capture_endpoint orderId) (Str.lit "POST")
          token NoBody]) /\
  (transactions w' = transactions w \/
   exists capture s,
     r = Ok {| reply_status := number 200; reply_body := capture |} /\
     extractCaptureSummary capture = Ok s /\
     transactions w' =
     transactions w
     ++ [{| summary := s; loggedAt := now env; raw := capture |}]).
Proof.
  intros r w'. subst r w'. rewrite capture_order_gateway.
  destruct (paypalRequest_world cfg env (capture_endpoint orderId)
              (Str.lit "POST") NoBody w)
    as (r & requests & -> & Hreqs & _).
  assert (Hs : forall w2, sent w2 = sent (after w requests) ->
            sent w2 = sent w \/
            sent w2 = sent w ++ [token_request cfg] \/
            exists token,
              sent w2 = sent w ++
                [token_request cfg;
                 api_request cfg (capture_endpoint orderId) (Str.lit "POST")
                   token NoBody]).
  { intros w2 ->. cbn [after sent].
    destruct Hreqs as [->|[->|[token ->]]]; [left; apply app_nil_r|auto|eauto]. }
  destruct r as [capture|e].
  - cbn [fst snd].
    destruct (persistCapture_returns env capture (after w requests))
      as (w2 & -> & Hsent & Hmkdir & Hsum & Happ & Hrec). cbn [snd].
    split; [apply Hs; exact Hsent|].
    destruct (mkdir env) as [e|] eqn:Em.
    { left. rewrite (Hmkdir e eq_refl). reflexivity. }
    destruct (extractCaptureSummary capture) as [s|e] eqn:Es.
    2:{ left. rewrite (Hsum e eq_refl eq_refl). reflexivity. }
    destruct (appendFile env) as [e|] eqn:Ea.
    { left. rewrite (Happ s e eq_refl eq_refl eq_refl). reflexivity. }
    right. exists capture, s. rewrite (Hrec s eq_refl eq_refl eq_refl).
    repeat split; auto.
  - destruct (error_middleware_shape e (after w requests))
      as (st & m & rest & -> & _). cbn [fst snd].
    split; [apply Hs; reflexivity|left; reflexivity].
Qed.

(** X9.  When the gateway answers the capture request with a payload
    other than [null] and the file system works, the capture route adds
    one record to the end of the transaction log, with the summary of the
    payload, the time of the clock and the payload itself, replies 200
    with the payload, and logs no error. *)
Theorem capture_order_records (cfg : config) (env : environment)
  (orderId : Str.t) (w w1 : world) (capture : value) :
  paypalRequest cfg env (capture_endpoint orderId) (Str.lit "POST") NoBody w
    = (Ok capture, w1) ->
  mkdir env = None -> appendFile env = None ->
  capture <> VNull ->
  exists s,
    extractCaptureSummary capture = Ok s /\
    capture_order cfg env orderId w =
    (Ok {| reply_status := number 200; reply_body := capture |},
     {| sent := sent w1;
        console := console w1;
        transactions :=
          transactions w1
          ++ [{| summary := s; loggedAt := now env; raw := capture |}] |}).
Proof.
  intros Hreq Hm Ha Hn.
  destruct (extractCaptureSummary_total capture Hn) as [s Hs].
  exists s. split; [exact Hs|].
  rewrite capture_order_gateway, Hreq.
  destruct (persistCapture_returns env capture w1)
    as (w2 & -> & _ & _ & _ & _ & Hrec).
  rewrite (Hrec s Hm Hs Ha). reflexivity.
Qed.

(** X10.  Both routes always reply, whatever the request, the gateway
    and the file system do: the order route with 201, the capture route
    with 200, or either with an error body whose [message] is not
    empty. *)
Theorem routes_always_reply (cfg : config) (env : environment) (w : world) :
  (forall body, exists r w',
     create_order cfg env body w = (Ok r, w') /\
     (reply_status r = number 201 \/
      exists m rest,
        reply_body r = VObj ((Str.lit "message", VStr m) :: rest) /\ m <> []))
  /\
  (forall orderId, exists r w',
     capture_order cfg env orderId w = (Ok r, w') /\
     (reply_status r = number 200 \/
      exists m rest,
        reply_body r = VObj ((Str.lit "message", VStr m) :: rest) /\ m <> [])).
Proof.
  assert (Hmw : forall e w1 ok_status, exists r w',
            error_middleware e w1 = (Ok r, w') /\
            (reply_status r = ok_status \/
             exists m rest,
               reply_body r = VObj ((Str.lit "message", VStr m) :: rest)
               /\ m <> [])).
  { intros e w1 ok_status.
    destruct (error_middleware_shape e w1) as (st & m & rest & -> & Hm).
    eexists _, _. split; [reflexivity|]. right. exists m, rest. auto. }
  split.
  - intros body.
    destruct (normalizeItems cfg (Js.opt body "items")) as [l|e] eqn:Hl.
    2:{ unfold create_order, try_catch, bindM. unfold lift at 1. rewrite Hl.
        apply Hmw. }
    rewrite (create_order_accepted _ _ _ _ _ Hl).
    destruct (paypalRequest _ _ _ _ _ w) as [[order|e] w1]; [|apply Hmw].
    destruct (Js.get order "id") as [id|e]; [|apply Hmw].
    eexists _, _. split; [reflexivity|]. left; reflexivity.
  - intros orderId. rewrite capture_order_gateway.
    destruct (paypalRequest _ _ _ _ _ w) as [[order|e] w1]; [|apply Hmw].
    eexists _, _. split; [reflexivity|]. left; reflexivity.
Qed.

(** ** Trimming *)

Lemma trimStart_idempotent s :
  Str.trimStart (Str.trimStart s) = Str.trimStart s.
Proof.
  induction s as [|c s IH]; [reflexivity|]. cbn [Str.trimStart].
  destruct (Str.is_white_space c) eqn:E; [exact IH|].
  cbn [Str.trimStart]. rewrite E. reflexivity.
Qed.

Lemma trimStart_head s c s' :
  Str.trimStart s = c :: s' -> Str.is_white_space c = false.
Proof.
  induction s as [|x s IH]; [discriminate|]. cbn [Str.trimStart].
  destruct (Str.is_white_space x) eqn:E; [exact IH|].
  intros H; injection H as <- _. exact E.
Qed.

Lemma trimStart_snoc l c :
  Str.is_white_space c = false ->
  Str.trimStart (l ++ [c]) = Str.trimStart l ++ [c].
Proof.
  intros Hc. induction l as [|x l IH]; cbn [app Str.trimStart].
  - rewrite Hc. reflexivity.
  - destruct (Str.is_white_space x); [exact IH|reflexivity].
Qed.

Lemma trimEnd_cons c s :
  Str.is_white_space c = false -> Str.trimEnd (c :: s) = c :: Str.trimEnd s.
Proof.
  intros Hc. unfold Str.trimEnd. cbn [rev].
  rewrite (trimStart_snoc _ _ Hc), rev_app_distr. reflexivity.
Qed.

Lemma trimEnd_idempotent s : Str.trimEnd (Str.trimEnd s) = Str.trimEnd s.
Proof.
  unfold Str.trimEnd. rewrite rev_involutive, trimStart_idempotent. reflexivity.
Qed.

Lemma trimEnd_last s c s' d :
  Str.trimEnd s = c :: s' -> Str.is_white_space (last (c :: s') d) = false.
Proof.
  unfold Str.trimEnd. intros H.
  destruct (Str.trimStart (rev s)) as [|x r] eqn:E; [discriminate|].
  pose proof (trimStart_head _ _ _ E) as Hx.
  cbn [rev] in H. rewrite <- H.
  rewrite last_last. exact Hx.
Qed.

Lemma trim_idempotent s : Str.trim (Str.trim s) = Str.trim s.
Proof.
  unfold Str.trim.
  destruct (Str.trimStart s) as [|c s'] eqn:E; [reflexivity|].
  pose proof (trimStart_head _ _ _ E) as Hc.
  rewrite (trimEnd_cons _ _ Hc). cbn [Str.trimStart]. rewrite Hc.
  rewrite <- (trimEnd_cons _ _ Hc). apply trimEnd_idempotent.
Qed.

Lemma trim_trimmed s : trimmed (Str.trim s) = true.
Proof.
  unfold Str.trim, trimmed.
  destruct (Str.trimStart s) as [|c s'] eqn:E; [reflexivity|].
  pose proof (trimStart_head _ _ _ E) as Hc.
  rewrite (trimEnd_cons _ _ Hc), Hc. cbn [negb andb].
  rewrite (trimEnd_last (c :: s') c (Str.trimEnd s') c (trimEnd_cons _ _ Hc)).
  reflexivity.
Qed.

(** ** What the cart normalizer returns *)

(** X11.  [normalizeItems] accepts a value exactly when it is a list, not
    empty, whose items all have a name that is a string and not empty
    once trimmed, a finite price above 0 and a positive integer
    quantity. *)
Theorem normalizeItems_accepts_valid_carts_only (cfg : config) (items : value) :
  (exists out, normalizeItems cfg items = Ok out) <-> valid_cart items = true.
Proof.
  split.
  - intros [out H]. destruct (valid_cart items) eqn:E; [reflexivity|].
    destruct (normalizeItems_invalid cfg _ E) as [e He]. congruence.
  - apply normalizeItems_valid.
Qed.

(** X12.  Every item of an accepted cart has a name that is not empty,
    has no white space at either end and is left unchanged by a second
    trimming, and it is priced in the configured currency. *)
Theorem normalized_names_are_trimmed (cfg : config) (items : value)
  (out : list line_item) :
  normalizeItems cfg items = Ok out ->
  Forall (fun o =>
            name o <> [] /\ trimmed (name o) = true /\
            Str.trim (name o) = name o /\
            currency_code (unit_amount o) = PAYPAL_CURRENCY cfg) out.
Proof.
  intros Hok. destruct items as [| | | | |[|x l]|]; try discriminate.
  rewrite normalizeItems_array in Hok.
  destruct (map_from_Ok _ _ _ _ Hok) as [Hlen Hnth].
  apply Forall_forall. intros o Hin.
  destruct (In_nth_error _ _ Hin) as [n Ho].
  assert (Hn : (n < length (x :: l))%nat).
  { rewrite <- Hlen. apply nth_error_Some. congruence. }
  destruct (nth_error (x :: l) n) as [item|] eqn:Hitem;
    [|apply nth_error_None in Hitem; lia].
  destruct (Hnth _ _ Hitem) as (o' & Ho' & Hnorm).
  rewrite Ho in Ho'. injection Ho' as <-.
  apply normalizeItem_Ok in Hnorm
    as (nm & q & p & Hname & Hne & _ & _ & _ & _ & ->).
  cbn [line_of name unit_amount currency_code].
  unfold trimmed_name in Hname.
  destruct (Js.nullish (Js.opt item "name")); [discriminate|].
  destruct (Js.opt item "name"); try discriminate.
  injection Hname as <-.
  repeat split; [exact Hne|apply trim_trimmed|apply trim_idempotent].
Qed.

(** X13.  In an accepted cart an item without a quantity (or with the
    quantity [null]) counts once, its quantity being the text "1"; and
    the category of an item is the text "DIGITAL_GOODS" when the item has
    none, and otherwise the item's own value, unchecked. *)
Theorem normalizeItems_defaults (cfg : config) (items : list value)
  (out : list line_item) (n : nat) (item : value) :
  normalizeItems cfg (VArr items) = Ok out ->
  nth_error items n = Some item ->
  exists o,
    nth_error out n = Some o /\
    (Js.nullish (Js.opt item "quantity") = true ->
       quantity o = Str.lit "1") /\
    category o =
      if Js.nullish (Js.opt item "category")
      then VStr (Str.lit "DIGITAL_GOODS")
      else Js.opt item "category".
Proof.
  intros Hok Hn. destruct items as [|x l]; [discriminate|].
  rewrite normalizeItems_array in Hok.
  destruct (map_from_Ok _ _ _ _ Hok) as [_ Hnth].
  destruct (Hnth _ _ Hn) as (o & Ho & Hitem). exists o. split; [exact Ho|].
  apply normalizeItem_Ok in Hitem
    as (nm & q & p & _ & _ & Hq & _ & _ & _ & ->).
  split; [|reflexivity].
  intros Hnull. unfold quantity_of, Js.coalesce in Hq. rewrite Hnull in Hq.
  injection Hq as <-. vm_compute. reflexivity.
Qed.

(** ** The capture summary of a payload without purchase units *)

(** X14.  [extractCaptureSummary] returns a summary for every payload
    other than [null].  When the payload has no purchase unit (as [{}],
    [undefined], or a value that is not an object) the items of the
    summary are the empty list and the fields read from the capture are
    [undefined]. *)
Theorem extractCaptureSummary_without_units (payload : value) :
  payload <> VNull ->
  exists s,
    extractCaptureSummary payload = Ok s /\
    (Js.nullish (Js.opt0 (Js.opt payload "purchase_units")) = true ->
       Summary.items s = VArr [] /\
       Summary.captureId s = VUndefined /\
       Summary.status s = VUndefined /\
       Summary.amount s = VUndefined /\
       Summary.currency s = VUndefined /\
       Summary.createTime s = VUndefined /\
       Summary.updateTime s = VUndefined).
Proof.
  intros Hn.
  assert (Hundef : forall k, Js.opt VUndefined k = VUndefined) by reflexivity.
  assert (Hnull : forall k, Js.opt VNull k = VUndefined) by reflexivity.
  destruct payload as [| |b|x|s|l|ps]; try congruence;
    try (eexists; split; [reflexivity|]; intros _; repeat split; reflexivity).
  rewrite extractCaptureSummary_object. cbv zeta.
  eexists; split; [reflexivity|].
  cbn [Summary.items Summary.captureId Summary.status Summary.amount
       Summary.currency Summary.createTime Summary.updateTime].
  intros H.
  destruct (Js.opt0 (Js.opt (VObj ps) "purchase_units")); try discriminate;
    repeat split; reflexivity.
Qed.

(** ** The cart the page builds *)

Lemma positive_is_not_below_zero (x : Num.t) :
  Num.ltb Num.zero x = true -> Num.leb x Num.zero = false.
Proof.
  destruct x as [s|[|]| |[|] m e]; try discriminate; reflexivity.
Qed.

Lemma page_item_valid (i n : Str.t) (c : Str.code_unit) (rest : Str.t)
  (price : Num.t) :
  Str.trim n = c :: rest ->
  Num.isFinite price = true -> Num.ltb Num.zero price = true ->
  valid_item (App.item i n price) = true.
Proof.
  intros Hn Hf Hp. unfold valid_item.
  change (trimmed_name (App.item i n price)) with (Ok (VStr (Str.trim n))).
  rewrite Hn.
  change (quantity_of (App.item i n price)) with (Ok (Num.of_Z 1)).
  change (price_of (App.item i n price)) with (Ok price).
  unfold good_price. rewrite Hf, (positive_is_not_below_zero _ Hp).
  vm_compute. reflexivity.
Qed.

Lemma plan_item_valid (p : App.plan) (b : App.billing) :
  In p App.PLANS -> App.contactOnly p = false ->
  valid_item
    (App.item (App.id p)
       (App.name p ++ Str.lit " (" ++ App.BILLING_LABELS b ++ Str.lit ")")
       (App.pricing p b)) = true.
Proof.
  intros [<-|[<-|[<-|[]]]] Hc; try discriminate; destruct b;
    vm_compute; reflexivity.
Qed.

Lemma selectedPlan_in_PLANS (s : App.state) (p : App.plan) :
  App.selectedPlan s = Some p -> In p App.PLANS.
Proof.
  unfold App.selectedPlan. destruct (App.selectedPlanId s) as [i|]; [|discriminate].
  intros H. apply find_some in H. apply H.
Qed.

(** X15.  Whatever stands in a top-up field, the amount read from it is
    [+0] or a number above 0: a text that is no number, an empty text,
    a zero and a negative number all count as [+0]. *)
Theorem topUpAmount_is_not_negative (text : Str.t) :
  App.topUpAmount text = Num.zero \/
  Num.ltb Num.zero (App.topUpAmount text) = true.
Proof.
  unfold App.topUpAmount. cbv zeta.
  destruct (Num.ofString text) as [s|[|]| |[|] m e]; cbn; auto.
Qed.

(** X16.  The page posts an order only for a plan that can be bought,
    and the cart it posts then passes every check of [normalizeItems],
    provided the top-up amounts are finite: the plan comes first, at its
    price for the billing period, followed by the top-ups above 0, so
    that the cart has one to three items. *)
Theorem page_cart_passes_the_checks (cfg : config) (s : App.state)
  (body : value) :
  Num.isFinite (App.topUpAmount (App.emailTopUp s)) = true ->
  Num.isFinite (App.topUpAmount (App.planningTopUp s)) = true ->
  App.order_request s = Ok body ->
  exists p l,
    App.selectedPlan s = Some p /\ App.contactOnly p = false /\
    Js.opt body "items" = VArr (App.checkoutItems s) /\
    hd_error (App.checkoutItems s)
    = Some (App.item (App.id p)
              (App.name p ++ Str.lit " ("
               ++ App.BILLING_LABELS (App.billingPeriod s) ++ Str.lit ")")
              (App.pricing p (App.billingPeriod s))) /\
    valid_cart (Js.opt body "items") = true /\
    normalizeItems cfg (Js.opt body "items") = Ok l /\
    length l = length (App.checkoutItems s) /\
    (1 <= length l <= 3)%nat.
Proof.
  intros He Hp Hreq.
  assert (Hbody : body = VObj [(Str.lit "items", VArr (App.checkoutItems s))]
                  /\ App.checkoutItems s <> []).
  { unfold App.order_request in Hreq.
    destruct (App.checkoutItems s); [discriminate|].
    injection Hreq as <-. split; [reflexivity|discriminate]. }
  destruct Hbody as [-> Hne].
  change (Js.opt (VObj [(Str.lit "items", VArr (App.checkoutItems s))]) "items")
    with (VArr (App.checkoutItems s)).
  revert Hne. unfold App.checkoutItems.
  destruct (App.selectedPlan s) as [p|] eqn:Hsel; [|congruence].
  destruct (App.contactOnly p) eqn:Hc; [congruence|]. intros _.
  pose proof (plan_item_valid p (App.billingPeriod s)
                (selectedPlan_in_PLANS _ _ Hsel) Hc) as Hplan.
  cbv zeta.
  set (plan_item := App.item (App.id p) _ _) in *.
  assert (Hemail :
    Num.ltb Num.zero (App.topUpAmount (App.emailTopUp s)) = true ->
    valid_item (App.item (Str.lit "topup-email")
                  (Str.lit "Email Credits Top-up")
                  (App.topUpAmount (App.emailTopUp s))) = true).
  { intros H. eapply page_item_valid; [vm_compute; reflexivity|exact He|exact H]. }
  assert (Hplanning :
    Num.ltb Num.zero (App.topUpAmount (App.planningTopUp s)) = true ->
    valid_item (App.item (Str.lit "topup-planning")
                  (Str.lit "Planning Credits Top-up")
                  (App.topUpAmount (App.planningTopUp s))) = true).
  { intros H. eapply page_item_valid; [vm_compute; reflexivity|exact Hp|exact H]. }
  set (items :=
         if Num.ltb Num.zero (App.topUpAmount (App.planningTopUp s))
         then _ else _).
  assert (Hitems : hd_error items = Some plan_item /\
                   forallb valid_item items = true /\
                   (1 <= length items <= 3)%nat).
  { subst items.
    destruct (Num.ltb Num.zero (App.topUpAmount (App.emailTopUp s)));
      destruct (Num.ltb Num.zero (App.topUpAmount (App.planningTopUp s)));
      cbn [app hd_error forallb length];
      rewrite ?Hplan, ?Hemail, ?Hplanning by reflexivity;
      repeat split; lia. }
  destruct Hitems as (Hhd & Hall & Hlen).
  assert (Hvalid : valid_cart (VArr items) = true).
  { destruct items; [discriminate|exact Hall]. }
  destruct (normalizeItems_valid cfg _ Hvalid) as [l Hl].
  exists p, l. repeat split; auto; try lia.
  all: destruct items as [|x items']; [discriminate|];
    rewrite normalizeItems_array in Hl;
    destruct (map_from_Ok _ _ _ _ Hl) as [Hlength _]; lia.
Qed.

(** X17.  The page gets PayPal options exactly when the server has a
    client id, whether or not it has a secret: the options then carry
    that id and the configured currency.  Before the configuration
    arrives there are none. *)
Theorem paypalOptions_of_config (cfg : config) (environment : Str.t) :
  let options := App.paypalOptions (reply_body (get_config cfg environment)) in
  (is_set (PAYPAL_CLIENT_ID cfg) = false -> options = None) /\
  (is_set (PAYPAL_CLIENT_ID cfg) = true ->
     options =
     Some (VObj [(Str.lit "clientId", VStr (env_text (PAYPAL_CLIENT_ID cfg)));
                 (Str.lit "currency", VStr (PAYPAL_CURRENCY cfg));
                 (Str.lit "intent", VStr (Str.lit "capture"))])) /\
  App.paypalOptions VNull = None.
Proof.
  unfold App.paypalOptions, get_config. cbn [reply_body].
  change (Js.opt (VObj ((Str.lit "clientId", ?c) :: ?r)) "clientId") with c.
  change (Js.opt (VObj [(Str.lit "clientId", ?c); (Str.lit "currency", ?x); ?e])
            "currency") with x.
  repeat split.
  - intros ->. reflexivity.
  - intros H. rewrite H. destruct (PAYPAL_CLIENT_ID cfg) as [[|c s]|];
      try discriminate. reflexivity.
Qed.

(** ** The order total of the lines *)

(** X18.  The order total is the exact sum of the lines.  For line items
    whose values have two decimals and whose quantities are texts of
    digits, [calculateOrderTotal] returns the text, in two decimals, of
    the sum of value times quantity computed in whole cents, although it
    adds binary fractions: no cent is lost or gained as long as the total
    in cents, times eight times the number of lines plus one, is below
    [2 ^ 50]. *)
Theorem calculateOrderTotal_is_exact (items : list line_item) (total : N) :
  exact_total items = Some total ->
  (total * (8 * N.of_nat (length items) + 1) < 2 ^ 50)%N ->
  matches_amount (calculateOrderTotal items) = true /\
  amount_cents (calculateOrderTotal items) = Some total.
Proof. apply order_total_exact. Qed.

(** ** The text of an integer *)

Lemma uint_codes_app (d d' : Decimal.uint) :
  Str.uint_codes (Decimal.app d d') = Str.uint_codes d ++ Str.uint_codes d'.
Proof.
  unfold Decimal.app. rewrite <- (rev_involutive (Str.uint_codes d)).
  assert (H : forall a b,
            Str.uint_codes (Decimal.revapp a b)
            = rev (Str.uint_codes a) ++ Str.uint_codes b).
  { induction a; intros b; cbn [Decimal.revapp Str.uint_codes rev];
      try reflexivity; rewrite IHa; cbn [Str.uint_codes];
      rewrite <- app_assoc; reflexivity. }
  rewrite H.
  assert (Hrev : forall a, Str.uint_codes (Decimal.rev a) = rev (Str.uint_codes a)).
  { intros a. unfold Decimal.rev. rewrite H. cbn [Str.uint_codes].
    apply app_nil_r. }
  rewrite Hrev. reflexivity.
Qed.

Lemma uint_codes_zeros (t : nat) :
  Str.uint_codes (Nat.iter t Decimal.D0 Decimal.Nil) = repeat 48%N t.
Proof.
  induction t as [|t IH]; [reflexivity|].
  change (Nat.iter (S t) Decimal.D0 Decimal.Nil)
    with (Decimal.D0 (Nat.iter t Decimal.D0 Decimal.Nil)).
  cbn [Str.uint_codes repeat]. rewrite IH. reflexivity.
Qed.

Lemma digits_value_zeros (a : Str.t) (t : nat) :
  Num.digits_value 10 Str.digit_value (a ++ repeat 48%N t)
  = (Num.digits_value 10 Str.digit_value a * 10 ^ N.of_nat t)%N.
Proof.
  unfold Num.digits_value. rewrite fold_left_app.
  generalize (fold_left (fun acc c => (acc * 10 + Str.digit_value c)%N) a 0%N).
  induction t as [|t IH]; intros v.
  - cbn [repeat fold_left]. change (10 ^ N.of_nat 0)%N with 1%N. lia.
  - cbn [repeat fold_left]. rewrite IH. rewrite Nat2N.inj_succ, N.pow_succ_r'.
    change (Str.digit_value 48%N) with 0%N. lia.
Qed.

(** The numeral of a number is normalized: it is zero, or starts with a
    digit other than zero. *)
Lemma to_uint_normal (n : N) : Decimal.unorm (N.to_uint n) = N.to_uint n.
Proof.
  rewrite <- (DecimalN.Unsigned.of_to n) at 2.
  symmetry. apply DecimalN.Unsigned.to_of.
Qed.

Lemma unorm_app_zeros (d : Decimal.uint) (t : nat) :
  Decimal.unorm d = d -> d <> Decimal.zero ->
  Decimal.unorm (Decimal.app d (Nat.iter t Decimal.D0 Decimal.Nil))
  = Decimal.app d (Nat.iter t Decimal.D0 Decimal.Nil).
Proof.
  intros Hn Hz. set (z := Nat.iter t Decimal.D0 Decimal.Nil).
  assert (Hcons : forall u u', DecimalFacts.to_list u = DecimalFacts.to_list u'
                               -> u = u') by apply DecimalFacts.to_list_inj.
  destruct d as [|d|d|d|d|d|d|d|d|d|d];
    try match goal with
        | |- Decimal.unorm (Decimal.app (?c ?u) ?v) = _ =>
            replace (Decimal.app (c u) v) with (c (Decimal.app u v));
            [reflexivity|];
            apply Hcons; rewrite DecimalFacts.app_spec;
            cbn [DecimalFacts.to_list]; rewrite DecimalFacts.app_spec;
            reflexivity
        end.
  - discriminate Hn.
  - exfalso. rewrite DecimalFacts.unorm_D0 in Hn. unfold Decimal.unorm in Hn.
    pose proof (DecimalFacts.nzhead_nonzero d) as Hnz.
    destruct (Decimal.nzhead d) eqn:E; try discriminate Hn.
    + injection Hn as <-. apply Hz. reflexivity.
    + apply (Hnz u). reflexivity.
Qed.

(** The text of a number that ends in zeros. *)
Lemma of_N_zeros (s : positive) (t : nat) :
  Str.of_N (Npos s * 10 ^ N.of_nat t) = Str.of_N (Npos s) ++ repeat 48%N t.
Proof.
  set (d := Decimal.app (N.to_uint (Npos s)) (Nat.iter t Decimal.D0 Decimal.Nil)).
  assert (Hcodes : Str.uint_codes d = Str.of_N (Npos s) ++ repeat 48%N t).
  { unfold d. rewrite uint_codes_app, uint_codes_zeros. reflexivity. }
  assert (Hvalue : N.of_uint d = (Npos s * 10 ^ N.of_nat t)%N).
  { pose proof (uint_codes_value d) as H. rewrite <- digits_value_fold in H.
    rewrite Hcodes, digits_value_zeros, of_N_value in H.
    unfold N.of_uint. rewrite <- H. reflexivity. }
  assert (Hnormal : Decimal.unorm d = d).
  { apply unorm_app_zeros; [apply to_uint_normal|].
    intros E. apply (f_equal N.of_uint) in E.
    rewrite DecimalN.Unsigned.of_to in E. discriminate E. }
  unfold Str.of_N at 1. rewrite <- Hvalue, DecimalN.Unsigned.to_of, Hnormal.
  exact Hcodes.
Qed.

Lemma of_N_head (s : positive) :
  exists c r, Str.of_N (Npos s) = c :: r /\ (1 <= Str.digit_value c)%N.
Proof.
  unfold Str.of_N. pose proof (to_uint_normal (Npos s)) as Hn.
  assert (Hz : N.to_uint (Npos s) <> Decimal.zero).
  { intros E. apply (f_equal N.of_uint) in E.
    rewrite DecimalN.Unsigned.of_to in E. discriminate E. }
  destruct (N.to_uint (Npos s)) as [|d|d|d|d|d|d|d|d|d|d];
    try (eexists _, _; split; [reflexivity|vm_compute; discriminate]).
  - discriminate Hn.
  - exfalso. rewrite DecimalFacts.unorm_D0 in Hn. unfold Decimal.unorm in Hn.
    pose proof (DecimalFacts.nzhead_nonzero d) as Hnz.
    destruct (Decimal.nzhead d) eqn:E; try discriminate Hn.
    + injection Hn as <-. apply Hz. reflexivity.
    + apply (Hnz u). reflexivity.
Qed.

Lemma digits_value_lower (r : Str.t) (acc : N) :
  (acc * 10 ^ N.of_nat (length r)
   <= fold_left (fun a c => a * 10 + Str.digit_value c) r acc)%N.
Proof.
  revert acc. induction r as [|c r IH]; intros acc.
  - cbn [length fold_left]. change (10 ^ N.of_nat 0)%N with 1%N. lia.
  - cbn [length fold_left]. rewrite Nat2N.inj_succ, N.pow_succ_r'.
    specialize (IH (acc * 10 + Str.digit_value c)%N).
    assert (acc * (10 * 10 ^ N.of_nat (length r))
            <= (acc * 10 + Str.digit_value c) * 10 ^ N.of_nat (length r))%N
      by nia.
    lia.
Qed.

(** A number below [10 ^ 16] has 16 digits at most. *)
Lemma of_N_length (q : positive) :
  (Npos q < 10 ^ 16)%N -> (length (Str.of_N (Npos q)) <= 16)%nat.
Proof.
  intros Hq. destruct (of_N_head q) as (c & r & Hw & Hc).
  pose proof (of_N_value (Npos q)) as Hv. rewrite Hw in Hv |- *.
  unfold Num.digits_value in Hv. cbn [fold_left] in Hv.
  pose proof (digits_value_lower r (0 * 10 + Str.digit_value c)%N) as Hlow.
  rewrite Hv in Hlow. cbn [length].
  assert (Hpow : (10 ^ N.of_nat (length r) < 10 ^ 16)%N) by nia.
  apply N.pow_lt_mono_r_iff in Hpow; lia.
Qed.

Lemma strip_zeros_split (l : Str.t) :
  exists j, l = repeat 48%N j ++ Num.strip_zeros l.
Proof.
  induction l as [|c l [j IH]]; [exists 0%nat; reflexivity|].
  cbn [Num.strip_zeros]. destruct (N.eqb_spec c 48) as [->|Hc].
  - exists (S j). cbn [repeat app]. f_equal. exact IH.
  - exists 0%nat. reflexivity.
Qed.

Lemma rev_repeat (c : Str.code_unit) (j : nat) : rev (repeat c j) = repeat c j.
Proof.
  induction j as [|j IH]; [reflexivity|]. cbn [repeat rev]. rewrite IH.
  clear IH. induction j as [|j IH]; [reflexivity|].
  cbn [repeat app]. rewrite IH. reflexivity.
Qed.

(** Two integers are the same number when they are equal. *)
Lemma of_Z_eqb (S q : Z) :
  1 <= q < 2 ^ 53 -> 1 <= S < 2 ^ 100 ->
  Num.eqb (Num.of_Z S) (Num.of_Z q) = (S =? q).
Proof.
  intros Hq HS.
  destruct (of_Z_canonical q Hq) as (mq & eq & Hofq & Hmq & Heq & Hvq).
  assert (Hlq : 0 <= Z.log2 q < 53).
  { split; [apply Z.log2_nonneg|apply Z.log2_lt_pow2; lia]. }
  rewrite Hofq.
  destruct (Z.lt_ge_cases S (2 ^ 53)) as [Hsmall|Hbig].
  - destruct (of_Z_canonical S ltac:(lia)) as (ms & es & -> & Hms & Hes & Hvs).
    unfold Num.eqb, SFeqb, SFcompare.
    destruct (Z.eqb_spec S q) as [E|E].
    + subst S. assert (Ee : es = eq) by lia. rewrite Ee in *.
      assert (Hm : Zpos ms = Zpos mq) by (rewrite Hvs, Hvq; reflexivity).
      injection Hm as ->.
      rewrite Z.compare_refl.
      change (PosDef.Pos.compare_cont Eq mq mq) with (Pos.compare mq mq).
      rewrite Pos.compare_refl. reflexivity.
    + destruct (Z.compare_spec es eq) as [Ee| |]; try reflexivity.
      destruct (PosDef.Pos.compare_cont Eq ms mq) eqn:Ec; try reflexivity.
      apply (Pos.compare_eq ms mq) in Ec. exfalso. apply E.
      assert (Hp : 0 < 2 ^ (- eq)) by (apply Z.pow_pos_nonneg; lia).
      apply (Z.mul_reg_r _ _ (2 ^ (- eq))); [lia|].
      rewrite <- Hvq, <- Ec, Hvs, Ee. reflexivity.
  - destruct (Z.eqb_spec S q) as [E|_]; [lia|].
    destruct S as [|p|p]; try lia.
    unfold Num.of_Z, binary_normalize, binary_round.
    remember (Z.log2 (Zpos p) + 1) as d eqn:Hdef.
    assert (Hlog : 2 ^ (d - 1) <= Zpos p < 2 ^ d).
    { subst d. replace (Z.log2 (Zpos p) + 1 - 1) with (Z.log2 (Zpos p)) by lia.
      apply Z.log2_spec; lia. }
    assert (Hd : 54 <= d <= 100).
    { subst d. split.
      - assert (53 <= Z.log2 (Zpos p)); [|lia]. apply Z.log2_le_pow2; lia.
      - pose proof (log2_below p 100 ltac:(lia) ltac:(lia)). lia. }
    change (Zpos (digits2_pos p)) with (Zdigits2 (Zpos p)).
    rewrite (Zdigits2_bounds p d) by lia.
    rewrite fexp_normal by lia. unfold shl_align.
    destruct (d + 0 - 53 - 0) as [|k|k] eqn:Ek; try lia.
    destruct (round_near false p 0 loc_Exact)
      as (mz & ez & -> & Hmz & Hez & Hval); [lia|lia|lia|].
    rewrite Z.sub_0_r in Hval.
    assert (Hez1 : 1 <= ez).
    { destruct (Z.eq_dec ez 0) as [E0|]; [|lia].
      rewrite E0 in Hval. change (2 ^ 0) with 1 in Hval. lia. }
    unfold Num.eqb, SFeqb, SFcompare.
    destruct (Z.compare_spec ez eq); try lia; reflexivity.
Qed.

(** The number a candidate of the digit search reads back as. *)
Lemma of_decimal_back (s t : Z) :
  0 <= s -> 0 <= t ->
  Num.of_decimal false (Z.to_N s) t
  = if s =? 0 then S754_zero false else Num.of_Z (s * 10 ^ t).
Proof.
  intros Hs Ht. destruct s as [|s|s]; try lia; [reflexivity|].
  cbn [Z.to_N Num.of_decimal Z.eqb].
  assert (Hp : 0 < 10 ^ t) by (apply Z.pow_pos_nonneg; lia).
  assert (E : Zpos (s * Z.to_pos (10 ^ t)) = Zpos s * 10 ^ t).
  { rewrite Pos2Z.inj_mul, Z2Pos.id by lia. reflexivity. }
  destruct t as [|t|t]; try lia.
  - unfold Num.of_Z. rewrite <- E. reflexivity.
  - unfold Num.of_Z. rewrite <- E. reflexivity.
Qed.

Section IntegerText.

Variable q : Z.
Hypothesis q_range : 1 <= q < 2 ^ 53.

Variable mx : positive.
Variable ex : Z.
Hypothesis q_number : Num.of_Z q = S754_finite false mx ex.
Hypothesis q_exponent : -52 <= ex <= 0.
Hypothesis q_mantissa : Zpos mx = q * 2 ^ (- ex).

(** The number of digits of [q]. *)
Variable d : Z.
Hypothesis q_digits : d = Z.of_nat (length (Str.of_N (Z.to_N q))).

Lemma fraction_integer :
  exists num den, Num.fraction mx ex = (num, den) /\ 0 < den /\ num = q * den.
Proof.
  unfold Num.fraction. destruct (Z.leb_spec 0 ex) as [H|H].
  - assert (E : ex = 0) by lia. rewrite E in *.
    exists (Zpos mx * 2 ^ 0), 1. split; [reflexivity|]. split; [lia|].
    rewrite q_mantissa. change (2 ^ (- 0)) with 1. change (2 ^ 0) with 1. ring.
  - exists (Zpos mx), (2 ^ (- ex)). split; [reflexivity|].
    split; [apply Z.pow_pos_nonneg; lia|exact q_mantissa].
Qed.

Lemma decimal_exponent_integer : Num.decimal_exponent mx ex = d.
Proof.
  unfold Num.decimal_exponent.
  destruct fraction_integer as (num & den & -> & Hden & ->).
  rewrite Z.div_mul by lia.
  destruct (Z.ltb_spec 0 q) as [_|H]; [symmetry; exact q_digits|lia].
Qed.

Lemma digits_candidate_integer (k : Z) :
  1 <= k <= d -> d <= 16 ->
  Num.digits_candidate mx ex d k
  = if q / 10 ^ (d - k) * 10 ^ (d - k) =? q
    then Some (q / 10 ^ (d - k)) else None.
Proof.
  intros Hk Hd. unfold Num.digits_candidate.
  destruct fraction_integer as (num & den & -> & Hden & ->).
  unfold Num.scale10. destruct (Z.leb_spec 0 (d - k)) as [Ht|Ht]; [|lia].
  cbv beta iota zeta.
  set (t := d - k) in *.
  assert (HP : 0 < 10 ^ t) by (apply Z.pow_pos_nonneg; lia).
  assert (HP16 : 10 ^ t <= 10 ^ 16) by (apply Z.pow_le_mono_r; lia).
  assert (Hlo : q * den / (den * 10 ^ t) = q / 10 ^ t).
  { rewrite (Z.mul_comm den). apply Z.div_mul_cancel_r; lia. }
  rewrite Hlo. set (lo := q / 10 ^ t).
  pose proof (Z.mul_div_le q (10 ^ t) HP) as Hle.
  pose proof (Z.mul_succ_div_gt q (10 ^ t) HP) as Hgt.
  fold lo in Hle, Hgt.
  assert (Hlo0 : 0 <= lo) by (apply Z.div_pos; lia).
  rewrite <- q_number.
  rewrite !of_decimal_back by lia.
  assert (Hhi : Num.eqb (if lo + 1 =? 0 then S754_zero false
                         else Num.of_Z ((lo + 1) * 10 ^ t)) (Num.of_Z q)
                = false).
  { destruct (Z.eqb_spec (lo + 1) 0); [lia|].
    rewrite of_Z_eqb by (try assumption; change (2 ^ 100) with
      1267650600228229401496703205376; change (2 ^ 53) with 9007199254740992 in *;
      change (10 ^ 16) with 10000000000000000 in *; nia).
    apply Z.eqb_neq. lia. }
  rewrite Hhi.
  destruct (Z.eqb_spec lo 0) as [E0|E0].
  - rewrite E0. rewrite q_number at 1.
    change (Num.eqb (S754_zero false) (S754_finite false mx ex)) with false.
    destruct (Z.eqb_spec (0 * 10 ^ t) q); [lia|reflexivity].
  - rewrite of_Z_eqb by (try assumption; change (2 ^ 100) with
      1267650600228229401496703205376; change (2 ^ 53) with 9007199254740992 in *;
      nia).
    replace (10 ^ t * lo) with (lo * 10 ^ t) in * by ring.
    destruct (lo * 10 ^ t =? q); reflexivity.
Qed.

Lemma shortest_digits_integer (fuel : nat) :
  forall k : Z,
    1 <= k <= d -> d - k < Z.of_nat fuel -> d <= 16 ->
    exists s k',
      Num.shortest_digits fuel mx ex d k = (s, k') /\
      k <= k' <= d /\ 1 <= s /\ s * 10 ^ (d - k') = q.
Proof.
  induction fuel as [|fuel IH]; intros k Hk Hfuel Hd; [cbn in Hfuel; lia|].
  cbn [Num.shortest_digits]. rewrite (digits_candidate_integer k Hk Hd).
  assert (HP : 0 < 10 ^ (d - k)) by (apply Z.pow_pos_nonneg; lia).
  destruct (Z.eqb_spec (q / 10 ^ (d - k) * 10 ^ (d - k)) q) as [E|E].
  - exists (q / 10 ^ (d - k)), k. split; [reflexivity|]. split; [lia|].
    split; [|exact E].
    assert (0 <= q / 10 ^ (d - k)) by (apply Z.div_pos; lia). nia.
  - assert (Hlt : k < d).
    { destruct (Z.eq_dec k d) as [Ek|]; [|lia]. exfalso. apply E.
      rewrite Ek, Z.sub_diag. change (10 ^ 0) with 1.
      rewrite Z.div_1_r. ring. }
    destruct (IH (k + 1)) as (s & k' & Hs & Hk' & Hs1 & Hq); try lia.
    exists s, k'. split; [exact Hs|]. split; [lia|]. split; assumption.
Qed.

Lemma toString_of_Z : Num.toString (Num.of_Z q) = Str.of_N (Z.to_N q).
Proof.
  assert (Hd16 : d <= 16).
  { rewrite q_digits. destruct q as [|p|p] eqn:Eq; try lia. cbn [Z.to_N].
    pose proof (of_N_length p) as H.
    assert (Hp : (Npos p < 10 ^ 16)%N).
    { change (10 ^ 16)%N with (Z.to_N (10 ^ 16)).
      change (Npos p) with (Z.to_N (Zpos p)). apply Z2N.inj_lt; lia. }
    specialize (H Hp). lia. }
  assert (Hd1 : 1 <= d).
  { rewrite q_digits. destruct q as [|p|p] eqn:Eq; try lia. cbn [Z.to_N].
    pose proof (of_N_nonempty (Npos p)) as H.
    destruct (Str.of_N (Npos p)); [congruence|]. cbn [length]. lia. }
  rewrite q_number. unfold Num.toString, Num.digits_and_exponent.
  rewrite decimal_exponent_integer.
  destruct (shortest_digits_integer 20 1) as (s & k & -> & Hk & Hs & Hq);
    [lia|cbn; lia|exact Hd16|].
  (* the text of [q] is the text of [s] followed by zeros *)
  set (t := Z.to_nat (d - k)).
  assert (Htext : Str.of_N (Z.to_N q)
                  = Str.of_N (Z.to_N s) ++ repeat 48%N t).
  { destruct s as [|s|s]; try lia. cbn [Z.to_N].
    rewrite <- of_N_zeros. f_equal. rewrite <- Hq.
    rewrite Z2N.inj_mul by (try apply Z.pow_nonneg; lia).
    f_equal. rewrite Z2N.inj_pow by lia.
    unfold t. rewrite Z_nat_N. reflexivity. }
  assert (Hlen : Z.of_nat (length (Str.of_N (Z.to_N s))) = k).
  { pose proof (f_equal (@length _) Htext) as H.
    rewrite length_app, repeat_length in H.
    unfold t in H. lia. }
  rewrite Hlen.
  destruct (strip_zeros_split (rev (Str.of_N (Z.to_N s)))) as [j Hj].
  set (ds := rev (Num.strip_zeros (rev (Str.of_N (Z.to_N s))))).
  assert (Hds : Str.of_N (Z.to_N s) = ds ++ repeat 48%N j).
  { rewrite <- (rev_involutive (Str.of_N (Z.to_N s))), Hj at 1.
    rewrite rev_app_distr, rev_repeat. reflexivity. }
  assert (Hlen' : Z.of_nat (length ds) + Z.of_nat j = k).
  { rewrite <- Hlen, Hds, length_app, repeat_length. lia. }
  replace (d + (k - k)) with d by lia.
  cbv beta iota zeta.
  assert (Hc : (Z.of_nat (length ds) <=? d) && (d <=? 21) = true).
  { apply andb_true_iff. split; apply Z.leb_le; lia. }
  rewrite Hc. cbn [app]. unfold Num.zeros.
  rewrite Htext, Hds, <- app_assoc. f_equal.
  rewrite <- repeat_app. f_equal. unfold t. lia.
Qed.

End IntegerText.

(** [String(n)] for a positive integer below [2 ^ 53]: its decimal
    digits. *)
Lemma toString_integer (q : Z) :
  1 <= q < 2 ^ 53 -> Num.toString (Num.of_Z q) = Str.of_N (Z.to_N q).
Proof.
  intros Hq.
  destruct (of_Z_canonical q Hq) as (mx & ex & Hof & Hmx & Hex & Hval).
  assert (Hlog : 0 <= Z.log2 q < 53).
  { split; [apply Z.log2_nonneg|apply Z.log2_lt_pow2; lia]. }
  apply (toString_of_Z q Hq mx ex Hof ltac:(lia) Hval _ eq_refl).
Qed.

(** ** From the prices to the total *)

Lemma eqb_finite (x : Num.t) (m : positive) (e : Z) :
  Num.eqb x (S754_finite false m e) = true -> x = S754_finite false m e.
Proof.
  unfold Num.eqb, SFeqb, SFcompare.
  destruct x as [[|]|[|]| |[|] mx ex]; try discriminate.
  destruct (Z.compare_spec ex e) as [->| |]; try discriminate.
  destruct (PosDef.Pos.compare_cont Eq mx m) eqn:E; try discriminate.
  apply (Pos.compare_eq mx m) in E. subst mx. reflexivity.
Qed.

Lemma digits_text_of_N (n : N) : digits_text (Str.of_N n) = Some n.
Proof.
  unfold digits_text. pose proof (of_N_nonempty n) as Hne.
  destruct (Str.of_N n) as [|c r] eqn:E; [congruence|].
  rewrite <- E, of_N_digits, of_N_value. reflexivity.
Qed.

(** The lines of an accepted cart, in whole cents. *)
Lemma lines_of_cart (cfg : config) (items : list value) :
  forall (index : nat) (out : list line_item) (t : N),
    map_from cfg index items = Ok out ->
    cart_cents items = Some t ->
    exact_total out = Some t.
Proof.
  induction items as [|item rest IH]; intros index out t Hout Hcents.
  - injection Hout as <-. exact Hcents.
  - cbn [map_from] in Hout.
    destruct (normalizeItem cfg index item) as [o|] eqn:Eo; [|discriminate].
    destruct (map_from cfg (S index) rest) as [os|] eqn:Eos; [|discriminate].
    cbn [bind] in Hout. injection Hout as <-.
    apply normalizeItem_Ok in Eo
      as (nm & q & p & _ & _ & Hq & Hp & Hgood & _ & ->).
    cbn [cart_cents] in Hcents. rewrite Hp in Hcents.
    unfold whole_quantity in Hcents. rewrite Hq in Hcents.
    destruct (Num.half_up q) as [z|] eqn:Ez; [|discriminate].
    destruct (Num.eqb q (Num.of_Z z)) eqn:Eqz; [|discriminate].
    destruct (cart_cents rest) as [t'|] eqn:Et; [|discriminate].
    destruct (Num.half_up (Num.mul p hundred)) as [n|] eqn:En; [|discriminate].
    destruct ((0 <=? n) && (n <? 2 ^ 52) && (1 <=? z) && (z <? 2 ^ 53)) eqn:Eb;
      [|discriminate].
    injection Hcents as <-.
    apply andb_true_iff in Eb as [Eb Hz53].
    apply andb_true_iff in Eb as [Eb Hz1].
    apply andb_true_iff in Eb as [H0 H52].
    apply Z.leb_le in H0, Hz1. apply Z.ltb_lt in H52, Hz53.
    (* the quantity is the number of [z], and prints as its digits *)
    assert (Hqz : q = Num.of_Z z).
    { destruct (of_Z_canonical z ltac:(lia)) as (mz & ez & Hof & _).
      rewrite Hof in Eqz |- *. apply eqb_finite. exact Eqz. }
    destruct (amountToString_cents p n Hgood En H52) as [_ Hc].
    cbn [exact_total line_of unit_amount money_value quantity].
    rewrite Hc, (IH _ _ _ Eos eq_refl), Hqz.
    rewrite (toString_integer z ltac:(lia)), digits_text_of_N.
    assert (Hb : ((Z.to_N n <? 2 ^ 53)%N && (Z.to_N z <? 2 ^ 53)%N) = true).
    { apply andb_true_iff.
      split; apply N.ltb_lt; change (2 ^ 53)%N with (Z.to_N (2 ^ 53));
        apply Z2N.inj_lt; lia. }
    rewrite Hb. reflexivity.
Qed.

(** The cents the code counts against the prices rounded half-up: no
    less, and at most one cent more for each unit. *)
Lemma cart_cents_between (cfg : config) (items : list value) :
  forall (index : nat) (out : list line_item) (exact units : N),
    map_from cfg index items = Ok out ->
    exact_cart_cents items = Some exact ->
    cart_units items = Some units ->
    exists total,
      cart_cents items = Some total /\ (exact <= total <= exact + units)%N.
Proof.
  induction items as [|item rest IH]; intros index out exact units Hout He Hu.
  - injection He as <-. injection Hu as <-.
    exists 0%N. split; [reflexivity|lia].
  - cbn [map_from] in Hout.
    destruct (normalizeItem cfg index item) as [o|] eqn:Eo; [|discriminate].
    destruct (map_from cfg (S index) rest) as [os|] eqn:Eos; [|discriminate].
    apply normalizeItem_Ok in Eo
      as (nm & q & p & _ & _ & _ & Hp & Hgood & _ & _).
    cbn [exact_cart_cents] in He. cbn [cart_units] in Hu. cbn [cart_cents].
    rewrite Hp in He |- *.
    destruct (whole_quantity item) as [z|]; [|discriminate].
    destruct (exact_cart_cents rest) as [e'|]; [|discriminate].
    destruct (cart_units rest) as [u'|]; [|discriminate].
    destruct (price_cents p) as [c|] eqn:Ec; [|discriminate].
    destruct ((1 <=? c) && (c <? 2 ^ 52 - 1) && (1 <=? z) && (z <? 2 ^ 53))
      eqn:Eb; [|discriminate].
    injection He as <-. injection Hu as <-.
    destruct (IH _ _ _ _ Eos eq_refl eq_refl) as (t' & -> & Ht').
    apply andb_true_iff in Eb as [Eb Hz53].
    apply andb_true_iff in Eb as [Eb Hz1].
    apply andb_true_iff in Eb as [Hc1 Hc52].
    apply Z.leb_le in Hc1, Hz1. apply Z.ltb_lt in Hc52, Hz53.
    destruct (good_price_positive p Hgood) as (m & e & ->).
    destruct (cents_between m e c Ec (conj Hc1 Hc52)) as (n & -> & Hn).
    assert (Hb : ((0 <=? n) && (n <? 2 ^ 52) && (1 <=? z) && (z <? 2 ^ 53))
                 = true).
    { repeat (apply andb_true_iff; split);
        try apply Z.leb_le; try apply Z.ltb_lt; lia. }
    rewrite Hb. eexists. split; [reflexivity|].
    destruct Hn as [->| ->]; [lia|].
    rewrite Z2N.inj_add by lia. change (Z.to_N 1) with 1%N. lia.
Qed.

(** X19.  From the prices to the total: for an accepted cart whose
    quantities are whole numbers, the order total is the text, in two
    decimals, of the cents the code counts, [Math.round] of the binary64
    product of each price and 100, times the quantities.  Against the
    prices themselves, each rounded half-up at the cent on its own
    value, that total is never less than the sum of rounded price times
    quantity, and exceeds it by one cent for each unit at most, as long
    as that sum plus the number of units, times eight times the number
    of items plus one, is below [2 ^ 50]. *)
Theorem order_total_of_cart (cfg : config) (items : list value)
  (out : list line_item) (exact units : N) :
  normalizeItems cfg (VArr items) = Ok out ->
  exact_cart_cents items = Some exact ->
  cart_units items = Some units ->
  ((exact + units) * (8 * N.of_nat (length items) + 1) < 2 ^ 50)%N ->
  exists total,
    cart_cents items = Some total /\
    (exact <= total <= exact + units)%N /\
    matches_amount (calculateOrderTotal out) = true /\
    amount_cents (calculateOrderTotal out) = Some total.
Proof.
  intros Hout Hexact Hunits Hsmall.
  destruct items as [|x l]; [discriminate|].
  rewrite normalizeItems_array in Hout.
  destruct (map_from_Ok _ _ _ _ Hout) as [Hlen _].
  destruct (cart_cents_between cfg (x :: l) 0 out exact units Hout Hexact Hunits)
    as (total & Htotal & Hbetween).
  exists total. split; [exact Htotal|]. split; [exact Hbetween|].
  apply order_total_exact.
  - apply (lines_of_cart cfg (x :: l) 0 out total); assumption.
  - rewrite Hlen. eapply N.le_lt_trans; [|exact Hsmall].
    apply N.mul_le_mono_r. lia.
Qed.

(** X20.  In an accepted cart the quantity of an item whose quantity is a
    whole number below [2 ^ 53] is the text of its decimal digits, without
    sign, fraction or exponent; the number is 1 at least. *)
Theorem normalizeItems_quantity_text (cfg : config) (items : list value)
  (out : list line_item) (n : nat) (item : value) (z : Z) :
  normalizeItems cfg (VArr items) = Ok out ->
  nth_error items n = Some item ->
  whole_quantity item = Some z -> z < 2 ^ 53 ->
  exists o,
    nth_error out n = Some o /\
    1 <= z /\
    quantity o = Str.of_N (Z.to_N z) /\
    digits_text (quantity o) = Some (Z.to_N z).
Proof.
  intros Hok Hn Hz Hz53. destruct items as [|x l]; [discriminate|].
  rewrite normalizeItems_array in Hok.
  destruct (map_from_Ok _ _ _ _ Hok) as [_ Hnth].
  destruct (Hnth _ _ Hn) as (o & Ho & Hitem). exists o. split; [exact Ho|].
  apply normalizeItem_Ok in Hitem
    as (nm & q & p & _ & _ & Hq & _ & _ & Hgood & ->).
  unfold whole_quantity in Hz. rewrite Hq in Hz.
  destruct (Num.half_up q) as [z'|] eqn:Eh; [|discriminate].
  destruct (Num.eqb q (Num.of_Z z')) eqn:Eqz; [|discriminate].
  injection Hz as ->.
  assert (Hz1 : 1 <= z).
  { unfold good_quantity in Hgood. apply andb_true_iff in Hgood as [_ Hpos].
    destruct z as [|z|z]; [| lia |]; exfalso.
    - change (Num.of_Z 0) with (S754_zero false) in Eqz.
      destruct q as [[|]|[|]| |[|] mq eq]; discriminate.
    - unfold Num.of_Z, binary_normalize in Eqz.
      pose proof (binary_round_signed true z 0) as Hs.
      destruct (binary_round Num.prec Num.emax true z 0)
        as [s|s| |s mz ez]; cbn [signed] in Hs; try subst s;
        destruct q as [[|]|[|]| |[|] mq eq]; try discriminate. }
  split; [exact Hz1|].
  assert (Hqz : q = Num.of_Z z).
  { destruct (of_Z_canonical z ltac:(lia)) as (mz & ez & Hof & _).
    rewrite Hof in Eqz |- *. apply eqb_finite. exact Eqz. }
  cbn [line_of quantity]. rewrite Hqz, (toString_integer z ltac:(lia)).
  split; [reflexivity|apply digits_text_of_N].
Qed.

(** * The further properties on concrete inputs *)

(** A server without a secret: a capture request is answered with 500
    and nothing is sent. *)
Lemma missing_credentials_send_nothing_sample :
  let e := new_Error (Str.lit "Missing PayPal credentials.") in
  capture_order config_without_secret sample_environment (Str.lit "O1")
    new_world
  = (Ok (error_reply e), logged new_world "PayPal integration error:" e).
Proof.
  apply (proj1 (missing_credentials_send_nothing config_without_secret
                  sample_environment new_world eq_refl) (Str.lit "O1")).
Defined.

(** A gateway that answers the token request with 401 and the text
    "denied". *)
Lemma refused_token_is_reported_sample :
  let e := new_Error (Str.lit "Failed to authenticate with PayPal: 401 denied") in
  create_order sample_config (gateway refusal order_response)
    (body_with sample_cart) new_world
  = (Ok (error_reply e), logged token_requested "PayPal integration error:" e).
Proof.
  apply (proj2 (refused_token_is_reported sample_config
                  (gateway refusal order_response) new_world refusal
                  eq_refl eq_refl eq_refl) (body_with sample_cart)).
  vm_compute; reflexivity.
Defined.

(** A token response without [access_token]: the capture request bears
    the text "undefined". *)
Lemma bearer_is_text_of_access_token_sample :
  sent (snd (paypalRequest sample_config
               (gateway (json_response (VObj [])) order_response)
               (capture_endpoint (Str.lit "O1")) (Str.lit "POST") NoBody
               new_world))
  = [token_request sample_config;
     api_request sample_config (capture_endpoint (Str.lit "O1"))
       (Str.lit "POST") (Str.lit "undefined") NoBody].
Proof.
  apply (proj1 (bearer_is_text_of_access_token sample_config
                  (gateway (json_response (VObj [])) order_response)
                  (capture_endpoint (Str.lit "O1")) (Str.lit "POST") NoBody
                  new_world (json_response (VObj [])) (VObj []) VUndefined
                  (Str.lit "undefined")
                  eq_refl eq_refl eq_refl eq_refl eq_refl eq_refl)).
Defined.

(** A capture the gateway rejects with 422 and a message; with the
    message [[]]; and with a message that has no text. *)
Lemma capture_rejected_by_gateway_sample :
  option_map reply_body
    (reply_of (capture_order sample_config (gateway token_response rejection)
                 (Str.lit "O1") new_world))
  = Some (VObj [prop "message" (str "Order already captured.");
                prop "paypal"
                  (VObj [prop "message" (str "Order already captured.")])])
  /\ option_map reply_body
       (reply_of (capture_order sample_config
                    (gateway token_response (failure empty_list_message))
                    (Str.lit "O1") new_world))
     = Some (VObj [prop "message" (str "Unexpected server error.");
                   prop "paypal" empty_list_message])
  /\ option_map reply_body
       (reply_of (capture_order sample_config
                    (gateway token_response (failure textless_message))
                    (Str.lit "O1") new_world))
     = Some (VObj [prop "message"
                     (str "Cannot convert object to primitive value")])
  /\ transactions
       (snd (capture_order sample_config (gateway token_response rejection)
               (Str.lit "O1") new_world)) = [].
Proof.
  destruct (capture_rejected_by_gateway sample_config
              (gateway token_response rejection) (Str.lit "O1")
              new_world token_requested (str "T") (Str.lit "T") rejection)
    as (_ & Htext & _ & Hlog);
    [vm_compute; reflexivity|reflexivity|vm_compute; reflexivity|reflexivity|].
  destruct (capture_rejected_by_gateway sample_config
              (gateway token_response (failure empty_list_message))
              (Str.lit "O1") new_world token_requested (str "T")
              (Str.lit "T") (failure empty_list_message))
    as (_ & Hempty & _ & _);
    [vm_compute; reflexivity|reflexivity|vm_compute; reflexivity|reflexivity|].
  destruct (capture_rejected_by_gateway sample_config
              (gateway token_response (failure textless_message))
              (Str.lit "O1") new_world token_requested (str "T")
              (Str.lit "T") (failure textless_message))
    as (_ & _ & Hnone & _);
    [vm_compute; reflexivity|reflexivity|vm_compute; reflexivity|reflexivity|].
  split; [|split; [|split]].
  - rewrite (Htext (Str.lit "Order already captured.")
               ltac:(vm_compute; reflexivity) ltac:(vm_compute; reflexivity)).
    vm_compute; reflexivity.
  - rewrite (Hempty [] ltac:(vm_compute; reflexivity)
               ltac:(vm_compute; reflexivity)).
    vm_compute; reflexivity.
  - rewrite (proj2 (Hnone Js.no_primitive ltac:(vm_compute; reflexivity)
                      ltac:(vm_compute; reflexivity))).
    vm_compute; reflexivity.
  - exact Hlog.
Defined.

(** The sample cart, and a gateway that answers the order request with
    [{id:"ORDER1"}]. *)
Lemma create_order_replies_id_sample :
  option_map (fun r => (reply_status r, reply_body r))
    (reply_of (create_order sample_config (gateway token_response order_response)
                 (body_with sample_cart) new_world))
  = Some (number 201, VObj [prop "id" (str "ORDER1")]).
Proof.
  rewrite (proj1 (create_order_replies_id sample_config
                    (gateway token_response order_response)
                    (body_with sample_cart) new_world
                    (snd (paypalRequest sample_config
                            (gateway token_response order_response)
                            (Str.lit "/v2/checkout/orders") (Str.lit "POST")
                            (Json (orderPayload sample_config sample_lines))
                            new_world))
                    sample_lines (VObj [prop "id" (str "ORDER1")])
                    ltac:(vm_compute; reflexivity)
                    ltac:(vm_compute; reflexivity))
             eq_refl).
  reflexivity.
Defined.

(** The sample capture, on a machine whose file system works: one record
    is written. *)
Lemma capture_order_records_sample :
  exists s,
    extractCaptureSummary sample_capture = Ok s /\
    transactions
      (snd (capture_order sample_config (gateway token_response
                                           (json_response sample_capture))
              (Str.lit "O1") new_world))
    = [{| summary := s; loggedAt := Str.lit "2024-01-01T00:00:00.000Z";
          raw := sample_capture |}].
Proof.
  destruct (capture_order_records sample_config
              (gateway token_response (json_response sample_capture))
              (Str.lit "O1") new_world
              (snd (paypalRequest sample_config
                      (gateway token_response (json_response sample_capture))
                      (capture_endpoint (Str.lit "O1")) (Str.lit "POST")
                      NoBody new_world))
              sample_capture)
    as (s & Hs & Hreply).
  - vm_compute; reflexivity.
  - reflexivity.
  - reflexivity.
  - discriminate.
  - exists s. split; [exact Hs|]. rewrite Hreply. reflexivity.
Defined.

(** The names of the sample cart, and of an item named " A ". *)
Lemma normalized_names_are_trimmed_sample :
  Forall (fun o =>
            name o <> [] /\ trimmed (name o) = true /\
            Str.trim (name o) = name o /\
            currency_code (unit_amount o) = Str.lit "USD")
    sample_lines.
Proof.
  apply (normalized_names_are_trimmed sample_config sample_cart sample_lines).
  vm_compute; reflexivity.
Defined.

(** An item with a name and a price only. *)
Lemma normalizeItems_defaults_sample :
  exists o,
    normalizeItems sample_config (VArr [bare_item]) = Ok [o] /\
    name o = Str.lit "A" /\
    quantity o = Str.lit "1" /\
    category o = str "DIGITAL_GOODS".
Proof.
  destruct (normalizeItems_defaults sample_config [bare_item]
              (match normalizeItems sample_config (VArr [bare_item]) with
               | Ok l => l
               | Throw _ => []
               end)
              0%nat bare_item)
    as (o & Ho & Hq & Hc).
  - vm_compute; reflexivity.
  - reflexivity.
  - exists o. vm_compute in Ho. injection Ho as <-.
    repeat split; vm_compute; reflexivity.
Defined.

(** The payload [{}]. *)
Lemma extractCaptureSummary_without_units_sample :
  exists s,
    extractCaptureSummary (VObj []) = Ok s /\
    Summary.items s = VArr [] /\ Summary.captureId s = VUndefined.
Proof.
  destruct (extractCaptureSummary_without_units (VObj []))
    as (s & Hs & Hfields).
  - discriminate.
  - destruct (Hfields eq_refl) as (Hitems & Hid & _).
    exists s. repeat split; assumption.
Defined.

(** The startup plan, billed yearly, with an email top-up of 10: a cart
    of two items that the normalizer accepts. *)
Lemma page_cart_passes_the_checks_sample :
  exists l,
    normalizeItems sample_config (VArr (App.checkoutItems sample_state)) = Ok l /\
    length l = 2%nat.
Proof.
  destruct (page_cart_passes_the_checks sample_config sample_state
              (VObj [prop "items" (VArr (App.checkoutItems sample_state))]))
    as (p & l & _ & _ & _ & _ & _ & Hl & Hlen & _).
  - vm_compute; reflexivity.
  - vm_compute; reflexivity.
  - vm_compute; reflexivity.
  - exists l. split; [exact Hl|]. rewrite Hlen. vm_compute; reflexivity.
Defined.

(** The lines of the sample cart: 10.00 twice and 5.01 once. *)
Lemma calculateOrderTotal_is_exact_sample :
  exact_total sample_lines = Some 2501%N /\
  amount_cents (calculateOrderTotal sample_lines) = Some 2501%N.
Proof.
  split; [vm_compute; reflexivity|].
  apply (calculateOrderTotal_is_exact sample_lines 2501);
    vm_compute; reflexivity.
Defined.

(** The sample cart, 10 twice and 5.005 once: the prices rounded half-up
    make 2500 cents on 3 units, and the total is 25.01.  The cart of the
    sample page, the startup plan at 39 and an email top-up of 10, makes
    49.00. *)
Lemma order_total_of_cart_sample :
  exact_cart_cents sample_items = Some 2500%N /\
  cart_cents sample_items = Some 2501%N /\
  amount_cents (calculateOrderTotal sample_lines) = Some 2501%N /\
  exists out,
    normalizeItems sample_config (VArr (App.checkoutItems sample_state)) = Ok out /\
    amount_cents (calculateOrderTotal out) = Some 4900%N.
Proof.
  split; [vm_compute; reflexivity|].
  destruct (order_total_of_cart sample_config sample_items sample_lines
              2500 3)
    as (total & Htotal & _ & _ & Hcents);
    [vm_compute; reflexivity ..|].
  assert (E : total = 2501%N).
  { assert (H : cart_cents sample_items = Some 2501%N)
      by (vm_compute; reflexivity).
    congruence. }
  subst total. split; [exact Htotal|]. split; [exact Hcents|].
  destruct (normalizeItems sample_config
              (VArr (App.checkoutItems sample_state))) as [out|] eqn:E;
    [|vm_compute in E; discriminate].
  exists out. split; [reflexivity|].
  destruct (order_total_of_cart sample_config
              (App.checkoutItems sample_state) out 4900 2 E)
    as (page & Hpage & _ & _ & Hpaid);
    [vm_compute; reflexivity ..|].
  assert (E' : page = 4900%N).
  { assert (H : cart_cents (App.checkoutItems sample_state) = Some 4900%N)
      by (vm_compute; reflexivity).
    congruence. }
  subst page. exact Hpaid.
Defined.

(** The first item of the sample cart has the quantity 2. *)
Lemma normalizeItems_quantity_text_sample :
  exists o,
    nth_error sample_lines 0 = Some o /\
    quantity o = Str.lit "2".
Proof.
  destruct (normalizeItems_quantity_text sample_config sample_items
              sample_lines 0%nat (cart_item "A" "10" "2") 2)
    as (o & Ho & _ & Hq & _).
  - vm_compute; reflexivity.
  - reflexivity.
  - vm_compute; reflexivity.
  - reflexivity.
  - exists o. split; [exact Ho|exact Hq].
Defined.

